(** * IEEE 802.11ad MAC performance-evaluation framework: timing engine

    A shallow embedding of the scheduling core of the framework
    ([core/timeslot.py], [core/helpers.py], [core/duration_generator.py]),
    of the set-up methods of a study ([core/inOutStudy.py]) and of the
    status reader of [legacy/helpers.py], together with the properties its
    specification states about it and further properties of the code.

    Python integers are [Z]; Python lists and NumPy integer arrays are
    [list]s; a raised exception is the [Raise] branch of [result]. *)

From Stdlib Require Import ZArith Lia QArith Qround Qabs Qpower Lqa Ascii.
From stdpp Require Import base tactics option list sorting strings pretty.

Local Open Scope Z_scope.

(** ** Exceptions *)

(** The exception classes the modelled code raises, with the message where
    the source builds one. *)
Inductive exn : Type :=
  | RuntimeError (msg : string)
  | AttributeError (msg : string)
  | ValueError (msg : string)
  | IndexError
  | KeyError
  | ZeroDivisionError
  | OverflowError
  | TypeError
  | UnboundLocalError.

Inductive result (A : Type) : Type :=
  | Ok (a : A)
  | Raise (e : exn).
Arguments Ok {A} a.
Arguments Raise {A} e.

(** Sequencing: an exception ends the computation ([x ← m; k]). *)
#[global] Instance result_ret : MRet result := @Ok.
#[global] Instance result_bind : MBind result := λ A B k m,
  match m with
  | Ok a => k a
  | Raise e => Raise e
  end.

#[global] Instance result_fmap : FMap result := λ A B f m,
  match m with
  | Ok a => Ok (f a)
  | Raise e => Raise e
  end.

Definition is_ok {A} (m : result A) : Prop := ∃ a, m = Ok a.
Definition raises {A} (m : result A) : Prop := ∃ e, m = Raise e.

(** ** [core/timeslot.py]: the free-time tracker *)

Module Timeslot.

(** A free range is a [(start, stop)] tuple of nanosecond stamps. *)
Definition range : Type := Z * Z.

(** [AvailableTime.available_time]: the list of free ranges. *)
Abbreviation AvailableTime := (list range).

(** [AvailableTime.__init__] *)
Definition new (t_start t_end : Z) : AvailableTime := [(t_start, t_end)].

(** The two exceptions of [get_available_time_idx], under the names the
    specification gives them. *)
Definition OverlappingAllocation : exn :=
  RuntimeError "Tried fitting overlapping timeslot".
Definition InsufficientTime : exn := RuntimeError "Insufficient time".

(** One step of the loop of [get_available_time_idx]: the tuple [check]. *)
Definition check (t_start t_end : Z) (at_ : range) : bool * bool :=
  ((at_.1 <=? t_start) && (t_start <=? at_.2),
   (at_.1 <=? t_end) && (t_end <=? at_.2)).

(** [for at_idx, at in enumerate(self.available_time)], started at
    position [at_idx] on the remaining ranges. *)
Fixpoint get_available_time_idx_from (at_idx : nat) (rest : list range)
    (t_start t_end : Z) : result nat :=
  match rest with
  | [] => Raise InsufficientTime
  | at_ :: rest' =>
      let c := check t_start t_end at_ in
      if c.1 && c.2 then Ok at_idx
      else if c.1 || c.2 then Raise OverlappingAllocation
      else get_available_time_idx_from (S at_idx) rest' t_start t_end
  end.

(** [AvailableTime.get_available_time_idx] *)
Definition get_available_time_idx (self : AvailableTime)
    (t_start t_end : Z) : result nat :=
  get_available_time_idx_from 0 self t_start t_end.

(** [AvailableTime.allocate_available_time].  The method mutates
    [self.available_time]; the new list is returned.  Every exception is
    raised before the first mutation, so on [Raise] the object is left as it
    was. *)
Definition allocate_available_time (self : AvailableTime)
    (t_start t_end : Z) : result AvailableTime :=
  idx ← get_available_time_idx self t_start t_end;
  match self !! idx with
  | None => Raise IndexError
  | Some at_ =>
      if (t_start =? at_.1) && (t_end =? at_.2) then
        Ok (delete idx self)
      else if t_start =? at_.1 then
        Ok (<[idx := (t_end, at_.2)]> self)
      else if t_end =? at_.2 then
        Ok (<[idx := (at_.1, t_start)]> self)
      else
        let update := [(at_.1, t_start); (t_end, at_.2)] in
        Ok (take idx self ++ update ++ drop (S idx) self)
  end.

(** The tracker after a call, whether it returned or raised. *)
Definition after_allocate (self : AvailableTime) (t_start t_end : Z)
    : AvailableTime :=
  match allocate_available_time self t_start t_end with
  | Ok self' => self'
  | Raise _ => self
  end.

(** *** Vocabulary of the specification *)

(** The stamp [t] lies in the free range, bounds included. *)
Definition within (at_ : range) (t : Z) : Prop := at_.1 ≤ t ∧ t ≤ at_.2.

(** The free range fully contains [[a,b]]: both end points lie in it. *)
Definition contains (at_ : range) (a b : Z) : Prop :=
  within at_ a ∧ within at_ b.

(** The free range holds exactly one end point of [[a,b]]. *)
Definition partially_overlaps (at_ : range) (a b : Z) : Prop :=
  (within at_ a ∧ ¬ within at_ b) ∨ (¬ within at_ a ∧ within at_ b).

(** The free range holds neither end point of [[a,b]]. *)
Definition misses (at_ : range) (a b : Z) : Prop :=
  ¬ within at_ a ∧ ¬ within at_ b.

(** Sorted by start and pairwise non-overlapping: every range starts no
    earlier than an earlier range starts, and no earlier than it stops. *)
Definition before (r1 r2 : range) : Prop := r1.1 ≤ r2.1 ∧ r1.2 ≤ r2.1.
Definition sorted_disjoint (l : AvailableTime) : Prop :=
  StronglySorted before l.

(** Separated by a gap: every range stops strictly before a later one
    starts, so that no stamp lies in two ranges. *)
Definition apart (r1 r2 : range) : Prop := r1.2 < r2.1.
Definition separated (l : AvailableTime) : Prop := StronglySorted apart l.

(** Total free time. *)
Definition total_free (l : AvailableTime) : Z :=
  foldr (λ at_ acc, (at_.2 - at_.1) + acc) 0 l.

(** What is left of the range [at_] once [[a,b]] is taken out of it. *)
Definition carve (at_ : range) (a b : Z) : list range :=
  if (a =? at_.1) && (b =? at_.2) then []
  else if a =? at_.1 then [(b, at_.2)]
  else if b =? at_.2 then [(at_.1, a)]
  else [(at_.1, a); (b, at_.2)].

(** Trackers that construction and allocations of ranges [[a,b]] with
    [a ≤ b] can produce. *)
Inductive reachable : AvailableTime → Prop :=
  | reachable_new t_start t_end : reachable (new t_start t_end)
  | reachable_allocate self a b self' :
      reachable self → a ≤ b →
      allocate_available_time self a b = Ok self' →
      reachable self'.

End Timeslot.

(** ** Python floats *)

(** The floating-point operations the modelled code uses.  The model is
    written against this interface, so that what is proved of it holds
    whatever the rounding of the operations is; [PyFloatOrder] lists the
    order laws a proof may rely on (they hold of IEEE-754 binary64
    arithmetic rounding to nearest, as long as no operation overflows or
    yields a NaN), and [Exact] instantiates the interface with exact
    rational arithmetic. *)
Class PyFloat : Type := {
  float : Type;
  (** [float(i)] and the implicit conversion of an [int] operand *)
  of_int : Z → float;
  (** the decimal literal [m]e[k], as in [1.76] and [0.25] *)
  literal : Z → Z → float;
  (** [b ** k] for integers [b] and [k < 0] *)
  int_pow : Z → Z → float;
  fadd : float → float → float;
  fsub : float → float → float;
  fmul : float → float → float;
  fdiv : float → float → float;
  (** [x % y] *)
  fmod : float → float → float;
  (** [np.abs], [np.log10] *)
  fabs : float → float;
  flog10 : float → float;
  (** [x <= y], [x == y] *)
  fleb : float → float → bool;
  feqb : float → float → bool;
  (** [int(x)] and [.astype(int)]: truncation towards zero *)
  trunc : float → Z;
  (** [math.ceil(x)] *)
  ceil : float → Z;
  (** [round(x)]: to the nearest integer, ties to even *)
  round_int : float → Z;
  (** [x.round(decimals)] *)
  around : float → Z → float;
  (** [str(x)] inside an f-string *)
  fstr : float → string;
}.

Definition fle `{PyFloat} (x y : float) : Prop := fleb x y = true.
Definition flt `{PyFloat} (x y : float) : Prop := fleb y x = false.

Class PyFloatOrder `{PyFloat} : Prop := {
  fle_refl x : fle x x;
  fle_trans x y z : fle x y → fle y z → fle x z;
  fle_total x y : fle x y ∨ fle y x;
  of_int_mono a b : a ≤ b → fle (of_int a) (of_int b);
  of_int_pos a : 0 < a → flt (of_int 0) (of_int a);
  flt_not_zero x : flt (of_int 0) x → feqb x (of_int 0) = false;
  fmul_pos a y :
    0 < a → flt (of_int 0) y → flt (of_int 0) (fmul (of_int a) y);
  fmul_mono_l x y c : flt (of_int 0) c → fle x y → fle (fmul x c) (fmul y c);
  fdiv_mono_l x y d : flt (of_int 0) d → fle x y → fle (fdiv x d) (fdiv y d);
  ceil_mono x y : fle x y → ceil x ≤ ceil y;
}.

(** [np.ceil]: the ceiling, as a float again. *)
Definition np_ceil `{PyFloat} (x : float) : float := of_int (ceil x).

(** ** [core/constants.py] *)

Module Constants.

Definition PPDU_PREAMBLE_LEN : Z := 3328.
Definition PPDU_HEADER_LEN : Z := 1024.
Definition PPDU_GI_LENGTH : Z := 64.
Definition SYMBOL_RATE_GHZ `{PyFloat} : float := literal 176 (-2).
Definition N_CBPB : list Z := [448; 896; 1792; 2688].

Definition CONTROL_PPDU_PREAMBLE_LEN : Z := 7552.
Definition CONTROL_PPDU_HEADER_LEN : Z := 40.
Definition L_CWD : Z := 168.

Definition SIFS_NS : Z := 3000.
Definition DIFS_NS : Z := 13000.

Definition TXTIME_SSW : Z := 14641.
Definition SBIFS_NS : Z := 1000.
Definition MBIFS_NS : Z := 3 * SIFS_NS.
Definition LBIFS_NS : Z := TXTIME_SSW + 2 * SBIFS_NS.

Definition MAX_A_MSDU_LENGTH : Z := 7935.

Definition AGC_AND_TRN_LENGTH : Z := 5312.

Definition UE_TO_AP_DISTANCE_M : Z := 5.

End Constants.

(** ** [core/helpers.py] *)

Module Helpers.
Import Constants.

(** [l[i]] on a Python list: a negative index counts from the end, an index
    out of range raises [IndexError]. *)
Definition py_index {A} (l : list A) (i : Z) : result A :=
  let n := Z.of_nat (length l) in
  let j := if i <? 0 then i + n else i in
  if (0 <=? j) && (j <? n) then
    match l !! Z.to_nat j with
    | Some x => Ok x
    | None => Raise IndexError
    end
  else Raise IndexError.

(** *** Scheme selection *)

(** A row of the error-rate table: for every scheme (the column label, read
    as a float) the stored BER.  The table maps a signal-to-noise point to
    its row; it is the parsed content of the CSV file behind
    [ber_results_abs_path]. *)
Definition ber_row `{PyFloat} : Type := list (float * float).
Definition ber_table `{PyFloat} : Type := list (float * ber_row).

(** [ber.loc[Eb_N0]] *)
Fixpoint loc `{PyFloat} {A} (table : list (float * A)) (key : float)
    : result A :=
  match table with
  | [] => Raise KeyError
  | (k, row) :: table' => if feqb k key then Ok row else loc table' key
  end.

(** [.max()] of a float array; [None] stands for the [ValueError] NumPy
    raises on an empty array. *)
Definition fmax `{PyFloat} (x y : float) : float := if fleb x y then y else x.
Definition np_max `{PyFloat} (a : list float) : option float :=
  match a with
  | [] => None
  | x :: a' => Some (foldl fmax x a')
  end.

(** [ber_row.round(power)] *)
Definition round_row `{PyFloat} (row : ber_row) (power : Z) : ber_row :=
  map (λ c, (c.1, around c.2 power)) row.

(** [ber_row[ber_row <= max_BER].index.values] *)
Definition conforming `{PyFloat} (row : ber_row) (max_BER : float)
    : list float :=
  map fst (List.filter (λ c, fleb c.2 max_BER) row).

(** [ber.loc[Eb_N0]] on a table whose index may repeat a label: the rows
    labelled [Eb_N0], with their labels, in the order of the table.  No
    row raises [KeyError], one row is returned as a [Series], and several
    rows are returned as a [DataFrame] whose index is their labels. *)
Definition loc_rows `{PyFloat} {A} (table : list (float * A)) (key : float)
    : list (float * A) :=
  List.filter (λ r, feqb r.1 key) table.

(** [get_optimal_mcs]; the row lookup is outside the [try] block, whatever
    is raised inside it is turned into the [RuntimeError].  On a [Series]
    [.index] is the schemes; on a [DataFrame] it is the labels of the rows,
    whatever the comparison with [max_BER] has masked. *)
Definition get_optimal_mcs `{PyFloat} (Eb_N0 max_BER : float)
    (ber : ber_table) : result float :=
  let unattainable :=
    RuntimeError
      ("BER " +:+ fstr max_BER +:+ " unattainable at " +:+ fstr Eb_N0
       +:+ " dB.") in
  match loc_rows ber Eb_N0 with
  | [] => Raise KeyError
  | [(_, ber_row)] =>
      let power := trunc (fabs (flog10 max_BER)) in
      let ber_row := round_row ber_row power in
      match np_max (conforming ber_row max_BER) with
      | Some mcs => Ok mcs
      | None => Raise unattainable
      end
  | labelled_rows =>
      match np_max (map fst labelled_rows) with
      | Some mcs => Ok mcs
      | None => Raise unattainable
      end
  end.

(** *** Frame sizes *)

(** [calc_control_frame_ppdu_size] *)
Definition calc_control_frame_ppdu_size `{PyFloat} (payload_bytes : Z)
    : float :=
  let N_cw :=
    fadd (of_int 1)
         (np_ceil (fdiv (of_int ((payload_bytes - 6) * 8)) (of_int L_CWD))) in
  let num_of_parity_symbols := fmul (of_int 168) N_cw in
  let num_of_data_symbols := (payload_bytes + 5) * 8 in
  let num_of_useful_symbols :=
    fmul (fadd num_of_parity_symbols (of_int num_of_data_symbols))
         (of_int 32) in
  fadd (of_int (CONTROL_PPDU_PREAMBLE_LEN + CONTROL_PPDU_HEADER_LEN))
       num_of_useful_symbols.

(** [calc_data_frame_ppdu_size] *)
Definition calc_data_frame_ppdu_size `{PyFloat} (PSDU_length_bytes : Z)
    (modulation_rate code_rate : float) : result Z :=
  let divisor := fmul (of_int 672) code_rate in
  if feqb divisor (of_int 0) then Raise ZeroDivisionError else
  let N_cw := fdiv (of_int (PSDU_length_bytes * 8)) divisor in
  N_cbpb ← py_index N_CBPB (trunc (fdiv modulation_rate (of_int 2)));
  let N_blks := ceil (fdiv (fmul N_cw (of_int 672)) (of_int N_cbpb)) in
  let payload_size_symbols := N_blks * 512 in
  Ok (PPDU_PREAMBLE_LEN + PPDU_HEADER_LEN + payload_size_symbols
      + PPDU_GI_LENGTH).

(** [calc_a_msdu_length] *)
Definition calc_a_msdu_length (num_of_subframes subframe_length : Z)
    : result Z :=
  if num_of_subframes <=? 1 then Ok subframe_length else
  let end_padding := subframe_length `mod` 4 in
  let a_msdu_length :=
    num_of_subframes * (2 + subframe_length)
    + (num_of_subframes - 1) * end_padding in
  if a_msdu_length >? MAX_A_MSDU_LENGTH then
    Raise (RuntimeError
      ("A-MSDU exceeded max size " +:+ pretty a_msdu_length +:+ " (max "
       +:+ pretty MAX_A_MSDU_LENGTH +:+ ")"))
  else Ok a_msdu_length.

(** *** Beamforming allocations per beacon interval *)

(** [np.zeros(n, dtype=int)] for [n ≥ 0], [np.roll] and [+=] on integer
    arrays, [.sum()]. *)
Definition np_zeros (n : nat) : list Z := replicate n 0.

Definition np_roll (a : list Z) (shift : nat) : list Z :=
  match length a with
  | O => a
  | S _ as n =>
      let k := (shift `mod` n)%nat in
      drop (n - k)%nat a ++ take (n - k)%nat a
  end.

(** The value an [int64] operation stores when its exact result is [z],
    and whether a Python [int] can be stored in an [int64] array. *)
Definition int64 (z : Z) : Z := (z + 2 ^ 63) `mod` 2 ^ 64 - 2 ^ 63.
Definition fits_int64 (z : Z) : bool := (- 2 ^ 63 <=? z) && (z <? 2 ^ 63).

Definition np_add (a b : list Z) : list Z :=
  zip_with (λ x y, int64 (x + y)) a b.

Definition np_sum (a : list Z) : Z := foldr Z.add 0 a.

(** The loop that spreads a fractional number of allocations per beacon
    interval over the remaining [n] intervals; storing [int(carry)] in the
    [int64] array raises [OverflowError] when it does not fit. *)
Fixpoint distribute `{PyFloat} (n : nat) (carry bft_per_bi : float)
    : result (list Z) :=
  match n with
  | O => Ok []
  | S n' =>
      let carry := fadd carry bft_per_bi in
      if fits_int64 (trunc carry) then
        rest ← distribute n' (fmod carry (of_int 1)) bft_per_bi;
        Ok (trunc carry :: rest)
      else Raise OverflowError
  end.

(** [for i in range(num_of_users): multi_user += np.roll(array, i)] *)
Definition out_of_sync (bft_per_bi_array : list Z) (num_of_users : Z)
    : list Z :=
  foldl (λ multi_user i, np_add multi_user (np_roll bft_per_bi_array i))
        (np_zeros (length bft_per_bi_array))
        (seq 0 (Z.to_nat num_of_users)).

Definition fallback_notice (num_of_observed_bi bi_duration bft_period : Z)
    : string :=
  "No BFT allocations with period " +:+ pretty bft_period
  +:+ " in observed period " +:+ pretty (num_of_observed_bi * bi_duration)
  +:+ ", switching to 0 BFT allocations.".

(** [get_number_of_bft_allocations].  The function prints and draws a
    random number: the lines printed are returned next to the outcome, and
    [draw] is the value [np.random.randint(0, num_of_observed_bi)] returns
    when it is called, a number with [0 ≤ draw < num_of_observed_bi]
    ([randint] raises [ValueError] when there is no such number). *)
Definition get_number_of_bft_allocations `{PyFloat} (draw : nat)
    (num_of_observed_bi bi_duration bft_period num_of_users : Z)
    : list string * result (list Z) :=
  if num_of_observed_bi <? 0 then
    ([], Raise (ValueError "negative dimensions are not allowed"))
  else
    let bft_per_bi_array := np_zeros (Z.to_nat num_of_observed_bi) in
    if bft_period >? num_of_observed_bi * bi_duration then
      let msg := fallback_notice num_of_observed_bi bi_duration bft_period in
      if num_of_observed_bi <=? 0 then
        ([msg], Raise (ValueError "high <= 0"))
      else
        let bft_per_bi_array := <[draw := 1]> bft_per_bi_array in
        ([msg], Ok (out_of_sync bft_per_bi_array num_of_users))
    else if bft_period =? 0 then
      ([], Raise ZeroDivisionError)
    else
      let bft_per_bi := fdiv (of_int bi_duration) (of_int bft_period) in
      match distribute (Z.to_nat num_of_observed_bi) (of_int 0) bft_per_bi
      with
      | Ok bft_per_bi_array =>
          ([], Ok (out_of_sync bft_per_bi_array num_of_users))
      | Raise e => ([], Raise e)
      end.

End Helpers.

(** ** [core/duration_generator.py] *)

Module Duration_generator.
Import Constants Helpers.

Section DurationGenerator.
Context `{PyFloat}.

(** The attributes of a [DurationGenerator] object.  [bti_duration],
    [bft_duration], [data_ppdu_duration], [cts_duration] and [ack_duration]
    are declared in the class body with the value [None];
    [guard_time_duration] and [data_with_overhead_duration] are not
    declared there and exist only once they have been assigned.  In both
    cases the field is [None] until its [generate_*] method stores a
    number.  [mcs_table] is the scheme table [MCS_TABLE] read from
    [MCS_table.csv]: scheme index, modulation rate and code rate. *)
Record DurationGenerator : Type := {
  mcs_table : list (float * (float * float));
  guard_time_duration : option Z;
  bti_duration : option Z;
  bft_duration : option float;
  data_ppdu_duration : option Z;
  cts_duration : option Z;
  ack_duration : option Z;
  data_with_overhead_duration : option Z;
}.

(** [DurationGenerator.__init__] *)
Definition new (MCS_TABLE : list (float * (float * float)))
    : DurationGenerator :=
  {| mcs_table := MCS_TABLE;
     guard_time_duration := None;
     bti_duration := None;
     bft_duration := None;
     data_ppdu_duration := None;
     cts_duration := None;
     ack_duration := None;
     data_with_overhead_duration := None |}.

(** Attribute assignments [self.x = v]. *)
Definition set_guard_time_duration (v : Z) (self : DurationGenerator) :=
  {| mcs_table := mcs_table self;
     guard_time_duration := Some v;
     bti_duration := bti_duration self;
     bft_duration := bft_duration self;
     data_ppdu_duration := data_ppdu_duration self;
     cts_duration := cts_duration self;
     ack_duration := ack_duration self;
     data_with_overhead_duration := data_with_overhead_duration self |}.
Definition set_bti_duration (v : Z) (self : DurationGenerator) :=
  {| mcs_table := mcs_table self;
     guard_time_duration := guard_time_duration self;
     bti_duration := Some v;
     bft_duration := bft_duration self;
     data_ppdu_duration := data_ppdu_duration self;
     cts_duration := cts_duration self;
     ack_duration := ack_duration self;
     data_with_overhead_duration := data_with_overhead_duration self |}.
Definition set_bft_duration (v : float) (self : DurationGenerator) :=
  {| mcs_table := mcs_table self;
     guard_time_duration := guard_time_duration self;
     bti_duration := bti_duration self;
     bft_duration := Some v;
     data_ppdu_duration := data_ppdu_duration self;
     cts_duration := cts_duration self;
     ack_duration := ack_duration self;
     data_with_overhead_duration := data_with_overhead_duration self |}.
Definition set_data_ppdu_duration (v : Z) (self : DurationGenerator) :=
  {| mcs_table := mcs_table self;
     guard_time_duration := guard_time_duration self;
     bti_duration := bti_duration self;
     bft_duration := bft_duration self;
     data_ppdu_duration := Some v;
     cts_duration := cts_duration self;
     ack_duration := ack_duration self;
     data_with_overhead_duration := data_with_overhead_duration self |}.
Definition set_cts_duration (v : Z) (self : DurationGenerator) :=
  {| mcs_table := mcs_table self;
     guard_time_duration := guard_time_duration self;
     bti_duration := bti_duration self;
     bft_duration := bft_duration self;
     data_ppdu_duration := data_ppdu_duration self;
     cts_duration := Some v;
     ack_duration := ack_duration self;
     data_with_overhead_duration := data_with_overhead_duration self |}.
Definition set_ack_duration (v : Z) (self : DurationGenerator) :=
  {| mcs_table := mcs_table self;
     guard_time_duration := guard_time_duration self;
     bti_duration := bti_duration self;
     bft_duration := bft_duration self;
     data_ppdu_duration := data_ppdu_duration self;
     cts_duration := cts_duration self;
     ack_duration := Some v;
     data_with_overhead_duration := data_with_overhead_duration self |}.
Definition set_data_with_overhead_duration (v : Z)
    (self : DurationGenerator) :=
  {| mcs_table := mcs_table self;
     guard_time_duration := guard_time_duration self;
     bti_duration := bti_duration self;
     bft_duration := bft_duration self;
     data_ppdu_duration := data_ppdu_duration self;
     cts_duration := cts_duration self;
     ack_duration := ack_duration self;
     data_with_overhead_duration := Some v |}.

(** *** The getters *)

(** [check_existence_and_return_duration] *)
Definition check_existence_and_return_duration {A} (duration : option A)
    : result A :=
  match duration with
  | None => Raise (RuntimeError "Tried fetching unset duration.")
  | Some d => Ok d
  end.

(** Reading an attribute the class body does not declare: the evaluation of
    [self.x] raises before the getter's check is entered. *)
Definition undeclared {A} (name : string) (attribute : option A)
    : result (option A) :=
  match attribute with
  | None =>
      Raise (AttributeError
        ("'DurationGenerator' object has no attribute '" +:+ name +:+ "'"))
  | Some d => Ok (Some d)
  end.

Definition get_guard_time_duration (self : DurationGenerator) : result Z :=
  duration ← undeclared "guard_time_duration" (guard_time_duration self);
  check_existence_and_return_duration duration.

Definition get_bti_duration (self : DurationGenerator) : result Z :=
  check_existence_and_return_duration (bti_duration self).

Definition get_bft_duration (self : DurationGenerator) : result float :=
  check_existence_and_return_duration (bft_duration self).

Definition get_data_ppdu_duration (self : DurationGenerator) : result Z :=
  check_existence_and_return_duration (data_ppdu_duration self).

Definition get_cts_duration (self : DurationGenerator) : result Z :=
  check_existence_and_return_duration (cts_duration self).

Definition get_ack_duration (self : DurationGenerator) : result Z :=
  check_existence_and_return_duration (ack_duration self).

Definition get_data_with_overhead_duration (self : DurationGenerator)
    : result Z :=
  duration ← undeclared "data_with_overhead_duration"
                        (data_with_overhead_duration self);
  check_existence_and_return_duration duration.

(** *** The generators *)

(** [generate_guard_time_duration] *)
Definition generate_guard_time_duration (self : DurationGenerator)
    (bi_duration : Z) : DurationGenerator :=
  let C := fmul (of_int 20) (int_pow 10 (-6)) in
  let Tp := 100 in
  let duration_rounded_to_us :=
    ceil (fmul (fadd (fadd (fmul C (of_int bi_duration)) (of_int SIFS_NS))
                     (of_int Tp))
               (int_pow 10 (-3))) in
  set_guard_time_duration (duration_rounded_to_us * 10 ^ 3) self.

(** [generate_bti_duration] *)
Definition generate_bti_duration (self : DurationGenerator)
    (num_of_allocations : Z) : DurationGenerator :=
  let bf_payload_length := 66 + (2 + 15 * num_of_allocations) + 34 in
  let bti_ppdu_size := calc_control_frame_ppdu_size bf_payload_length in
  set_bti_duration (round_int (fdiv bti_ppdu_size SYMBOL_RATE_GHZ)) self.

(** The sector-level sweep of [generate_bft_duration]: the value of
    [self.bft_duration] before the beam refinement is added. *)
Definition sls_duration (i_antennas i_antenna_sectors r_antennas
    r_antenna_sectors : Z) (enable_SLS enable_r_TXSS : bool) : Z :=
  if enable_SLS then
    let bft_duration :=
      if enable_r_TXSS then
        let i_ssw_slots := i_antennas * i_antenna_sectors * r_antennas in
        let r_ssw_slots := r_antennas * r_antenna_sectors * i_antennas in
        let ssw_ppdu_size := calc_control_frame_ppdu_size 24 in
        let ssw_ack_ppdu_size := calc_control_frame_ppdu_size 28 in
        let ssw_fbk_ppdu_size := ssw_ack_ppdu_size in
        let ppdu_size_sum :=
          fadd (fadd (fmul ssw_ppdu_size (of_int (i_ssw_slots + r_ssw_slots)))
                     ssw_fbk_ppdu_size)
               ssw_ack_ppdu_size in
        let ppdu_time_sum := round_int (fdiv ppdu_size_sum SYMBOL_RATE_GHZ) in
        let idle_time_sum :=
          SBIFS_NS * (i_antenna_sectors - 1) * i_antennas * r_antennas +
          LBIFS_NS * i_antennas * r_antennas +
          MBIFS_NS * 1 +
          SBIFS_NS * (r_antenna_sectors - 1) * r_antennas * i_antennas +
          LBIFS_NS * i_antennas * r_antennas +
          MBIFS_NS * Z.b2z (r_antennas =? 1) +
          LBIFS_NS * Z.b2z (r_antennas >? 1) +
          MBIFS_NS * Z.b2z (r_antennas =? 1) +
          LBIFS_NS * Z.b2z (r_antennas >? 1) in
        ppdu_time_sum + idle_time_sum
      else
        let i_ssw_slots := i_antennas * i_antenna_sectors * r_antennas in
        let r_ssw_slots := 1 in
        let ssw_ppdu_size := calc_control_frame_ppdu_size 24 in
        let ssw_ack_ppdu_size := calc_control_frame_ppdu_size 28 in
        let ssw_fbk_ppdu_size := ssw_ack_ppdu_size in
        let ppdu_size_sum :=
          fadd (fadd (fmul ssw_ppdu_size (of_int (i_ssw_slots + r_ssw_slots)))
                     ssw_fbk_ppdu_size)
               ssw_ack_ppdu_size in
        let ppdu_time_sum := round_int (fdiv ppdu_size_sum SYMBOL_RATE_GHZ) in
        let idle_time_sum :=
          SBIFS_NS * (i_antenna_sectors - 1) * i_antennas * r_antennas +
          LBIFS_NS * i_antennas * r_antennas +
          MBIFS_NS * 1 +
          0 +
          0 +
          MBIFS_NS * Z.b2z (r_antennas =? 1) +
          LBIFS_NS * Z.b2z (r_antennas >? 1) +
          MBIFS_NS * Z.b2z (r_antennas =? 1) +
          LBIFS_NS * Z.b2z (r_antennas >? 1) in
        ppdu_time_sum + idle_time_sum in
    bft_duration + SIFS_NS
  else 0.

(** The number of sectors used in the beam refinement: a quarter of the
    sectors, at least two. *)
Definition brp_sectors (antenna_sectors : Z) : Z :=
  let brp_sector_quota := literal 25 (-2) in
  let sectors := ceil (fmul (of_int antenna_sectors) brp_sector_quota) in
  if sectors <? 2 then 2 else sectors.

(** [generate_bft_duration] *)
Definition generate_bft_duration (self : DurationGenerator)
    (i_antennas i_antenna_sectors r_antennas r_antenna_sectors : Z)
    (enable_SLS enable_r_TXSS : bool) : DurationGenerator :=
  let bft_duration :=
    sls_duration i_antennas i_antenna_sectors r_antennas r_antenna_sectors
                 enable_SLS enable_r_TXSS in
  let i_brp_sectors := brp_sectors i_antenna_sectors in
  let r_brp_sectors := brp_sectors r_antenna_sectors in
  let brp_duration :=
    fdiv (fadd (fadd (fadd (calc_control_frame_ppdu_size 42)
                           (of_int (i_brp_sectors * AGC_AND_TRN_LENGTH)))
                     (calc_control_frame_ppdu_size 42))
               (of_int (r_brp_sectors * AGC_AND_TRN_LENGTH)))
         SYMBOL_RATE_GHZ in
  let brp_duration := fadd brp_duration (of_int SIFS_NS) in
  set_bft_duration (fadd (of_int bft_duration) brp_duration) self.

(** [generate_data_ppdu_duration] *)
Definition generate_data_ppdu_duration (self : DurationGenerator)
    (payload_length : Z) (mcs : float) : result DurationGenerator :=
  rates ← loc (mcs_table self) mcs;
  let Rm := rates.1 in
  let Rc := rates.2 in
  size ← calc_data_frame_ppdu_size payload_length Rm Rc;
  Ok (set_data_ppdu_duration
        (round_int (fdiv (of_int size) SYMBOL_RATE_GHZ)) self).

(** [generate_cts_duration] *)
Definition generate_cts_duration (self : DurationGenerator)
    : DurationGenerator :=
  let ppdu_size := calc_control_frame_ppdu_size 20 in
  set_cts_duration (round_int (fdiv ppdu_size SYMBOL_RATE_GHZ)) self.

(** [generate_ack_duration] *)
Definition generate_ack_duration (self : DurationGenerator)
    (num_of_mpdu : Z) : DurationGenerator :=
  let ack_payload_length := if num_of_mpdu =? 1 then 14 else 32 in
  let ppdu_size := calc_control_frame_ppdu_size ack_payload_length in
  set_ack_duration (round_int (fdiv ppdu_size SYMBOL_RATE_GHZ)) self.

(** [generate_data_with_overhead_duration] *)
Definition generate_data_with_overhead_duration (self : DurationGenerator)
    (enable_cts enable_ack : bool) : result DurationGenerator :=
  data_ppdu ← get_data_ppdu_duration self;
  let duration := data_ppdu + DIFS_NS in
  duration ←
    (if enable_cts then
       cts ← get_cts_duration self; Ok (duration + (cts + SIFS_NS))
     else Ok duration);
  duration ←
    (if enable_ack then
       ack ← get_ack_duration self; Ok (duration + (ack + SIFS_NS))
     else Ok duration);
  Ok (set_data_with_overhead_duration duration self).

(** *** Sequences of calls *)

(** The duration kinds, an untyped view of the getters, and the calls on a
    generator that store a duration. *)
Inductive kind : Type :=
  | GuardTime | Bti | Bft | DataPpdu | Cts | Ack | DataWithOverhead.

#[global] Instance kind_eq_dec : EqDecision kind.
Proof. solve_decision. Defined.

Inductive value : Type :=
  | VInt (i : Z)
  | VFloat (x : float).

Definition getter (k : kind) (self : DurationGenerator) : result value :=
  match k with
  | GuardTime => VInt <$> get_guard_time_duration self
  | Bti => VInt <$> get_bti_duration self
  | Bft => VFloat <$> get_bft_duration self
  | DataPpdu => VInt <$> get_data_ppdu_duration self
  | Cts => VInt <$> get_cts_duration self
  | Ack => VInt <$> get_ack_duration self
  | DataWithOverhead => VInt <$> get_data_with_overhead_duration self
  end.

(** The value the attribute of a kind holds, if it holds one. *)
Definition stored (k : kind) (self : DurationGenerator) : option value :=
  match k with
  | GuardTime => VInt <$> guard_time_duration self
  | Bti => VInt <$> bti_duration self
  | Bft => VFloat <$> bft_duration self
  | DataPpdu => VInt <$> data_ppdu_duration self
  | Cts => VInt <$> cts_duration self
  | Ack => VInt <$> ack_duration self
  | DataWithOverhead => VInt <$> data_with_overhead_duration self
  end.

Inductive call : Type :=
  | GenerateGuardTime (bi_duration : Z)
  | GenerateBti (num_of_allocations : Z)
  | GenerateBft (i_antennas i_antenna_sectors r_antennas
                 r_antenna_sectors : Z) (enable_SLS enable_r_TXSS : bool)
  | GenerateDataPpdu (payload_length : Z) (mcs : float)
  | GenerateCts
  | GenerateAck (num_of_mpdu : Z)
  | GenerateDataWithOverhead (enable_cts enable_ack : bool).

Definition generates (c : call) : kind :=
  match c with
  | GenerateGuardTime _ => GuardTime
  | GenerateBti _ => Bti
  | GenerateBft _ _ _ _ _ _ => Bft
  | GenerateDataPpdu _ _ => DataPpdu
  | GenerateCts => Cts
  | GenerateAck _ => Ack
  | GenerateDataWithOverhead _ _ => DataWithOverhead
  end.

Definition perform (self : DurationGenerator) (c : call)
    : result DurationGenerator :=
  match c with
  | GenerateGuardTime bi_duration =>
      Ok (generate_guard_time_duration self bi_duration)
  | GenerateBti num_of_allocations =>
      Ok (generate_bti_duration self num_of_allocations)
  | GenerateBft ia ias ra ras enable_SLS enable_r_TXSS =>
      Ok (generate_bft_duration self ia ias ra ras enable_SLS enable_r_TXSS)
  | GenerateDataPpdu payload_length mcs =>
      generate_data_ppdu_duration self payload_length mcs
  | GenerateCts => Ok (generate_cts_duration self)
  | GenerateAck num_of_mpdu => Ok (generate_ack_duration self num_of_mpdu)
  | GenerateDataWithOverhead enable_cts enable_ack =>
      generate_data_with_overhead_duration self enable_cts enable_ack
  end.

(** A caller making the calls one after the other, going on after a call
    that raised (which has left the generator as it was). *)
Definition perform_all (self : DurationGenerator) (calls : list call)
    : DurationGenerator :=
  foldl (λ self c,
           match perform self c with
           | Ok self' => self'
           | Raise _ => self
           end) self calls.

End DurationGenerator.
End Duration_generator.

(** ** Exact arithmetic *)

(** The float interface read over the rationals: every operation returns
    the exact result, the one the floating-point operation rounds.  It makes
    the model run on concrete inputs. *)
Module Exact.

(** Truncation towards zero. *)
Definition truncate (x : Q) : Z := Qnum x ÷ Z.pos (Qden x).

(** To the nearest integer, ties to even. *)
Definition nearest (x : Q) : Z :=
  let below := Qfloor x in
  match (x - inject_Z below ?= 1 # 2)%Q with
  | Lt => below
  | Gt => below + 1
  | Eq => if Z.even below then below else below + 1
  end.

(** The remainder with the sign of the divisor. *)
Definition remainder (x y : Q) : Q := (x - y * inject_Z (Qfloor (x / y)))%Q.

(** To [decimals] decimal places. *)
Definition to_decimals (x : Q) (decimals : Z) : Q :=
  (inject_Z (nearest (x * 10 ^ decimals)) / 10 ^ decimals)%Q.

(** The greatest [k ≤ fuel] with [d * 10^k ≤ n]. *)
Fixpoint decades (fuel : nat) (n d : Z) : Z :=
  match fuel with
  | O => 0
  | S fuel' => if d * 10 <=? n then 1 + decades fuel' n (d * 10) else 0
  end.

(** The base-10 logarithm truncated towards zero, which is all the model
    looks at ([int(abs(log10(x)))]); [0] where the logarithm is not
    defined. *)
Definition log10 (x : Q) : Q :=
  let n := Qnum x in
  let d := Z.pos (Qden x) in
  if n <=? 0 then 0%Q
  else if d <=? n then inject_Z (decades (Z.to_nat (Z.log2 n)) n d)
  else inject_Z (- decades (Z.to_nat (Z.log2 d)) d n).

Definition show (x : Q) : string :=
  pretty (Qnum x) +:+ "/" +:+ pretty (Z.pos (Qden x)).

#[export] Instance arithmetic : PyFloat := {|
  float := Q;
  of_int := inject_Z;
  literal m k := (inject_Z m * 10 ^ k)%Q;
  int_pow b k := (inject_Z b ^ k)%Q;
  fadd := Qplus;
  fsub := Qminus;
  fmul := Qmult;
  fdiv := Qdiv;
  fmod := remainder;
  fabs := Qabs;
  flog10 := log10;
  fleb := Qle_bool;
  feqb := Qeq_bool;
  trunc := truncate;
  ceil := Qceiling;
  round_int := nearest;
  around := to_decimals;
  fstr := show;
|}.

End Exact.

(** ** Scheme selection as the specification words it *)

Module Worded.
Import Helpers Exact.

(** The decimal precision of a number [n/d]: the number of decimals it is
    written with, the least [k] for which [n/d · 10^k] is an integer
    (searched up to [fuel]). *)
Fixpoint decimal_places (fuel : nat) (n d : Z) : Z :=
  match fuel with
  | O => 0
  | S fuel' =>
      if n `mod` d =? 0 then 0 else 1 + decimal_places fuel' (10 * n) d
  end.

Definition decimal_precision (x : Q) : Z :=
  decimal_places 40 (Qnum x) (Z.pos (Qden x)).

(** [select_scheme] in the words of the specification: the stored BER
    values of the point are rounded to the decimal precision of [max_BER],
    and the highest scheme whose rounded BER is at most [max_BER] is
    picked; none qualifying is the failure [ConstraintUnsatisfiable]. *)
Definition select_scheme (Eb_N0 max_BER : Q)
    (ber : ber_table (H:=Exact.arithmetic)) : result Q :=
  ber_row ← loc ber Eb_N0;
  let ber_row := round_row ber_row (decimal_precision max_BER) in
  match np_max (conforming ber_row max_BER) with
  | Some mcs => Ok mcs
  | None => Raise (RuntimeError "ConstraintUnsatisfiable")
  end.

End Worded.

(** ** [core/timeslot.py]: time slots and their identifiers *)

Module Slots.
Import Timeslot.

(** A [Timeslot] object.  [parent_id] exists only once [set_parent] has
    been called. *)
Record Timeslot : Type := {
  id : Z;
  name : string;
  timestamp : Z;
  duration : Z;
  parent_id : option Z;
}.

(** [Timeslot.__init__] *)
Definition Timeslot_init (id : Z) (name : string) (timestamp duration : Z)
    : Timeslot :=
  {| id := id; name := name; timestamp := timestamp; duration := duration;
     parent_id := None |}.

(** [Timeslot.set_parent] *)
Definition set_parent (self parent : Timeslot) : Timeslot :=
  {| id := id self; name := name self; timestamp := timestamp self;
     duration := duration self; parent_id := Some (id parent) |}.

(** A [ResponsibleTimeslot] object: the attributes of a [Timeslot], the
    tracker [at] and the list [children].  The list holds the children as
    time slots, whatever their class. *)
Record ResponsibleTimeslot : Type := {
  slot : Timeslot;
  at_ : AvailableTime;
  children : list Timeslot;
}.

(** [ResponsibleTimeslot.__init__] *)
Definition ResponsibleTimeslot_init (id : Z) (name : string)
    (timestamp duration : Z) : ResponsibleTimeslot :=
  {| slot := Timeslot_init id name timestamp duration;
     at_ := new timestamp (timestamp + duration);
     children := [] |}.

(** [ResponsibleTimeslot.add_child]: the allocation raises before the child
    is appended and given its parent. *)
Definition add_child (self : ResponsibleTimeslot) (child : Timeslot)
    : result ResponsibleTimeslot :=
  at' ← allocate_available_time (at_ self) (timestamp child)
                                (timestamp child + duration child);
  Ok {| slot := slot self;
        at_ := at';
        children := children self ++ [set_parent child (slot self)] |}.

(** [ResponsibleTimeslot.add_children]: the loop stops at the first child
    that does not fit; the children added before it stay.  The slot as the
    loop leaves it is returned next to the outcome. *)
Fixpoint add_children (self : ResponsibleTimeslot) (new_children : list Timeslot)
    : ResponsibleTimeslot * result unit :=
  match new_children with
  | [] => (self, Ok tt)
  | child :: rest =>
      match add_child self child with
      | Ok self' => add_children self' rest
      | Raise e => (self, Raise e)
      end
  end.

(** [ResponsibleTimeslot.get_list_of_children] and
    [ResponsibleTimeslot.get_available_time] *)
Definition get_list_of_children (self : ResponsibleTimeslot)
    : list Timeslot := children self.

Definition get_available_time (self : ResponsibleTimeslot) : AvailableTime :=
  at_ self.

(** The stamp at which a time slot stops. *)
Definition stop (t : Timeslot) : Z := timestamp t + duration t.

(** Two time slots share no stretch of time. *)
Definition disjoint (t1 t2 : Timeslot) : Prop :=
  stop t1 ≤ timestamp t2 ∨ stop t2 ≤ timestamp t1.

(** The slots a [ResponsibleTimeslot] can be after construction and calls
    of [add_child] that returned, for children that satisfy [P]. *)
Inductive grown (P : Timeslot → Prop) : ResponsibleTimeslot → Prop :=
  | grown_init id name timestamp duration :
      grown P (ResponsibleTimeslot_init id name timestamp duration)
  | grown_add_child self child self' :
      grown P self → P child →
      add_child self child = Ok self' → grown P self'.

(** The trackers a tracker can become through calls of
    [allocate_available_time] that returned. *)
Inductive later (self : AvailableTime) : AvailableTime → Prop :=
  | later_now : later self self
  | later_allocate self' a b self'' :
      later self self' →
      allocate_available_time self' a b = Ok self'' →
      later self self''.

(** The sum of the durations of time slots. *)
Definition total_duration (l : list Timeslot) : Z :=
  foldr (λ t acc, duration t + acc) 0 l.

(** [TimeslotIdGenerator]: the attribute [id_counter]. *)
Record TimeslotIdGenerator : Type := { id_counter : Z }.

(** [TimeslotIdGenerator.__init__] *)
Definition TimeslotIdGenerator_init : TimeslotIdGenerator :=
  {| id_counter := 0 |}.

(** [TimeslotIdGenerator.get_new_id]: the identifier and the generator
    after the call. *)
Definition get_new_id (self : TimeslotIdGenerator)
    : Z * TimeslotIdGenerator :=
  let tmp_id_counter := id_counter self in
  (tmp_id_counter, {| id_counter := id_counter self + 1 |}).

(** [n] calls of [get_new_id] in a row: the identifiers in the order of the
    calls, and the generator after the last one. *)
Fixpoint get_new_ids (n : nat) (self : TimeslotIdGenerator)
    : list Z * TimeslotIdGenerator :=
  match n with
  | O => ([], self)
  | S n' =>
      let '(new_id, self') := get_new_id self in
      let '(ids, self'') := get_new_ids n' self' in
      (new_id :: ids, self'')
  end.

End Slots.

(** ** More laws of float arithmetic *)

(** Addition, multiplication by a positive number on the left and rounding
    to an integer are monotone. *)
Class PyFloatMonotone `{PyFloat} : Prop := {
  fadd_mono x x' y y' : fle x x' → fle y y' → fle (fadd x y) (fadd x' y');
  fmul_mono_r c x y : flt (of_int 0) c → fle x y → fle (fmul c x) (fmul c y);
  round_int_mono x y : fle x y → round_int x ≤ round_int y;
}.

(** [x.round(k)] returns a decimal of [k] digits, one of the two that
    enclose [x].  (NumPy computes [rint(x * 10**k) / 10**k]; the laws hold
    of it for the powers of ten that are exact, up to [10**22], and
    decimals whose digits make a number below 2^51.) *)
Class PyFloatDecimals `{PyFloat} : Prop := {
  around_decimal x k :
    0 ≤ k ≤ 22 → ∃ m, feqb (around x k) (literal m (- k)) = true;
  around_below x k m :
    0 ≤ k ≤ 22 → - 2 ^ 51 < m < 2 ^ 51 →
    fle (literal m (- k)) x → fle (literal m (- k)) (around x k);
  around_above x k m :
    0 ≤ k ≤ 22 → - 2 ^ 51 < m < 2 ^ 51 →
    fle x (literal m (- k)) → fle (around x k) (literal m (- k));
}.

(** The quotient of two integers, the dividend below 2^53 in magnitude
    and the divisor positive, truncates to their integer quotient (the
    correctly rounded quotient of two such integers does not reach the next
    integer); and a quotient that is not positive does not truncate to a
    positive integer. *)
Class PyFloatQuotient `{PyFloat} : Prop := {
  trunc_fdiv_of_int a b :
    - 2 ^ 53 < a < 2 ^ 53 → 0 < b →
    trunc (fdiv (of_int a) (of_int b)) = a ÷ b;
  trunc_fdiv_nonpos a b :
    a ≤ 0 → 0 < b → trunc (fdiv (of_int a) (of_int b)) ≤ 0;
}.

(** The integers up to 2^53 in magnitude are floats, and the sum, the
    difference and the product of two of them is the float of the exact
    result when that is such an integer again (up to the sign of a zero,
    which is why the laws are stated with [<=] both ways).  The quotient
    of two of them lies between the two integers that enclose the exact
    quotient, and its ceiling is the ceiling of the exact quotient (the
    correctly rounded quotient does not reach the next integer).  The
    operations round monotonically. *)
Class PyFloatIntegers `{PyFloat} : Prop := {
  fleb_of_int a b :
    Z.abs a ≤ 2 ^ 53 → Z.abs b ≤ 2 ^ 53 →
    fleb (of_int a) (of_int b) = (a <=? b);
  feqb_of_int a b :
    Z.abs a ≤ 2 ^ 53 → Z.abs b ≤ 2 ^ 53 →
    feqb (of_int a) (of_int b) = (a =? b);
  feqb_fle x y : feqb x y = true → fle x y ∧ fle y x;
  fadd_of_int a b :
    Z.abs a ≤ 2 ^ 53 → Z.abs b ≤ 2 ^ 53 → Z.abs (a + b) ≤ 2 ^ 53 →
    fle (of_int (a + b)) (fadd (of_int a) (of_int b)) ∧
    fle (fadd (of_int a) (of_int b)) (of_int (a + b));
  fsub_of_int a b :
    Z.abs a ≤ 2 ^ 53 → Z.abs b ≤ 2 ^ 53 → Z.abs (a - b) ≤ 2 ^ 53 →
    fle (of_int (a - b)) (fsub (of_int a) (of_int b)) ∧
    fle (fsub (of_int a) (of_int b)) (of_int (a - b));
  fmul_of_int a b :
    Z.abs a ≤ 2 ^ 53 → Z.abs b ≤ 2 ^ 53 → Z.abs (a * b) ≤ 2 ^ 53 →
    fle (of_int (a * b)) (fmul (of_int a) (of_int b)) ∧
    fle (fmul (of_int a) (of_int b)) (of_int (a * b));
  fmul_half_of_int a :
    Z.abs a ≤ 2 ^ 52 →
    fle (of_int a) (fmul (of_int (2 * a)) (literal 5 (-1))) ∧
    fle (fmul (of_int (2 * a)) (literal 5 (-1))) (of_int a);
  half_pos : flt (of_int 0) (literal 5 (-1));
  fdiv_of_int a b :
    Z.abs a ≤ 2 ^ 53 → 0 < b ≤ 2 ^ 53 →
    fle (of_int (a / b)) (fdiv (of_int a) (of_int b)) ∧
    fle (fdiv (of_int a) (of_int b)) (of_int (a / b + 1));
  ceil_fdiv_of_int a b :
    Z.abs a < 2 ^ 53 → 0 < b ≤ 2 ^ 53 →
    ceil (fdiv (of_int a) (of_int b)) = - (- a / b);
  fsub_mono x x' y y' : fle x x' → fle y' y → fle (fsub x y) (fsub x' y');
  fmul_minus_one_anti x y :
    fle x y → fle (fmul (of_int (-1)) y) (fmul (of_int (-1)) x);
  trunc_mono x y : fle x y → trunc x ≤ trunc y;
}.

(** ** [core/helpers.py]: aggregation *)

Module Aggregation.
Import Constants Helpers.

(** [MAX_PSDU_LENGTH] and [MAX_PPDU_TIME] of [core/constants.py] *)
Definition MAX_PSDU_LENGTH : Z := 262143.
Definition MAX_PPDU_TIME : Z := 2000000.

(** [calc_a_mpdu_length] *)
Definition calc_a_mpdu_length (num_of_subframes subframe_length : Z) : Z :=
  if num_of_subframes <=? 1 then subframe_length else
  let end_padding := subframe_length `mod` 4 in
  num_of_subframes * (4 + subframe_length)
  + (num_of_subframes - 1) * end_padding.

(** [calc_data_mpdu_length]; [ack_policy] is [None] by default. *)
Definition calc_data_mpdu_length (msdu_length : Z) (ack_policy : option Z)
    : Z :=
  let mpdu_length := 16 + msdu_length in
  match ack_policy with
  | Some _ => mpdu_length + 8
  | None => mpdu_length
  end.

(** The octets of [calc_max_a_mpdu_subframes] that fit the longest PPDU
    under the scheme's rates, cut at the longest PSDU. *)
Definition max_mpdu_octets `{PyFloat} (Rm Rc : float) : Z :=
  let available_time := MAX_PPDU_TIME - 2509 in
  let num_of_symbols :=
    trunc (fmul (of_int available_time) SYMBOL_RATE_GHZ) in
  let mpdu_octets :=
    trunc (fdiv (fmul (fmul (fdiv (of_int (num_of_symbols * 448))
                                  (of_int 512)) Rm) Rc)
                (of_int 8)) in
  if mpdu_octets >? MAX_PSDU_LENGTH then MAX_PSDU_LENGTH else mpdu_octets.

(** [calc_max_a_mpdu_subframes]; [mcs_table] is [MCS_TABLE]. *)
Definition calc_max_a_mpdu_subframes `{PyFloat}
    (mcs_table : list (float * (float * float))) (mcs : float)
    (subframe_length : Z) : result Z :=
  rates ← loc mcs_table mcs;
  let Rm := rates.1 in
  let Rc := rates.2 in
  let mpdu_octets := max_mpdu_octets Rm Rc in
  let padding := subframe_length `mod` 4 in
  if 4 + subframe_length + padding =? 0 then Raise ZeroDivisionError else
  let num_of_subframes :=
    fdiv (of_int mpdu_octets) (of_int (4 + subframe_length + padding)) in
  Ok (trunc num_of_subframes).

End Aggregation.

(** ** NumPy arrays *)

(** A float array is a list of floats.  The functions below are those the
    two studies call, with the arithmetic NumPy does in each of them. *)
Module Numpy.

Section Numpy.
Context `{PyFloat}.

(** [x < y] on floats *)
Definition fltb (x y : float) : bool := negb (fleb y x).

(** [.min()] of a float array; [None] stands for the [ValueError] NumPy
    raises on an empty array. *)
Definition fmin (x y : float) : float := if fleb y x then y else x.
Definition np_min (a : list float) : option float :=
  match a with
  | [] => None
  | x :: a' => Some (foldl fmin x a')
  end.

(** [np.linspace(start, stop, num, endpoint=False)]: [num] points from
    [start] on, [step = (stop - start) / num] apart, computed as
    [i * step + start] (and as [(i / num) * (stop - start) + start] when
    the step is zero). *)
Definition np_linspace (start stop : float) (num : Z) : result (list float) :=
  if num <? 0 then
    Raise (ValueError
      ("Number of samples, " +:+ pretty num +:+ ", must be non-negative."))
  else
    let delta := fsub stop start in
    let step := fdiv delta (of_int num) in
    Ok (map (λ i,
               let y :=
                 if feqb step (of_int 0)
                 then fmul (fdiv (of_int i) (of_int num)) delta
                 else fmul (of_int i) step in
               fadd y start)
            (seqZ 0 num)).

(** [np.arange(start, stop, step)] for floats [start], [stop] and an
    integer [step]: [ceil((stop - start) / step)] elements; the first is
    [start], the second [start + step], and the [i]-th is
    [start + i * delta] for the difference [delta] of the first two.  A
    zero step makes the length infinite or undefined, which NumPy
    refuses. *)
Definition np_arange (start stop : float) (step : Z) : result (list float) :=
  if step =? 0 then
    if feqb stop start
    then Raise (ValueError "arange: cannot compute length")
    else Raise OverflowError
  else
    let length := ceil (fdiv (fsub stop start) (of_int step)) in
    let next := fadd start (of_int step) in
    let delta := fsub next start in
    Ok (map (λ i,
               if i =? 0 then start
               else if i =? 1 then next
               else fadd start (fmul (of_int i) delta))
            (seqZ 0 length)).

(** [np.repeat(a, repeats)] *)
Definition np_repeat {A} (a : list A) (repeats : Z) : result (list A) :=
  if repeats <? 0 then
    Raise (ValueError "repeats may not contain negative values.")
  else Ok (flat_map (replicate (Z.to_nat repeats)) a).

(** [np.resize([-1, 1], size)] *)
Definition np_resize_signs (size : nat) : list Z :=
  map (λ i, if Nat.even i then -1 else 1) (seq 0 size).

(** [a.resize(int(a.size / 2), 2)]: the rows of two elements *)
Fixpoint rows_of_two {A} (a : list A) : list (A * A) :=
  match a with
  | x :: y :: a' => (x, y) :: rows_of_two a'
  | _ => []
  end.

End Numpy.

(** The position of the first [v] in [a]. *)
Fixpoint first_index (v : Z) (a : list Z) : nat :=
  match a with
  | [] => 0
  | x :: a' => if x =? v then 0 else S (first_index v a')
  end.

(** [np.unique(a, return_index=True)]: the values of [a] in increasing
    order, each once, with the index of its first occurrence. *)
Definition np_unique (a : list Z) : list (Z * nat) :=
  map (λ v, (v, first_index v a)) (merge_sort Z.le (remove_dups a)).

End Numpy.

(** ** [core/inOutStudy.py]: the set-up of a study *)

Module In_out_study.
Import Constants Helpers Aggregation Duration_generator.

Section InOutStudy.
Context `{PyFloat}.

(** The attributes of an [InOutStudy] object that the set-up methods below
    read and write (the results of a run are passed on explicitly).  An
    attribute is [None] until a method has assigned it; [study_class] is
    the name of the class of the object, which the message of an
    [AttributeError] quotes.  The two arrays of allocation counts are
    NumPy [int64] arrays. *)
Record InOutStudy : Type := {
  study_class : string;
  bi_duration : Z;
  num_of_observed_bi : Z;
  dg : DurationGenerator;
  mcs : option float;
  msdu_length_bytes : option Z;
  num_of_a_msdu_subframes : option Z;
  a_msdu_length_bytes : option Z;
  mpdu_length_bytes : option Z;
  num_of_a_mpdu_subframes : option Z;
  psdu_length_bytes : option Z;
  enable_cts : option bool;
  enable_ack : option bool;
  num_of_users : option Z;
  num_of_bft_allocations : option (list Z);
  num_of_data_allocations : option (list Z);
  tig : Slots.TimeslotIdGenerator;
}.

(** Attribute assignments [self.x = v]. *)
Definition assign_dg (v : DurationGenerator) (self : InOutStudy) : InOutStudy :=
  {| study_class := study_class self;
     bi_duration := bi_duration self;
     num_of_observed_bi := num_of_observed_bi self;
     dg := v;
     mcs := mcs self;
     msdu_length_bytes := msdu_length_bytes self;
     num_of_a_msdu_subframes := num_of_a_msdu_subframes self;
     a_msdu_length_bytes := a_msdu_length_bytes self;
     mpdu_length_bytes := mpdu_length_bytes self;
     num_of_a_mpdu_subframes := num_of_a_mpdu_subframes self;
     psdu_length_bytes := psdu_length_bytes self;
     enable_cts := enable_cts self;
     enable_ack := enable_ack self;
     num_of_users := num_of_users self;
     num_of_bft_allocations := num_of_bft_allocations self;
     num_of_data_allocations := num_of_data_allocations self;
     tig := tig self |}.
Definition assign_mcs (v : float) (self : InOutStudy) : InOutStudy :=
  {| study_class := study_class self;
     bi_duration := bi_duration self;
     num_of_observed_bi := num_of_observed_bi self;
     dg := dg self;
     mcs := Some v;
     msdu_length_bytes := msdu_length_bytes self;
     num_of_a_msdu_subframes := num_of_a_msdu_subframes self;
     a_msdu_length_bytes := a_msdu_length_bytes self;
     mpdu_length_bytes := mpdu_length_bytes self;
     num_of_a_mpdu_subframes := num_of_a_mpdu_subframes self;
     psdu_length_bytes := psdu_length_bytes self;
     enable_cts := enable_cts self;
     enable_ack := enable_ack self;
     num_of_users := num_of_users self;
     num_of_bft_allocations := num_of_bft_allocations self;
     num_of_data_allocations := num_of_data_allocations self;
     tig := tig self |}.
Definition assign_msdu_length_bytes (v : Z) (self : InOutStudy) : InOutStudy :=
  {| study_class := study_class self;
     bi_duration := bi_duration self;
     num_of_observed_bi := num_of_observed_bi self;
     dg := dg self;
     mcs := mcs self;
     msdu_length_bytes := Some v;
     num_of_a_msdu_subframes := num_of_a_msdu_subframes self;
     a_msdu_length_bytes := a_msdu_length_bytes self;
     mpdu_length_bytes := mpdu_length_bytes self;
     num_of_a_mpdu_subframes := num_of_a_mpdu_subframes self;
     psdu_length_bytes := psdu_length_bytes self;
     enable_cts := enable_cts self;
     enable_ack := enable_ack self;
     num_of_users := num_of_users self;
     num_of_bft_allocations := num_of_bft_allocations self;
     num_of_data_allocations := num_of_data_allocations self;
     tig := tig self |}.
Definition assign_num_of_a_msdu_subframes (v : Z) (self : InOutStudy) : InOutStudy :=
  {| study_class := study_class self;
     bi_duration := bi_duration self;
     num_of_observed_bi := num_of_observed_bi self;
     dg := dg self;
     mcs := mcs self;
     msdu_length_bytes := msdu_length_bytes self;
     num_of_a_msdu_subframes := Some v;
     a_msdu_length_bytes := a_msdu_length_bytes self;
     mpdu_length_bytes := mpdu_length_bytes self;
     num_of_a_mpdu_subframes := num_of_a_mpdu_subframes self;
     psdu_length_bytes := psdu_length_bytes self;
     enable_cts := enable_cts self;
     enable_ack := enable_ack self;
     num_of_users := num_of_users self;
     num_of_bft_allocations := num_of_bft_allocations self;
     num_of_data_allocations := num_of_data_allocations self;
     tig := tig self |}.
Definition assign_a_msdu_length_bytes (v : Z) (self : InOutStudy) : InOutStudy :=
  {| study_class := study_class self;
     bi_duration := bi_duration self;
     num_of_observed_bi := num_of_observed_bi self;
     dg := dg self;
     mcs := mcs self;
     msdu_length_bytes := msdu_length_bytes self;
     num_of_a_msdu_subframes := num_of_a_msdu_subframes self;
     a_msdu_length_bytes := Some v;
     mpdu_length_bytes := mpdu_length_bytes self;
     num_of_a_mpdu_subframes := num_of_a_mpdu_subframes self;
     psdu_length_bytes := psdu_length_bytes self;
     enable_cts := enable_cts self;
     enable_ack := enable_ack self;
     num_of_users := num_of_users self;
     num_of_bft_allocations := num_of_bft_allocations self;
     num_of_data_allocations := num_of_data_allocations self;
     tig := tig self |}.
Definition assign_mpdu_length_bytes (v : Z) (self : InOutStudy) : InOutStudy :=
  {| study_class := study_class self;
     bi_duration := bi_duration self;
     num_of_observed_bi := num_of_observed_bi self;
     dg := dg self;
     mcs := mcs self;
     msdu_length_bytes := msdu_length_bytes self;
     num_of_a_msdu_subframes := num_of_a_msdu_subframes self;
     a_msdu_length_bytes := a_msdu_length_bytes self;
     mpdu_length_bytes := Some v;
     num_of_a_mpdu_subframes := num_of_a_mpdu_subframes self;
     psdu_length_bytes := psdu_length_bytes self;
     enable_cts := enable_cts self;
     enable_ack := enable_ack self;
     num_of_users := num_of_users self;
     num_of_bft_allocations := num_of_bft_allocations self;
     num_of_data_allocations := num_of_data_allocations self;
     tig := tig self |}.
Definition assign_num_of_a_mpdu_subframes (v : Z) (self : InOutStudy) : InOutStudy :=
  {| study_class := study_class self;
     bi_duration := bi_duration self;
     num_of_observed_bi := num_of_observed_bi self;
     dg := dg self;
     mcs := mcs self;
     msdu_length_bytes := msdu_length_bytes self;
     num_of_a_msdu_subframes := num_of_a_msdu_subframes self;
     a_msdu_length_bytes := a_msdu_length_bytes self;
     mpdu_length_bytes := mpdu_length_bytes self;
     num_of_a_mpdu_subframes := Some v;
     psdu_length_bytes := psdu_length_bytes self;
     enable_cts := enable_cts self;
     enable_ack := enable_ack self;
     num_of_users := num_of_users self;
     num_of_bft_allocations := num_of_bft_allocations self;
     num_of_data_allocations := num_of_data_allocations self;
     tig := tig self |}.
Definition assign_psdu_length_bytes (v : Z) (self : InOutStudy) : InOutStudy :=
  {| study_class := study_class self;
     bi_duration := bi_duration self;
     num_of_observed_bi := num_of_observed_bi self;
     dg := dg self;
     mcs := mcs self;
     msdu_length_bytes := msdu_length_bytes self;
     num_of_a_msdu_subframes := num_of_a_msdu_subframes self;
     a_msdu_length_bytes := a_msdu_length_bytes self;
     mpdu_length_bytes := mpdu_length_bytes self;
     num_of_a_mpdu_subframes := num_of_a_mpdu_subframes self;
     psdu_length_bytes := Some v;
     enable_cts := enable_cts self;
     enable_ack := enable_ack self;
     num_of_users := num_of_users self;
     num_of_bft_allocations := num_of_bft_allocations self;
     num_of_data_allocations := num_of_data_allocations self;
     tig := tig self |}.
Definition assign_enable_cts (v : bool) (self : InOutStudy) : InOutStudy :=
  {| study_class := study_class self;
     bi_duration := bi_duration self;
     num_of_observed_bi := num_of_observed_bi self;
     dg := dg self;
     mcs := mcs self;
     msdu_length_bytes := msdu_length_bytes self;
     num_of_a_msdu_subframes := num_of_a_msdu_subframes self;
     a_msdu_length_bytes := a_msdu_length_bytes self;
     mpdu_length_bytes := mpdu_length_bytes self;
     num_of_a_mpdu_subframes := num_of_a_mpdu_subframes self;
     psdu_length_bytes := psdu_length_bytes self;
     enable_cts := Some v;
     enable_ack := enable_ack self;
     num_of_users := num_of_users self;
     num_of_bft_allocations := num_of_bft_allocations self;
     num_of_data_allocations := num_of_data_allocations self;
     tig := tig self |}.
Definition assign_enable_ack (v : bool) (self : InOutStudy) : InOutStudy :=
  {| study_class := study_class self;
     bi_duration := bi_duration self;
     num_of_observed_bi := num_of_observed_bi self;
     dg := dg self;
     mcs := mcs self;
     msdu_length_bytes := msdu_length_bytes self;
     num_of_a_msdu_subframes := num_of_a_msdu_subframes self;
     a_msdu_length_bytes := a_msdu_length_bytes self;
     mpdu_length_bytes := mpdu_length_bytes self;
     num_of_a_mpdu_subframes := num_of_a_mpdu_subframes self;
     psdu_length_bytes := psdu_length_bytes self;
     enable_cts := enable_cts self;
     enable_ack := Some v;
     num_of_users := num_of_users self;
     num_of_bft_allocations := num_of_bft_allocations self;
     num_of_data_allocations := num_of_data_allocations self;
     tig := tig self |}.
Definition assign_num_of_users (v : Z) (self : InOutStudy) : InOutStudy :=
  {| study_class := study_class self;
     bi_duration := bi_duration self;
     num_of_observed_bi := num_of_observed_bi self;
     dg := dg self;
     mcs := mcs self;
     msdu_length_bytes := msdu_length_bytes self;
     num_of_a_msdu_subframes := num_of_a_msdu_subframes self;
     a_msdu_length_bytes := a_msdu_length_bytes self;
     mpdu_length_bytes := mpdu_length_bytes self;
     num_of_a_mpdu_subframes := num_of_a_mpdu_subframes self;
     psdu_length_bytes := psdu_length_bytes self;
     enable_cts := enable_cts self;
     enable_ack := enable_ack self;
     num_of_users := Some v;
     num_of_bft_allocations := num_of_bft_allocations self;
     num_of_data_allocations := num_of_data_allocations self;
     tig := tig self |}.
Definition assign_num_of_bft_allocations (v : list Z) (self : InOutStudy) : InOutStudy :=
  {| study_class := study_class self;
     bi_duration := bi_duration self;
     num_of_observed_bi := num_of_observed_bi self;
     dg := dg self;
     mcs := mcs self;
     msdu_length_bytes := msdu_length_bytes self;
     num_of_a_msdu_subframes := num_of_a_msdu_subframes self;
     a_msdu_length_bytes := a_msdu_length_bytes self;
     mpdu_length_bytes := mpdu_length_bytes self;
     num_of_a_mpdu_subframes := num_of_a_mpdu_subframes self;
     psdu_length_bytes := psdu_length_bytes self;
     enable_cts := enable_cts self;
     enable_ack := enable_ack self;
     num_of_users := num_of_users self;
     num_of_bft_allocations := Some v;
     num_of_data_allocations := num_of_data_allocations self;
     tig := tig self |}.
Definition assign_num_of_data_allocations (v : list Z) (self : InOutStudy) : InOutStudy :=
  {| study_class := study_class self;
     bi_duration := bi_duration self;
     num_of_observed_bi := num_of_observed_bi self;
     dg := dg self;
     mcs := mcs self;
     msdu_length_bytes := msdu_length_bytes self;
     num_of_a_msdu_subframes := num_of_a_msdu_subframes self;
     a_msdu_length_bytes := a_msdu_length_bytes self;
     mpdu_length_bytes := mpdu_length_bytes self;
     num_of_a_mpdu_subframes := num_of_a_mpdu_subframes self;
     psdu_length_bytes := psdu_length_bytes self;
     enable_cts := enable_cts self;
     enable_ack := enable_ack self;
     num_of_users := num_of_users self;
     num_of_bft_allocations := num_of_bft_allocations self;
     num_of_data_allocations := Some v;
     tig := tig self |}.
Definition assign_tig (v : Slots.TimeslotIdGenerator) (self : InOutStudy) : InOutStudy :=
  {| study_class := study_class self;
     bi_duration := bi_duration self;
     num_of_observed_bi := num_of_observed_bi self;
     dg := dg self;
     mcs := mcs self;
     msdu_length_bytes := msdu_length_bytes self;
     num_of_a_msdu_subframes := num_of_a_msdu_subframes self;
     a_msdu_length_bytes := a_msdu_length_bytes self;
     mpdu_length_bytes := mpdu_length_bytes self;
     num_of_a_mpdu_subframes := num_of_a_mpdu_subframes self;
     psdu_length_bytes := psdu_length_bytes self;
     enable_cts := enable_cts self;
     enable_ack := enable_ack self;
     num_of_users := num_of_users self;
     num_of_bft_allocations := num_of_bft_allocations self;
     num_of_data_allocations := num_of_data_allocations self;
     tig := v |}.

(** The mobility descriptor of a configuration: the number [0] or the
    string ['0'] (static), or a string such as ['s5'] and ['a90'], of
    which the model keeps the first letter and the number that [int] reads
    from the rest. *)
Inductive mobility : Type :=
  | Static
  | Described (letter : Ascii.ascii) (number : Z).

(** [self.x] for an attribute that may not exist yet. *)
Definition attribute {A} (self : InOutStudy) (attribute_name : string)
    (value : option A) : result A :=
  match value with
  | Some v => Ok v
  | None =>
      Raise (AttributeError
        ("'" +:+ study_class self +:+ "' object has no attribute '"
         +:+ attribute_name +:+ "'"))
  end.

(** [InOutStudy.__init__]; [MCS_TABLE] is the table the
    [DurationGenerator] is constructed with. *)
Definition InOutStudy_init (study_class : string)
    (MCS_TABLE : list (float * (float * float)))
    (bi_duration num_of_observed_bi : Z) : InOutStudy :=
  {| study_class := study_class;
     bi_duration := bi_duration;
     num_of_observed_bi := num_of_observed_bi;
     dg := generate_cts_duration (Duration_generator.new MCS_TABLE);
     mcs := None;
     msdu_length_bytes := None;
     num_of_a_msdu_subframes := None;
     a_msdu_length_bytes := None;
     mpdu_length_bytes := None;
     num_of_a_mpdu_subframes := None;
     psdu_length_bytes := None;
     enable_cts := None;
     enable_ack := None;
     num_of_users := None;
     num_of_bft_allocations := None;
     num_of_data_allocations := None;
     tig := Slots.TimeslotIdGenerator_init |}.

(** The methods below return the object as the call leaves it, next to the
    outcome: what a method has assigned before it raises stays assigned. *)

(** [InOutStudy.set_mcs] *)
Definition set_mcs (self : InOutStudy) (Eb_N0 max_ber : float)
    (ber : ber_table) : InOutStudy * result unit :=
  match get_optimal_mcs Eb_N0 max_ber ber with
  | Ok scheme => (assign_mcs scheme self, Ok tt)
  | Raise e => (self, Raise e)
  end.

(** [InOutStudy.set_num_of_users] *)
Definition set_num_of_users (self : InOutStudy) (num_of_users' : Z)
    : InOutStudy := assign_num_of_users num_of_users' self.

(** [InOutStudy.set_bft_duration] *)
Definition set_bft_duration (self : InOutStudy)
    (num_of_ue_antennas num_of_antenna_sectors : Z)
    (enalbe_sls enable_ap_ss : bool) : InOutStudy :=
  assign_dg (generate_bft_duration (dg self)
               num_of_ue_antennas num_of_antenna_sectors
               1 num_of_antenna_sectors enalbe_sls enable_ap_ss) self.

(** [np.pi] *)
Definition np_pi : float := literal 3141592653589793 (-15).

(** The local [bft_period] of [set_num_of_data_sp_allocations], for a
    number of antenna sectors other than zero: the period between two
    beamforming trainings of a user, in ns. *)
Definition bft_period (self : InOutStudy) (num_of_antenna_sectors : Z)
    (mobility : mobility) : result Z :=
  let sector_width := fdiv (of_int 360) (of_int num_of_antenna_sectors) in
  match mobility with
  | Static =>
      Ok (num_of_observed_bi self * bi_duration self + 1)
  | Described letter number =>
      if Ascii.eqb letter "s"%char then
        if number =? 0 then Raise ZeroDivisionError else
        Ok (trunc
              (fdiv (fdiv (fmul (fmul (fmul np_pi
                                            (of_int UE_TO_AP_DISTANCE_M))
                                      sector_width)
                                (of_int (10 ^ 9)))
                          (of_int 180))
                    (of_int number)))
      else if Ascii.eqb letter "a"%char then
        if number =? 0 then Raise ZeroDivisionError else
        Ok (trunc (fdiv (fmul sector_width (of_int (10 ^ 9)))
                        (of_int number)))
      else Raise UnboundLocalError
  end.

(** [InOutStudy.set_num_of_data_sp_allocations].  Next to the object and
    the outcome, the lines printed by [get_number_of_bft_allocations] are
    returned; [draw] is the number that function draws, if it draws. *)
Definition set_num_of_data_sp_allocations (draw : nat) (self : InOutStudy)
    (num_of_antenna_sectors : Z) (mobility : mobility)
    : list string * (InOutStudy * result unit) :=
  if num_of_antenna_sectors =? 0 then ([], (self, Raise ZeroDivisionError))
  else
    match bft_period self num_of_antenna_sectors mobility with
    | Raise e => ([], (self, Raise e))
    | Ok bft_period =>
        match attribute self "num_of_users" (num_of_users self) with
        | Raise e => ([], (self, Raise e))
        | Ok users =>
            match get_number_of_bft_allocations draw
                    (num_of_observed_bi self) (bi_duration self)
                    bft_period users with
            | (printed, Raise e) => (printed, (self, Raise e))
            | (printed, Ok bft_allocations) =>
                let self := assign_num_of_bft_allocations bft_allocations
                                                          self in
                (printed,
                 (assign_num_of_data_allocations
                    (map (λ x, int64 (x + 1)) bft_allocations) self, Ok tt))
            end
        end
    end.

(** [InOutStudy.set_mpdu_length] *)
Definition set_mpdu_length (self : InOutStudy) (msdu_length_bytes' : Z)
    (msdu_max_agg : bool) : InOutStudy * result unit :=
  let self := assign_msdu_length_bytes msdu_length_bytes' self in
  let subframes :=
    if msdu_max_agg then
      if msdu_length_bytes' =? 0 then Raise ZeroDivisionError
      else Ok (trunc (fdiv (of_int MAX_A_MSDU_LENGTH)
                           (of_int msdu_length_bytes')))
    else Ok 1 in
  match subframes with
  | Raise e => (self, Raise e)
  | Ok subframes =>
      let self := assign_num_of_a_msdu_subframes subframes self in
      match calc_a_msdu_length subframes msdu_length_bytes' with
      | Raise e => (self, Raise e)
      | Ok a_msdu_length =>
          let self := assign_a_msdu_length_bytes a_msdu_length self in
          (assign_mpdu_length_bytes
             (calc_data_mpdu_length a_msdu_length None) self, Ok tt)
      end
  end.

(** [InOutStudy.set_psdu_length] *)
Definition set_psdu_length (self : InOutStudy) (mpdu_max_agg : bool)
    : InOutStudy * result unit :=
  let subframes :=
    if mpdu_max_agg then
      scheme ← attribute self "mcs" (mcs self);
      mpdu_length ← attribute self "mpdu_length_bytes"
                              (mpdu_length_bytes self);
      calc_max_a_mpdu_subframes (mcs_table (dg self)) scheme mpdu_length
    else Ok 1 in
  match subframes with
  | Raise e => (self, Raise e)
  | Ok subframes =>
      let self := assign_num_of_a_mpdu_subframes subframes self in
      match attribute self "mpdu_length_bytes" (mpdu_length_bytes self) with
      | Raise e => (self, Raise e)
      | Ok mpdu_length =>
          (assign_psdu_length_bytes
             (calc_a_mpdu_length subframes mpdu_length) self, Ok tt)
      end
  end.

(** [InOutStudy.set_ack_duration] *)
Definition set_ack_duration (self : InOutStudy) : InOutStudy * result unit :=
  match attribute self "num_of_a_mpdu_subframes"
                  (num_of_a_mpdu_subframes self) with
  | Raise e => (self, Raise e)
  | Ok subframes =>
      (assign_dg (generate_ack_duration (dg self) subframes) self, Ok tt)
  end.

(** [InOutStudy.set_cts_enabled_flag], [InOutStudy.set_ack_enabled_flag] *)
Definition set_cts_enabled_flag (self : InOutStudy) (enable_cts' : bool)
    : InOutStudy := assign_enable_cts enable_cts' self.

Definition set_ack_enabled_flag (self : InOutStudy) (enable_ack' : bool)
    : InOutStudy := assign_enable_ack enable_ack' self.

(** [InOutStudy.set_data_ppdu_duration] *)
Definition set_data_ppdu_duration (self : InOutStudy)
    : InOutStudy * result unit :=
  let generated :=
    psdu_length ← attribute self "psdu_length_bytes"
                            (psdu_length_bytes self);
    scheme ← attribute self "mcs" (mcs self);
    generate_data_ppdu_duration (dg self) psdu_length scheme in
  match generated with
  | Raise e => (self, Raise e)
  | Ok dg' => (assign_dg dg' self, Ok tt)
  end.

(** [InOutStudy.set_data_with_overhead_duration] *)
Definition set_data_with_overhead_duration (self : InOutStudy)
    (enable_cts' enable_ack' : bool) : InOutStudy * result unit :=
  match generate_data_with_overhead_duration (dg self)
                                              enable_cts' enable_ack' with
  | Raise e => (self, Raise e)
  | Ok dg' => (assign_dg dg' self, Ok tt)
  end.

(** The local [psdu_arrival_period] of [FastInOutStudy.run]: the period
    between two PSDUs of a data service period. *)
Definition psdu_arrival_period (self : InOutStudy) : result Z :=
  cts_flag ← attribute self "enable_cts" (enable_cts self);
  cts ← get_cts_duration (dg self);
  data_ppdu ← get_data_ppdu_duration (dg self);
  ack_flag ← attribute self "enable_ack" (enable_ack self);
  ack ← get_ack_duration (dg self);
  Ok (Z.b2z cts_flag * (cts + SIFS_NS) + data_ppdu
      + Z.b2z ack_flag * (SIFS_NS + ack) + DIFS_NS).

End InOutStudy.
End In_out_study.

(** ** [core/inOutStudy.py]: the fast study *)

Module Fast_in_out_study.
Import Constants Helpers Duration_generator Numpy In_out_study.

Section FastInOutStudy.
Context `{PyFloat}.

(** [calc_control_frame_ppdu_size] and the duration that
    [generate_bti_duration] stores, for a number of allocations taken from
    the [int64] array: the integer operations on it are [int64]
    operations. *)
Definition np_calc_control_frame_ppdu_size (payload_bytes : Z) : float :=
  let N_cw :=
    fadd (of_int 1)
         (np_ceil (fdiv (of_int (int64 (int64 (payload_bytes - 6) * 8)))
                        (of_int L_CWD))) in
  let num_of_parity_symbols := fmul (of_int 168) N_cw in
  let num_of_data_symbols := int64 (int64 (payload_bytes + 5) * 8) in
  let num_of_useful_symbols :=
    fmul (fadd num_of_parity_symbols (of_int num_of_data_symbols))
         (of_int 32) in
  fadd (of_int (CONTROL_PPDU_PREAMBLE_LEN + CONTROL_PPDU_HEADER_LEN))
       num_of_useful_symbols.

Definition np_bti_duration (num_of_allocations : Z) : Z :=
  let bf_payload_length :=
    int64 (int64 (66 + int64 (2 + int64 (15 * num_of_allocations))) + 34) in
  let bti_ppdu_size := np_calc_control_frame_ppdu_size bf_payload_length in
  round_int (fdiv bti_ppdu_size SYMBOL_RATE_GHZ).

(** [first_psdu_arrival_offset] of [run] *)
Definition first_psdu_arrival_offset (self : InOutStudy) : result Z :=
  cts_flag ← attribute self "enable_cts" (enable_cts self);
  cts ← get_cts_duration (dg self);
  data_ppdu ← get_data_ppdu_duration (dg self);
  Ok (Z.b2z cts_flag * (cts + SIFS_NS) + data_ppdu).

(** The body of the loop over a row [ds] of [data_sp]: the arrival times
    of the MSDUs of one data service period. *)
Definition arrivals_within_sp (self : InOutStudy)
    (psdu_arrival_period first_psdu_arrival_offset num_of_msdu_per_psdu : Z)
    (ds : float * float) : result (list float) :=
  let first_msdu_arrival := fadd ds.1 (of_int first_psdu_arrival_offset) in
  let last_possible_msdu_arrival := ds.2 in
  users ← attribute self "num_of_users" (num_of_users self);
  last_possible_msdu_arrival ←
    (if users >? 1 then
       let multi_user_shortening :=
         fmul (fsub ds.2 ds.1)
              (fsub (of_int 1) (fdiv (of_int 1) (of_int users))) in
       guard ← get_guard_time_duration (dg self);
       let multi_user_shortening :=
         fadd multi_user_shortening (fdiv (of_int guard) (of_int 2)) in
       let last_possible_msdu_arrival :=
         fsub last_possible_msdu_arrival multi_user_shortening in
       if fltb last_possible_msdu_arrival first_msdu_arrival
       then Raise (RuntimeError "Negative user DATA-SP duration.")
       else Ok last_possible_msdu_arrival
     else Ok last_possible_msdu_arrival);
  inter_sp_t_msdu_arrival ←
    np_arange first_msdu_arrival last_possible_msdu_arrival
              psdu_arrival_period;
  np_repeat inter_sp_t_msdu_arrival num_of_msdu_per_psdu.

(** The data service periods of a beacon interval with [num_of_alloc]
    of them, between [begin] and [end]: the rows of [data_sp]. *)
Definition data_service_periods (self : InOutStudy) (begin_ end_ : Z)
    (num_of_alloc : Z) : result (list (float * float)) :=
  points ← np_linspace (of_int begin_) (of_int end_) num_of_alloc;
  inter ← np_repeat (drop 1 points) 2;
  let signs := np_resize_signs (length inter) in
  bft ← get_bft_duration (dg self);
  let inter :=
    zip_with (λ x sign,
                fadd x (fmul (fmul (of_int sign) bft) (literal 5 (-1))))
             inter signs in
  guard ← get_guard_time_duration (dg self);
  let inter :=
    zip_with (λ x sign, fadd x (of_int (int64 (sign * guard))))
             inter signs in
  Ok (rows_of_two (of_int begin_ :: inter ++ [of_int end_])).

(** The body of the loop over the distinct numbers of allocations: the
    arrival times within a beacon interval with [num_of_alloc] data
    service periods, relative to its start. *)
Definition arrivals_within_bi (self : InOutStudy) (begin_ end_ : Z)
    (psdu_arrival_period first_psdu_arrival_offset : Z) (num_of_alloc : Z)
    : result (list float) :=
  data_sp ← data_service_periods self begin_ end_ num_of_alloc;
  a_msdu ← attribute self "num_of_a_msdu_subframes"
                     (num_of_a_msdu_subframes self);
  a_mpdu ← attribute self "num_of_a_mpdu_subframes"
                     (num_of_a_mpdu_subframes self);
  let num_of_msdu_per_psdu := a_msdu * a_mpdu in
  t_msdu_arrival ←
    mapM (arrivals_within_sp self psdu_arrival_period
            first_psdu_arrival_offset num_of_msdu_per_psdu) data_sp;
  Ok (concat t_msdu_arrival).

(** [FastInOutStudy.run].  The call stores the guard time in the duration
    generator, and an array of BTI durations that nothing reads
    afterwards (the model does not keep it); the object is returned with
    the value the call leaves in [self.t_msdu_arrival], which is [None]
    when no beacon interval is observed. *)
Definition run (self : InOutStudy)
    : InOutStudy * result (option (list float)) :=
  let self :=
    assign_dg (generate_guard_time_duration (dg self) (bi_duration self))
              self in
  (self,
   allocations ← attribute self "num_of_data_allocations"
                           (num_of_data_allocations self);
   let bti_duration := map np_bti_duration allocations in
   guard ← get_guard_time_duration (dg self);
   let begin_ := map (λ b, int64 (b + guard)) bti_duration in
   guard ← get_guard_time_duration (dg self);
   let end_ := bi_duration self - guard in
   psdu_arrival_period ← psdu_arrival_period self;
   first_psdu_arrival_offset ← first_psdu_arrival_offset self;
   t_msdu_arrival_rel ←
     mapM (λ unique : Z * nat,
             let '(num_of_alloc, unique_idx) := unique in
             match begin_ !! unique_idx with
             | None => Raise IndexError
             | Some b =>
                 t_msdu_arrival ←
                   arrivals_within_bi self b end_ psdu_arrival_period
                                      first_psdu_arrival_offset num_of_alloc;
                 Ok (num_of_alloc, t_msdu_arrival)
             end)
          (np_unique allocations);
   blocks ←
     mapM (λ bi : nat * Z,
             let '(bi_idx, num_of_alloc) := bi in
             match list_find (λ entry, entry.1 = num_of_alloc)
                             t_msdu_arrival_rel with
             | None => Raise KeyError
             | Some (_, (_, t_msdu_arrival)) =>
                 let bi_offset := Z.of_nat bi_idx * bi_duration self in
                 Ok (map (λ t, fadd t (of_int bi_offset)) t_msdu_arrival)
             end)
          (imap (λ bi_idx num_of_alloc, (bi_idx, num_of_alloc)) allocations);
   Ok (match allocations with
       | [] => None
       | _ => Some (concat blocks)
       end)).

(** The results [calc_performance_metrics] stores in the object. *)
Record Metrics : Type := {
  throughput : float;
  t_msdu_generated : list float;
  t_msdu_arrival : list float;
  msdu_latency_offset : list float;
}.

(** [FastInOutStudy.calc_performance_metrics], on the value of
    [self.t_msdu_arrival]. *)
Definition calc_performance_metrics (self : InOutStudy)
    (t_msdu_arrival : option (list float)) : result Metrics :=
  match t_msdu_arrival with
  | None =>
      Raise (AttributeError "'NoneType' object has no attribute 'size'")
  | Some arrival =>
      let num_of_msdu := Z.of_nat (length arrival) in
      msdu_length ← attribute self "msdu_length_bytes"
                              (msdu_length_bytes self);
      let horizon := bi_duration self * num_of_observed_bi self in
      if horizon =? 0 then Raise ZeroDivisionError else
      let throughput :=
        fdiv (of_int (num_of_msdu * msdu_length * 8)) (of_int horizon) in
      generated ← np_linspace (of_int 0) (of_int horizon) num_of_msdu;
      let msdu_latency := zip_with fsub arrival generated in
      match np_min msdu_latency with
      | None =>
          Raise (ValueError
            "zero-size array to reduction operation minimum which has no identity")
      | Some _min =>
          let generated :=
            if fltb _min (of_int 0)
            then map (λ t, fadd t _min) generated else generated in
          cts_flag ← attribute self "enable_cts" (enable_cts self);
          generated ←
            (if cts_flag : bool then
               cts ← get_cts_duration (dg self);
               Ok (map (λ t, fsub t (of_int (cts + SIFS_NS))) generated)
             else Ok generated);
          data_ppdu ← get_data_ppdu_duration (dg self);
          let generated := map (λ t, fsub t (of_int data_ppdu)) generated in
          Ok {| throughput := throughput;
                t_msdu_generated := generated;
                t_msdu_arrival := arrival;
                msdu_latency_offset := zip_with fsub arrival generated |}
      end
  end.

End FastInOutStudy.
End Fast_in_out_study.

(** ** [core/inOutStudy.py]: the descriptive study *)

(** The descriptive study builds time slots whose stamps are Python
    integers, NumPy integers and floats.  The model writes every stamp as a
    float, an integer [z] as [of_int z], and every operation on stamps as
    the float operation: below 2^53 ns, where an integer is a float and
    the float operations on integers are exact, that is what Python
    computes. *)
Module Descriptive_in_out_study.
Import Constants Helpers Duration_generator Numpy In_out_study.

Section DescriptiveInOutStudy.
Context `{PyFloat}.

(** *** Time slots with float stamps ([core/timeslot.py]) *)

(** A [Timeslot] object. *)
Record Timeslot : Type := {
  id : Z;
  name : string;
  timestamp : float;
  duration : float;
  parent_id : option Z;
}.

(** [AvailableTime.available_time] and [AvailableTime.__init__] *)
Definition AvailableTime : Type := list (float * float).

Definition new (t_start t_end : float) : AvailableTime := [(t_start, t_end)].

(** [AvailableTime.get_available_time_idx] *)
Definition check (t_start t_end : float) (at_ : float * float)
    : bool * bool :=
  (fleb at_.1 t_start && fleb t_start at_.2,
   fleb at_.1 t_end && fleb t_end at_.2).

Fixpoint get_available_time_idx_from (at_idx : nat)
    (rest : list (float * float)) (t_start t_end : float) : result nat :=
  match rest with
  | [] => Raise Timeslot.InsufficientTime
  | at_ :: rest' =>
      let c := check t_start t_end at_ in
      if c.1 && c.2 then Ok at_idx
      else if c.1 || c.2 then Raise Timeslot.OverlappingAllocation
      else get_available_time_idx_from (S at_idx) rest' t_start t_end
  end.

Definition get_available_time_idx (self : AvailableTime)
    (t_start t_end : float) : result nat :=
  get_available_time_idx_from 0 self t_start t_end.

(** [AvailableTime.allocate_available_time] *)
Definition allocate_available_time (self : AvailableTime)
    (t_start t_end : float) : result AvailableTime :=
  idx ← get_available_time_idx self t_start t_end;
  match self !! idx with
  | None => Raise IndexError
  | Some at_ =>
      if feqb t_start at_.1 && feqb t_end at_.2 then
        Ok (delete idx self)
      else if feqb t_start at_.1 then
        Ok (<[idx := (t_end, at_.2)]> self)
      else if feqb t_end at_.2 then
        Ok (<[idx := (at_.1, t_start)]> self)
      else
        let update := [(at_.1, t_start); (t_end, at_.2)] in
        Ok (take idx self ++ update ++ drop (S idx) self)
  end.

(** A time slot in the tree of a run: a [Timeslot], or a
    [ResponsibleTimeslot] with its tracker [at] and its [children]. *)
#[warnings="-register-all"]
Inductive slot : Type :=
  | Plain (t : Timeslot)
  | Responsible (t : Timeslot) (at_ : AvailableTime) (children : list slot).

Definition timeslot_of (s : slot) : Timeslot :=
  match s with
  | Plain t => t
  | Responsible t _ _ => t
  end.

(** [Timeslot.__init__] and [ResponsibleTimeslot.__init__] *)
Definition Timeslot_init (id : Z) (name : string)
    (timestamp duration : float) : slot :=
  Plain {| id := id; name := name; timestamp := timestamp;
           duration := duration; parent_id := None |}.

Definition ResponsibleTimeslot_init (id : Z) (name : string)
    (timestamp duration : float) : slot :=
  Responsible {| id := id; name := name; timestamp := timestamp;
                 duration := duration; parent_id := None |}
              (new timestamp (fadd timestamp duration)) [].

(** [Timeslot.set_parent] *)
Definition set_parent (self : slot) (parent : Timeslot) : slot :=
  let t := timeslot_of self in
  let t' := {| id := id t; name := name t; timestamp := timestamp t;
               duration := duration t; parent_id := Some (id parent) |} in
  match self with
  | Plain _ => Plain t'
  | Responsible _ at_ children => Responsible t' at_ children
  end.

(** [ResponsibleTimeslot.add_child]; a [Timeslot] has no such method. *)
Definition add_child (self child : slot) : result slot :=
  match self with
  | Plain _ =>
      Raise (AttributeError
               "'Timeslot' object has no attribute 'add_child'")
  | Responsible t at_ children =>
      let c := timeslot_of child in
      at' ← allocate_available_time at_ (timestamp c)
                                    (fadd (timestamp c) (duration c));
      Ok (Responsible t at' (children ++ [set_parent child t]))
  end.

(** [ResponsibleTimeslot.get_available_time] and
    [ResponsibleTimeslot.get_list_of_children] *)
Definition get_available_time (self : slot) : AvailableTime :=
  match self with
  | Plain _ => []
  | Responsible _ at_ _ => at_
  end.

Definition get_list_of_children (self : slot) : list slot :=
  match self with
  | Plain _ => []
  | Responsible _ _ children => children
  end.

(** *** The run *)

(** What a run threads through its loops: the identifier generator, the
    duration generator and [total_data_blocks]. *)
Record RunState : Type := {
  run_tig : Slots.TimeslotIdGenerator;
  run_dg : DurationGenerator;
  total_data_blocks : Z;
}.

Definition get_new_id (st : RunState) : Z * RunState :=
  let '(new_id, tig') := Slots.get_new_id (run_tig st) in
  (new_id, {| run_tig := tig'; run_dg := run_dg st;
              total_data_blocks := total_data_blocks st |}).

Definition add_data_blocks (num_of_tx_slots : Z) (st : RunState)
    : RunState :=
  {| run_tig := run_tig st; run_dg := run_dg st;
     total_data_blocks := total_data_blocks st + num_of_tx_slots |}.

Definition store_dg (dg' : DurationGenerator) (st : RunState) : RunState :=
  {| run_tig := run_tig st; run_dg := dg';
     total_data_blocks := total_data_blocks st |}.

(** The body of [for idx_bft in range(noa_bft)], from [idx_bft] on, for
    the [count] indices left. *)
Fixpoint add_sp_bft (count : nat) (idx_bft : Z) (t_start t_step : float)
    (st : RunState) (bi : slot) : result (RunState * slot) :=
  match count with
  | O => Ok (st, bi)
  | S count' =>
      bft ← get_bft_duration (run_dg st);
      let timestamp :=
        fadd (fsub (fmul (of_int (idx_bft + 1)) t_step)
                   (fdiv bft (of_int 2)))
             t_start in
      let '(new_id, st) := get_new_id st in
      bft ← get_bft_duration (run_dg st);
      let sp_bft := Timeslot_init new_id "SP-BFT" timestamp bft in
      bi ← add_child bi sp_bft;
      add_sp_bft count' (idx_bft + 1) t_start t_step st bi
  end.

(** The body of [for at in at_list]. *)
Fixpoint add_sp_data (at_list : list (float * float)) (st : RunState)
    (bi : slot) : result (RunState * slot) :=
  match at_list with
  | [] => Ok (st, bi)
  | at_ :: at_list' =>
      let '(new_id, st) := get_new_id st in
      guard ← get_guard_time_duration (run_dg st);
      let timestamp := fadd at_.1 (of_int guard) in
      guard ← get_guard_time_duration (run_dg st);
      let duration := fsub (fsub at_.2 at_.1) (of_int (2 * guard)) in
      let sp_data :=
        ResponsibleTimeslot_init new_id "SP-DATA" timestamp duration in
      bi ← add_child bi sp_data;
      add_sp_data at_list' st bi
  end.

(** The body of [for i in range(num_of_tx_slots)], from [i] on, for the
    [count] indices left: a self-CTS, a data PPDU and an ACK in the data
    service period [bi_child]. *)
Fixpoint add_tx_slots (self : InOutStudy) (count : nat) (i : Z)
    (st : RunState) (bi_child : slot) : result (RunState * slot) :=
  match count with
  | O => Ok (st, bi_child)
  | S count' =>
      dwo ← get_data_with_overhead_duration (run_dg st);
      let timestamp :=
        fadd (timestamp (timeslot_of bi_child)) (of_int (i * dwo)) in
      cts_flag ← attribute self "enable_cts" (enable_cts self);
      '(st, bi_child, timestamp) ←
        (if cts_flag : bool then
           let '(new_id, st) := get_new_id st in
           cts ← get_cts_duration (run_dg st);
           let cts_slot :=
             Timeslot_init new_id "self-CTS" timestamp (of_int cts) in
           bi_child ← add_child bi_child cts_slot;
           cts ← get_cts_duration (run_dg st);
           Ok (st, bi_child, fadd timestamp (of_int (cts + SIFS_NS)))
         else Ok (st, bi_child, timestamp));
      let '(new_id, st) := get_new_id st in
      data_ppdu ← get_data_ppdu_duration (run_dg st);
      let tx_block :=
        Timeslot_init new_id "TX" timestamp (of_int data_ppdu) in
      bi_child ← add_child bi_child tx_block;
      data_ppdu ← get_data_ppdu_duration (run_dg st);
      let timestamp := fadd timestamp (of_int (data_ppdu + SIFS_NS)) in
      ack_flag ← attribute self "enable_ack" (enable_ack self);
      '(st, bi_child) ←
        (if ack_flag : bool then
           let '(new_id, st) := get_new_id st in
           ack ← get_ack_duration (run_dg st);
           let ack_slot :=
             Timeslot_init new_id "ACK" timestamp (of_int ack) in
           bi_child ← add_child bi_child ack_slot;
           Ok (st, bi_child)
         else Ok (st, bi_child));
      add_tx_slots self count' (i + 1) st bi_child
  end.

(** [int(x)] for the quotient [x] of a float and an integer: the quotient
    by zero is infinite or not a number, which [int] refuses. *)
Definition int_of_quotient (x : float) (divisor : Z) : result Z :=
  if divisor =? 0 then
    if feqb x (of_int 0)
    then Raise (ValueError "cannot convert float NaN to integer")
    else Raise OverflowError
  else Ok (trunc (fdiv x (of_int divisor))).

(** The body of [for bi_child in bi_children]: a child that is a data
    service period is filled with transmission slots.  The child is an
    object that the list of children holds, and is returned as the loop
    body leaves it. *)
Definition populate (self : InOutStudy) (st : RunState) (bi_child : slot)
    : result (RunState * slot) :=
  match bi_child with
  | Plain _ => Ok (st, bi_child)
  | Responsible t _ _ =>
      if negb (String.eqb (name t) "SP-DATA") then Ok (st, bi_child) else
      dwo ← get_data_with_overhead_duration (run_dg st);
      num_of_tx_slots ← int_of_quotient (duration t) dwo;
      let st := add_data_blocks num_of_tx_slots st in
      add_tx_slots self (Z.to_nat num_of_tx_slots) 0 st bi_child
  end.

Fixpoint populate_all (self : InOutStudy) (st : RunState)
    (bi_children : list slot) : result (RunState * list slot) :=
  match bi_children with
  | [] => Ok (st, [])
  | bi_child :: rest =>
      '(st, bi_child) ← populate self st bi_child;
      '(st, rest) ← populate_all self st rest;
      Ok (st, bi_child :: rest)
  end.

(** The body of the loop over the beacon intervals: the beacon interval
    [i], with [noa] data and [noa_bft] beamforming allocations, is built
    and added to the channel [ch].  The beacon interval is an object that
    the list of children of [ch] holds; the channel is returned with the
    beacon interval as the loop body leaves it. *)
Definition add_beacon_interval (self : InOutStudy) (i : Z) (noa noa_bft : Z)
    (st : RunState) (ch : slot) : result (RunState * slot) :=
  let st :=
    store_dg (set_bti_duration (Fast_in_out_study.np_bti_duration noa)
                               (run_dg st)) st in
  let '(new_id, st) := get_new_id st in
  let bi :=
    ResponsibleTimeslot_init new_id "BI" (of_int (i * bi_duration self))
                             (of_int (bi_duration self)) in
  ch ← add_child ch bi;
  let '(new_id, st) := get_new_id st in
  bti_duration ← get_bti_duration (run_dg st);
  let bti :=
    Timeslot_init new_id "BTI" (of_int (i * bi_duration self))
                  (of_int bti_duration) in
  bi ← add_child (set_parent bi (timeslot_of ch)) bti;
  '(st, bi) ←
    (if noa_bft =? 0 then Ok (st, bi) else
       match get_available_time bi with
       | [] => Raise IndexError
       | (t_start, t_end) :: _ =>
           let t_step :=
             fdiv (fsub t_end t_start) (of_int (int64 (noa_bft + 1))) in
           add_sp_bft (Z.to_nat noa_bft) 0 t_start t_step st bi
       end);
  '(st, bi) ← add_sp_data (get_available_time bi) st bi;
  '(st, bi_children) ← populate_all self st (get_list_of_children bi);
  let bi :=
    match bi with
    | Plain _ => bi
    | Responsible t at_ _ => Responsible t at_ bi_children
    end in
  match ch with
  | Plain _ => Ok (st, ch)
  | Responsible t at_ children =>
      Ok (st, Responsible t at_ (removelast children ++ [bi]))
  end.

Fixpoint add_beacon_intervals (self : InOutStudy) (i : Z)
    (allocations : list (Z * Z)) (st : RunState) (ch : slot)
    : result (RunState * slot) :=
  match allocations with
  | [] => Ok (st, ch)
  | (noa, noa_bft) :: rest =>
      '(st, ch) ← add_beacon_interval self i noa noa_bft st ch;
      add_beacon_intervals self (i + 1) rest st ch
  end.

(** [DescriptiveInOutStudy.run]: the object after the call, the channel
    [self.ch] and [self.total_data_blocks].  What the call has stored when
    it raises is not modelled. *)
Definition run (self : InOutStudy) : result (InOutStudy * slot * Z) :=
  let st :=
    {| run_tig := tig self;
       run_dg := generate_guard_time_duration (dg self) (bi_duration self);
       total_data_blocks := 0 |} in
  let '(new_id, st) := get_new_id st in
  let ch :=
    ResponsibleTimeslot_init new_id "CH" (of_int 0)
      (of_int (num_of_observed_bi self * bi_duration self)) in
  data_allocations ← attribute self "num_of_data_allocations"
                               (num_of_data_allocations self);
  bft_allocations ← attribute self "num_of_bft_allocations"
                              (num_of_bft_allocations self);
  '(st, ch) ←
    add_beacon_intervals self 0 (zip data_allocations bft_allocations)
                         st ch;
  Ok (assign_tig (run_tig st) (assign_dg (run_dg st) self), ch,
      total_data_blocks st).

(** *** The metrics *)

(** The data PPDUs of the channel, in the order of the loops of
    [calc_performance_metrics]: the children named [TX] of the data
    service periods of the beacon intervals. *)
Definition data_ppdus (ch : slot) : list Timeslot :=
  flat_map (λ bi,
    flat_map (λ bi_child,
      match bi_child with
      | Plain _ => []
      | Responsible t _ children =>
          if negb (String.eqb (name t) "SP-DATA") then [] else
          List.filter (λ dp, String.eqb (name dp) "TX")
                      (map timeslot_of children)
      end)
      (get_list_of_children bi))
    (get_list_of_children ch).

(** [a[begin:end] = values] on an array of [size] elements: the slice a
    Python slice with these bounds selects, and the assignment, which
    needs as many values as the slice has elements, or one value. *)
Definition slice_bound (size bound : Z) : Z :=
  let bound := if bound <? 0 then bound + size else bound in
  Z.max 0 (Z.min size bound).

Definition assign_slice {A} (a : list A) (begin_ end_ : Z)
    (values : list A) : result (list A) :=
  let size := Z.of_nat (length a) in
  let lo := Z.to_nat (slice_bound size begin_) in
  let hi := Z.to_nat (slice_bound size end_) in
  let count := (hi - lo)%nat in
  if (length values =? count)%nat then
    Ok (take lo a ++ values ++ drop (lo + count) a)
  else
    match values with
    | [v] => Ok (take lo a ++ replicate count v ++ drop (lo + count) a)
    | _ =>
        Raise (ValueError "could not broadcast input array into shape")
    end.

(** [a[index] = value] *)
Definition assign_item {A} (a : list A) (index : Z) (value : A)
    : result (list A) :=
  let size := Z.of_nat (length a) in
  let position := if index <? 0 then index + size else index in
  if (0 <=? position) && (position <? size)
  then Ok (<[Z.to_nat position := value]> a)
  else Raise IndexError.

(** The loop over the data PPDUs, from [msdu_idx] on. *)
Fixpoint fill_msdu_times (dps : list Timeslot) (msdu_idx : Z)
    (num_of_msdu_in_psdu : Z) (msdu_generation_period : float)
    (generated arrival : list float) : result (list float * list float) :=
  match dps with
  | [] => Ok (generated, arrival)
  | dp :: dps' =>
      '(generated, arrival) ←
        (if num_of_msdu_in_psdu =? 1 then
           generated ←
             assign_item generated msdu_idx
               (fmul (of_int msdu_idx) msdu_generation_period);
           arrival ←
             assign_item arrival msdu_idx
               (fadd (timestamp dp) (duration dp));
           Ok (generated, arrival)
         else
           let _begin := msdu_idx * num_of_msdu_in_psdu in
           let _end := (msdu_idx + 1) * num_of_msdu_in_psdu in
           generated ←
             assign_slice generated _begin _end
               (map (λ k, fmul (of_int k) msdu_generation_period)
                    (seqZ _begin (_end - _begin)));
           arrival ←
             assign_slice arrival _begin _end
               [fadd (timestamp dp) (duration dp)];
           Ok (generated, arrival));
      fill_msdu_times dps' (msdu_idx + 1) num_of_msdu_in_psdu
                      msdu_generation_period generated arrival
  end.

(** The results [calc_performance_metrics] stores in the object. *)
Record Metrics : Type := {
  throughput : float;
  msdu_generation_period : float;
  t_msdu_generated : list float;
  t_msdu_arrival : list float;
  msdu_latency_offset : list float;
}.

(** [DescriptiveInOutStudy.calc_performance_metrics], on the values of
    [self.ch] and [self.total_data_blocks]. *)
Definition calc_performance_metrics (self : InOutStudy) (ch : slot)
    (total_data_blocks : Z) : result Metrics :=
  a_mpdu ← attribute self "num_of_a_mpdu_subframes"
                     (num_of_a_mpdu_subframes self);
  a_msdu ← attribute self "num_of_a_msdu_subframes"
                     (num_of_a_msdu_subframes self);
  let num_of_msdu_in_psdu := a_mpdu * a_msdu in
  let num_of_msdu := total_data_blocks * num_of_msdu_in_psdu in
  msdu_length ← attribute self "msdu_length_bytes" (msdu_length_bytes self);
  let horizon := bi_duration self * num_of_observed_bi self in
  if horizon =? 0 then Raise ZeroDivisionError else
  let throughput :=
    fdiv (of_int (num_of_msdu * msdu_length * 8)) (of_int horizon) in
  if num_of_msdu <? 0 then
    Raise (ValueError "negative dimensions are not allowed")
  else if num_of_msdu =? 0 then Raise ZeroDivisionError else
  let zeros := replicate (Z.to_nat num_of_msdu) (of_int 0) in
  let msdu_generation_period :=
    fdiv (of_int horizon) (of_int num_of_msdu) in
  '(generated, arrival) ←
    fill_msdu_times (data_ppdus ch) 0 num_of_msdu_in_psdu
                    msdu_generation_period zeros zeros;
  let msdu_latency := zip_with fsub arrival generated in
  match np_min msdu_latency with
  | None =>
      Raise (ValueError
        "zero-size array to reduction operation minimum which has no identity")
  | Some _min =>
      let generated :=
        if fltb _min (of_int 0)
        then map (λ t, fadd t _min) generated else generated in
      cts_flag ← attribute self "enable_cts" (enable_cts self);
      generated ←
        (if cts_flag : bool then
           cts ← get_cts_duration (dg self);
           Ok (map (λ t, fsub t (of_int (cts + SIFS_NS))) generated)
         else Ok generated);
      data_ppdu ← get_data_ppdu_duration (dg self);
      let generated := map (λ t, fsub t (of_int data_ppdu)) generated in
      Ok {| throughput := throughput;
            msdu_generation_period := msdu_generation_period;
            t_msdu_generated := generated;
            t_msdu_arrival := arrival;
            msdu_latency_offset := zip_with fsub arrival generated |}
  end.

End DescriptiveInOutStudy.
End Descriptive_in_out_study.

(** ** [core/studyExecutor.py]: one run *)

Module Study_executor.
Import Helpers In_out_study.

Section StudyExecutor.
Context `{PyFloat}.

(** The values of [single_config]. *)
Record Config : Type := {
  msdu_length_bytes : Z;
  msdu_max_agg : bool;
  mpdu_max_agg : bool;
  self_cts : bool;
  ack : bool;
  allowed_err : float;
  enable_r_txss : bool;
  enalbe_sls : bool;
  Eb_N0 : float;
  mobility : In_out_study.mobility;
  num_of_ue_antennas : Z;
  num_of_antenna_sectors : Z;
  num_of_users : Z;
}.

(** The set-up calls of [simulate_single] after [set_mcs], in their
    order.  An exception of one of them is not caught. *)
Definition set_up (draw : nat) (ios : InOutStudy) (single_config : Config)
    : result InOutStudy :=
  let ios := set_num_of_users ios (num_of_users single_config) in
  let ios :=
    set_bft_duration ios (num_of_ue_antennas single_config)
                     (num_of_antenna_sectors single_config)
                     (enalbe_sls single_config)
                     (enable_r_txss single_config) in
  let '(_, (ios, outcome)) :=
    set_num_of_data_sp_allocations draw ios
      (num_of_antenna_sectors single_config) (mobility single_config) in
  _ ← outcome;
  let '(ios, outcome) :=
    set_mpdu_length ios (msdu_length_bytes single_config)
                    (msdu_max_agg single_config) in
  _ ← outcome;
  let '(ios, outcome) := set_psdu_length ios (mpdu_max_agg single_config) in
  _ ← outcome;
  let '(ios, outcome) := set_ack_duration ios in
  _ ← outcome;
  let '(ios, outcome) := set_data_ppdu_duration ios in
  _ ← outcome;
  let '(ios, outcome) :=
    set_data_with_overhead_duration ios (self_cts single_config)
                                    (ack single_config) in
  _ ← outcome;
  let ios := set_cts_enabled_flag ios (self_cts single_config) in
  Ok (set_ack_enabled_flag ios (ack single_config)).

(** The two classes a [StudyExecutor] is constructed with. *)
Inductive study_class : Type :=
  | DescriptiveInOutStudy
  | FastInOutStudy.

Definition class_name (c : study_class) : string :=
  match c with
  | DescriptiveInOutStudy => "DescriptiveInOutStudy"
  | FastInOutStudy => "FastInOutStudy"
  end.

(** What [simulate_single] puts in the queue and saves: status 1 when
    [set_mcs] raised, status -1 when [run] raised, and otherwise status 0
    with the scheme, the throughput, the latencies (which the source sums
    up as a normal distribution) and the generation and arrival times. *)
Inductive outcome : Type :=
  | Status1
  | StatusMinus1
  | Status0 (mcs throughput : float)
            (msdu_latency t_msdu_generation t_msdu_arrival : list float).

(** [ios.run()] followed by [ios.calc_performance_metrics()] and the
    getters, for a study of either class. *)
Definition run_and_measure (c : study_class) (ios : InOutStudy)
    : result outcome :=
  match c with
  | DescriptiveInOutStudy =>
      match Descriptive_in_out_study.run ios with
      | Raise _ => Ok StatusMinus1
      | Ok (ios, ch, total_data_blocks) =>
          metrics ←
            Descriptive_in_out_study.calc_performance_metrics
              ios ch total_data_blocks;
          scheme ← attribute ios "mcs" (mcs ios);
          Ok (Status0 scheme
                (Descriptive_in_out_study.throughput metrics)
                (Descriptive_in_out_study.msdu_latency_offset metrics)
                (Descriptive_in_out_study.t_msdu_generated metrics)
                (Descriptive_in_out_study.t_msdu_arrival metrics))
      end
  | FastInOutStudy =>
      match Fast_in_out_study.run ios with
      | (_, Raise _) => Ok StatusMinus1
      | (ios, Ok t_msdu_arrival) =>
          metrics ←
            Fast_in_out_study.calc_performance_metrics ios t_msdu_arrival;
          scheme ← attribute ios "mcs" (mcs ios);
          Ok (Status0 scheme
                (Fast_in_out_study.throughput metrics)
                (Fast_in_out_study.msdu_latency_offset metrics)
                (Fast_in_out_study.t_msdu_generated metrics)
                (Fast_in_out_study.t_msdu_arrival metrics))
      end
  end.

(** The calls [simulate_single] makes on the study [ios], in its order:
    the set-up, the run and the metrics.  The study is of the class
    [study_class] and is constructed with the duration of a beacon
    interval and the number of observed beacon intervals given (the source
    constructs it with the defaults, 100 ms and 10).  What the function
    prints and logs is left out.  An exception is caught around [set_mcs]
    and around [run] only. *)
Definition simulate_single (study_class : study_class) (draw : nat)
    (bi_duration num_of_observed_bi : Z) (single_config : Config)
    (MCS_TABLE : list (float * (float * float))) (ber : ber_table)
    : result outcome :=
  let ios :=
    InOutStudy_init (class_name study_class) MCS_TABLE bi_duration
                    num_of_observed_bi in
  match set_mcs ios (Eb_N0 single_config) (allowed_err single_config) ber
  with
  | (_, Raise _) => Ok Status1
  | (ios, Ok _) =>
      ios ← set_up draw ios single_config;
      run_and_measure study_class ios
  end.

End StudyExecutor.
End Study_executor.

(** ** [legacy/helpers.py]: the status of a finished process *)

Module Legacy.

(** [needle in line] on strings. *)
Fixpoint is_infix (needle line : string) : bool :=
  String.prefix needle line ||
  match line with
  | EmptyString => false
  | String _ line' => is_infix needle line'
  end.

(** [get_status_from_stdout], on the lines [f.readlines()] returns for the
    file at [path]. *)
Definition get_status_from_stdout (lines : list string) : result Z :=
  match last lines with
  | None => Raise IndexError
  | Some line =>
      if is_infix "BER" line && is_infix "unattainable" line then Ok 1
      else Ok (-1)
  end.

(** What [print(text)] writes to the redirected standard output. *)
Definition printed (text : string) : string := text +:+ String (Ascii.ascii_of_nat 10) EmptyString.

End Legacy.

(** * Properties *)

(** ** The free-time tracker *)

Module TimeslotFacts.
Import Timeslot.

Lemma check_fst a b at_ : (check a b at_).1 = true ↔ within at_ a.
Proof. unfold check, within. simpl. rewrite andb_true_iff. lia. Qed.

Lemma check_snd a b at_ : (check a b at_).2 = true ↔ within at_ b.
Proof. unfold check, within. simpl. rewrite andb_true_iff. lia. Qed.

(** What the scan of [get_available_time_idx] has seen when it stops. *)
Inductive scanned (a b : Z) (l : list range) : result nat → Prop :=
  | scanned_nested l1 at_ l2 :
      l = l1 ++ at_ :: l2 → Forall (λ r, misses r a b) l1 →
      contains at_ a b → scanned a b l (Ok (length l1))
  | scanned_overlap l1 at_ l2 :
      l = l1 ++ at_ :: l2 → Forall (λ r, misses r a b) l1 →
      partially_overlaps at_ a b →
      scanned a b l (Raise OverlappingAllocation)
  | scanned_nothing :
      Forall (λ r, misses r a b) l → scanned a b l (Raise InsufficientTime).

Lemma scanned_shift a b l r :
  scanned a b l r →
  ∀ at_, misses at_ a b →
  scanned a b (at_ :: l) (Nat.succ <$> r).
Proof.
  intros Hs at_ Hm. destruct Hs as [l1 x l2 -> Hl1 Hx|l1 x l2 -> Hl1 Hx|Hl].
  - apply (scanned_nested a b _ (at_ :: l1) x l2); auto.
  - apply (scanned_overlap a b _ (at_ :: l1) x l2); auto.
  - apply scanned_nothing. auto.
Qed.

Lemma get_available_time_idx_from_shift i l a b :
  get_available_time_idx_from (S i) l a b
  = Nat.succ <$> get_available_time_idx_from i l a b.
Proof.
  revert i. induction l as [|at_ l IH]; intros i;
    cbn [get_available_time_idx_from]; cbv zeta; [done|].
  destruct (_ && _); [done|]. destruct (_ || _); [done|]. apply IH.
Qed.

Lemma get_available_time_idx_scanned l a b :
  scanned a b l (get_available_time_idx l a b).
Proof.
  unfold get_available_time_idx.
  induction l as [|at_ l IH]; cbn [get_available_time_idx_from]; cbv zeta.
  - apply scanned_nothing. constructor.
  - pose proof (check_fst a b at_) as Ha. pose proof (check_snd a b at_) as Hb.
    destruct (check a b at_).1 eqn:E1, (check a b at_).2 eqn:E2;
      cbn [andb orb].
    + apply (scanned_nested a b _ [] at_ l); [done|constructor|].
      split; [by apply Ha|by apply Hb].
    + apply (scanned_overlap a b _ [] at_ l); [done|constructor|].
      left. split; [by apply Ha|]. intros Hw. apply Hb in Hw. discriminate.
    + apply (scanned_overlap a b _ [] at_ l); [done|constructor|].
      right. split; [|by apply Hb]. intros Hw. apply Ha in Hw. discriminate.
    + rewrite get_available_time_idx_from_shift.
      apply scanned_shift; [exact IH|].
      split; intros Hw; [apply Ha in Hw|apply Hb in Hw]; discriminate.
Qed.

(** What a call of [allocate_available_time] has done when it ends. *)
Inductive allocated (a b : Z) (l : AvailableTime)
    : result AvailableTime → Prop :=
  | allocated_nested l1 at_ l2 :
      l = l1 ++ at_ :: l2 → Forall (λ r, misses r a b) l1 →
      contains at_ a b →
      allocated a b l (Ok (l1 ++ carve at_ a b ++ l2))
  | allocated_overlap l1 at_ l2 :
      l = l1 ++ at_ :: l2 → Forall (λ r, misses r a b) l1 →
      partially_overlaps at_ a b →
      allocated a b l (Raise OverlappingAllocation)
  | allocated_nothing :
      Forall (λ r, misses r a b) l →
      allocated a b l (Raise InsufficientTime).

Lemma insert_middle {A} (l1 l2 : list A) (x y : A) :
  <[length l1 := y]> (l1 ++ x :: l2) = l1 ++ y :: l2.
Proof. rewrite insert_app_r_alt by lia. by rewrite Nat.sub_diag. Qed.

Lemma drop_middle {A} (l1 l2 : list A) (x : A) :
  drop (S (length l1)) (l1 ++ x :: l2) = l2.
Proof.
  rewrite (cons_middle x l1 l2), app_assoc.
  replace (S (length l1)) with (length (l1 ++ [x]))
    by (rewrite length_app; simpl; lia).
  apply drop_app_length.
Qed.

Lemma allocate_available_time_allocated l a b :
  allocated a b l (allocate_available_time l a b).
Proof.
  unfold allocate_available_time.
  destruct (get_available_time_idx_scanned l a b)
    as [l1 at_ l2 -> Hl1 Hat|l1 at_ l2 -> Hl1 Hat|Hl];
    unfold mbind, result_bind.
  - rewrite list_lookup_middle by done.
    replace (if (a =? at_.1) && (b =? at_.2) then _ else _)
      with (Ok (A:=AvailableTime) (l1 ++ carve at_ a b ++ l2)).
    { by eapply allocated_nested. }
    unfold carve.
    destruct ((a =? at_.1) && (b =? at_.2)) eqn:E.
    { by rewrite delete_middle. }
    destruct (a =? at_.1) eqn:Ea.
    { by rewrite insert_middle. }
    destruct (b =? at_.2) eqn:Eb.
    { by rewrite insert_middle. }
    by rewrite take_app_length, drop_middle.
  - by eapply allocated_overlap.
  - by apply allocated_nothing.
Qed.

Lemma overlapping_not_insufficient : OverlappingAllocation ≠ InsufficientTime.
Proof. discriminate. Qed.

Lemma partially_overlaps_not_contains at_ a b :
  partially_overlaps at_ a b → ¬ contains at_ a b.
Proof. unfold partially_overlaps, contains. tauto. Qed.

Lemma partially_overlaps_not_misses at_ a b :
  partially_overlaps at_ a b → ¬ misses at_ a b.
Proof. unfold partially_overlaps, misses. tauto. Qed.

Lemma contains_not_misses at_ a b : contains at_ a b → ¬ misses at_ a b.
Proof. unfold contains, misses. tauto. Qed.

(** No stamp lies in two ranges that are apart. *)
Lemma apart_within r1 r2 t : apart r1 r2 → within r1 t → within r2 t → False.
Proof. unfold apart, within. lia. Qed.

(** In a separated list, the first range that holds an end point of
    [[a,b]] is the only one that holds this end point. *)
Lemma separated_first_touch l1 at_ l2 r a b t :
  separated (l1 ++ at_ :: l2) →
  Forall (λ r, misses r a b) l1 →
  t = a ∨ t = b → within at_ t → within r t →
  r ∈ l1 ++ at_ :: l2 → r = at_.
Proof.
  intros Hsep Hl1 Ht Hat Hrt Hr.
  apply elem_of_app in Hr as [Hr|Hr].
  { rewrite Forall_forall in Hl1. destruct (Hl1 r Hr) as [Ha Hb].
    destruct Ht as [-> | ->]; contradiction. }
  apply elem_of_cons in Hr as [Hr|Hr]; [done|].
  apply StronglySorted_app in Hsep as (_ & _ & Hsep).
  apply StronglySorted_cons in Hsep as [Hsep _].
  rewrite Forall_forall in Hsep. specialize (Hsep r Hr).
  destruct (apart_within _ _ _ Hsep Hat Hrt).
Qed.

(** *** Allocation on ranges a gap apart *)

(** The containing range of a successful call: the call is the one the
    [allocated] characterisation describes. *)
Lemma allocate_ok_inv l a b l' :
  allocate_available_time l a b = Ok l' →
  ∃ l1 at_ l2, l = l1 ++ at_ :: l2 ∧ Forall (λ r, misses r a b) l1 ∧
    contains at_ a b ∧ l' = l1 ++ carve at_ a b ++ l2.
Proof.
  intros Hok. pose proof (allocate_available_time_allocated l a b) as Hal.
  rewrite Hok in Hal. inversion Hal; subst. eauto 10.
Qed.

Lemma in_middle {A} (l1 l2 : list A) (x : A) : x ∈ l1 ++ x :: l2.
Proof. rewrite elem_of_app, elem_of_cons. auto. Qed.

Lemma allocate_contained l a b r :
  separated l → r ∈ l → contains r a b →
  is_ok (allocate_available_time l a b).
Proof.
  intros Hsep Hr [Hra Hrb].
  destruct (allocate_available_time_allocated l a b)
    as [l1 at_ l2 -> Hl1 Hat|l1 at_ l2 -> Hl1 Hat|Hl].
  - by eexists.
  - exfalso. apply (partially_overlaps_not_contains _ _ _ Hat).
    destruct Hat as [[Ha _]|[_ Hb]].
    + rewrite <- (separated_first_touch l1 at_ l2 r a b a); auto. by split.
    + rewrite <- (separated_first_touch l1 at_ l2 r a b b); auto. by split.
  - exfalso. rewrite Forall_forall in Hl. destruct (Hl r Hr). contradiction.
Qed.

Lemma allocate_overlapping l a b r :
  separated l → r ∈ l → partially_overlaps r a b →
  allocate_available_time l a b = Raise OverlappingAllocation.
Proof.
  intros Hsep Hr Hro.
  destruct (allocate_available_time_allocated l a b)
    as [l1 at_ l2 -> Hl1 Hat|l1 at_ l2 -> Hl1 Hat|Hl].
  - exfalso. apply (partially_overlaps_not_contains _ _ _ Hro).
    destruct Hat as [Ha Hb]. destruct Hro as [[Hra _]|[_ Hrb]].
    + rewrite (separated_first_touch l1 at_ l2 r a b a); auto. by split.
    + rewrite (separated_first_touch l1 at_ l2 r a b b); auto. by split.
  - done.
  - exfalso. rewrite Forall_forall in Hl.
    by apply (partially_overlaps_not_misses _ _ _ Hro), Hl.
Qed.

Lemma allocate_insufficient l a b :
  (∀ r, r ∈ l → misses r a b) →
  allocate_available_time l a b = Raise InsufficientTime.
Proof.
  intros Hl.
  destruct (allocate_available_time_allocated l a b)
    as [l1 at_ l2 -> Hl1 Hat|l1 at_ l2 -> Hl1 Hat|_].
  - exfalso. apply (contains_not_misses _ _ _ Hat), Hl, in_middle.
  - exfalso. apply (partially_overlaps_not_misses _ _ _ Hat), Hl, in_middle.
  - done.
Qed.

Lemma carve_cases at_ a b :
  (a = at_.1 → b = at_.2 → carve at_ a b = []) ∧
  (a = at_.1 → b ≠ at_.2 → carve at_ a b = [(b, at_.2)]) ∧
  (a ≠ at_.1 → b = at_.2 → carve at_ a b = [(at_.1, a)]) ∧
  (a ≠ at_.1 → b ≠ at_.2 → carve at_ a b = [(at_.1, a); (b, at_.2)]).
Proof.
  unfold carve.
  destruct (Z.eqb_spec a at_.1), (Z.eqb_spec b at_.2); simpl;
    repeat split; intros; congruence.
Qed.

(** C1 (amended).  On a tracker whose free ranges are a gap apart (each
    stops strictly before the next starts), for every request [[a,b]]:
    the allocation succeeds exactly when some free range fully contains
    [[a,b]]; when no free range holds an end point of the request it raises
    "Insufficient time"; when some free range holds exactly one end point
    it raises "Tried fitting overlapping timeslot"; and on success the
    containing range, and no other, is updated: an exact match removes it, a
    match on the start or on the stop shrinks it, an interior match splits
    it in two. *)
Theorem allocate_on_separated_ranges (self : AvailableTime) (a b : Z) :
  separated self →
  ((∃ at_, at_ ∈ self ∧ contains at_ a b)
     ↔ is_ok (allocate_available_time self a b)) ∧
  ((∀ at_, at_ ∈ self → misses at_ a b) →
     allocate_available_time self a b = Raise InsufficientTime) ∧
  ((∃ at_, at_ ∈ self ∧ partially_overlaps at_ a b) →
     allocate_available_time self a b = Raise OverlappingAllocation) ∧
  (∀ self', allocate_available_time self a b = Ok self' →
     ∃ l1 at_ l2, self = l1 ++ at_ :: l2 ∧ contains at_ a b ∧
       (a = at_.1 → b = at_.2 → self' = l1 ++ l2) ∧
       (a = at_.1 → b ≠ at_.2 → self' = l1 ++ (b, at_.2) :: l2) ∧
       (a ≠ at_.1 → b = at_.2 → self' = l1 ++ (at_.1, a) :: l2) ∧
       (a ≠ at_.1 → b ≠ at_.2 →
          self' = l1 ++ (at_.1, a) :: (b, at_.2) :: l2)).
Proof.
  intros Hsep. split; [split|split; [|split]].
  - intros (at_ & Hin & Hc). by eapply allocate_contained.
  - intros [self' Hok].
    destruct (allocate_ok_inv _ _ _ _ Hok) as (l1 & at_ & l2 & -> & _ & Hc & _).
    exists at_. split; [apply in_middle|done].
  - apply allocate_insufficient.
  - intros (at_ & Hin & Hp). by eapply allocate_overlapping.
  - intros self' Hok.
    destruct (allocate_ok_inv _ _ _ _ Hok)
      as (l1 & at_ & l2 & -> & _ & Hc & ->).
    exists l1, at_, l2.
    destruct (carve_cases at_ a b) as (C1 & C2 & C3 & C4).
    split; [done|]. split; [done|].
    split; [|split; [|split]]; intros Ha Hb.
    + by rewrite C1.
    + by rewrite C2.
    + by rewrite C3.
    + by rewrite C4.
Qed.

Lemma allocate_on_separated_ranges_witness :
  separated [(0, 4); (6, 10)] ∧
  is_ok (allocate_available_time [(0, 4); (6, 10)] 7 9).
Proof.
  assert (Hsep : separated [(0, 4); (6, 10)]).
  { repeat constructor; unfold apart; simpl; lia. }
  split; [exact Hsep|].
  apply (allocate_on_separated_ranges [(0, 4); (6, 10)] 7 9 Hsep).
  exists (6, 10). split.
  - apply elem_of_cons. right. apply elem_of_cons. by left.
  - unfold contains, within. simpl. lia.
Defined.

(** C1 (counterexample).  A zero-length allocation in the middle of the
    free range [(0,10)] leaves the free ranges [(0,5)] and [(5,10)], sorted
    and non-overlapping; the request [[5,7]] is then fully contained in the
    free range [(5,10)], and yet the allocation raises "Tried fitting
    overlapping timeslot", because the scan meets [(0,5)] first, which
    holds the end point 5. *)
Lemma allocate_contained_request_refused :
  allocate_available_time (new 0 10) 5 5 = Ok [(0, 5); (5, 10)] ∧
  sorted_disjoint [(0, 5); (5, 10)] ∧
  (5, 10) ∈ [(0, 5); (5, 10)] ∧
  contains (5, 10) 5 7 ∧
  allocate_available_time [(0, 5); (5, 10)] 5 7
    = Raise OverlappingAllocation.
Proof.
  repeat split; try reflexivity; try (simpl; lia).
  - repeat constructor; simpl; lia.
  - apply elem_of_cons. right. apply elem_of_cons. by left.
Qed.

(** Allocations of ranges of positive length keep the free ranges a gap
    apart, as they are on a fresh tracker. *)
Lemma new_separated t_start t_end : separated (new t_start t_end).
Proof. repeat constructor. Qed.

Lemma allocate_separated l a b l' :
  a < b → separated l →
  allocate_available_time l a b = Ok l' → separated l'.
Proof.
  intros Hab Hl Hok.
  destruct (allocate_ok_inv _ _ _ _ Hok) as (l1 & at_ & l2 & -> & _ & Hc & ->).
  unfold separated in *.
  apply StronglySorted_app in Hl as (Hcross & Hl1 & Hl2).
  apply StronglySorted_cons in Hl2 as [Hat Hl2].
  rewrite Forall_forall in Hat.
  assert (Hinside : ∀ r, r ∈ carve at_ a b → at_.1 ≤ r.1 ∧ r.2 ≤ at_.2).
  { intros r Hr. unfold contains, within, carve in *.
    destruct (_ && _); [by apply elem_of_nil in Hr|].
    destruct (a =? at_.1).
    { apply list_elem_of_singleton in Hr as ->. simpl. lia. }
    destruct (b =? at_.2).
    { apply list_elem_of_singleton in Hr as ->. simpl. lia. }
    apply elem_of_cons in Hr as [->|Hr]; [simpl; lia|].
    apply list_elem_of_singleton in Hr as ->. simpl. lia. }
  apply StronglySorted_app. split; [|split; [done|]].
  - intros x r Hx [Hr|Hr]%elem_of_app.
    + destruct (Hinside r Hr).
      assert (apart x at_) by (apply Hcross; [done|by left]).
      unfold apart in *. lia.
    + apply Hcross; [done|]. by right.
  - apply StronglySorted_app. split; [|split; [|done]].
    + intros r y Hr Hy. destruct (Hinside r Hr). specialize (Hat y Hy).
      unfold apart in *. lia.
    + unfold contains, within, carve in *.
      destruct (_ && _); [constructor|].
      destruct (a =? at_.1); [repeat constructor|].
      destruct (b =? at_.2); [repeat constructor|].
      repeat constructor. unfold apart. simpl. lia.
Qed.

(** *** The invariant of the tracker *)

Lemma total_free_app l1 l2 :
  total_free (l1 ++ l2) = total_free l1 + total_free l2.
Proof. induction l1 as [|r l1 IH]; simpl; [done|]. rewrite IH. lia. Qed.

Lemma total_free_carve at_ a b :
  total_free (carve at_ a b) = (at_.2 - at_.1) - (b - a).
Proof.
  unfold carve.
  destruct (Z.eqb_spec a at_.1), (Z.eqb_spec b at_.2); simpl; lia.
Qed.

(** A successful call takes exactly the length of the request out of the
    free time. *)
Lemma allocate_total_free l a b l' :
  allocate_available_time l a b = Ok l' →
  total_free l' = total_free l - (b - a).
Proof.
  intros Hok.
  destruct (allocate_ok_inv _ _ _ _ Hok) as (l1 & at_ & l2 & -> & _ & _ & ->).
  rewrite !total_free_app, total_free_carve. simpl. lia.
Qed.

(** What is carved out of a range lies in the range. *)
Lemma carve_inside at_ a b r :
  a ≤ b → contains at_ a b → r ∈ carve at_ a b →
  at_.1 ≤ r.1 ∧ r.1 ≤ at_.2 ∧ r.2 ≤ at_.2.
Proof.
  unfold contains, within, carve. intros Hab Hc.
  destruct (_ && _); [by intros ?%elem_of_nil|].
  destruct (a =? at_.1).
  { intros ->%list_elem_of_singleton. simpl. lia. }
  destruct (b =? at_.2).
  { intros ->%list_elem_of_singleton. simpl. lia. }
  intros [->| ->%list_elem_of_singleton]%elem_of_cons; simpl; lia.
Qed.

Lemma carve_sorted_disjoint at_ a b :
  a ≤ b → contains at_ a b → sorted_disjoint (carve at_ a b).
Proof.
  unfold contains, within, carve, sorted_disjoint. intros Hab Hc.
  destruct (_ && _); [constructor|].
  destruct (a =? at_.1); [repeat constructor|].
  destruct (b =? at_.2); [repeat constructor|].
  repeat constructor; simpl; lia.
Qed.

Lemma allocate_sorted_disjoint l a b l' :
  a ≤ b → sorted_disjoint l →
  allocate_available_time l a b = Ok l' → sorted_disjoint l'.
Proof.
  intros Hab Hl Hok.
  destruct (allocate_ok_inv _ _ _ _ Hok) as (l1 & at_ & l2 & -> & _ & Hc & ->).
  unfold sorted_disjoint in *.
  apply StronglySorted_app in Hl as (Hcross & Hl1 & Hl2).
  apply StronglySorted_cons in Hl2 as [Hat Hl2].
  rewrite Forall_forall in Hat.
  apply StronglySorted_app. split; [|split; [done|]].
  - intros x r Hx [Hr|Hr]%elem_of_app.
    + destruct (carve_inside _ _ _ _ Hab Hc Hr) as (? & ? & ?).
      destruct (Hcross x at_ Hx) as [? ?]; [by left|].
      unfold before. lia.
    + apply Hcross; [done|]. by right.
  - apply StronglySorted_app. split; [|split; [|done]].
    + intros r y Hr Hy.
      destruct (carve_inside _ _ _ _ Hab Hc Hr) as (? & ? & ?).
      destruct (Hat y Hy) as [? ?]. unfold before. lia.
    + by apply carve_sorted_disjoint.
Qed.

(** C2 (amended).  The free ranges of a tracker are sorted by start and
    pairwise non-overlapping after construction and after every successful
    allocation of a range [[a,b]] with [a ≤ b]; and across every call with
    [a ≤ b], successful or not, the invariant still holds and the total free
    time does not increase. *)
Theorem tracker_invariant (self : AvailableTime) :
  reachable self →
  sorted_disjoint self ∧
  ∀ a b, a ≤ b →
    sorted_disjoint (after_allocate self a b) ∧
    total_free (after_allocate self a b) ≤ total_free self.
Proof.
  intros Hreach.
  assert (Hinv : sorted_disjoint self).
  { induction Hreach as [s e|self a b self' _ IH Hab Hok].
    - repeat constructor.
    - by eapply allocate_sorted_disjoint. }
  split; [done|]. intros a b Hab. unfold after_allocate.
  destruct (allocate_available_time self a b) as [self'|e] eqn:Hok.
  - split; [by eapply allocate_sorted_disjoint|].
    rewrite (allocate_total_free _ _ _ _ Hok). lia.
  - split; [done|lia].
Qed.

Lemma tracker_invariant_witness :
  sorted_disjoint (after_allocate (new 0 10) 2 4) ∧
  total_free (after_allocate (new 0 10) 2 4) ≤ total_free (new 0 10).
Proof.
  apply (proj2 (tracker_invariant (new 0 10) (reachable_new 0 10)) 2 4). lia.
Defined.

(** C2 (counterexample).  The call [allocate_available_time(7, 3)] on the
    fresh tracker [(0,10)] succeeds and leaves the ranges [(0,7)] and
    [(3,10)], which overlap, and 14 ns of free time where there were 10.
    It is the call [DescriptiveInOutStudy.run] makes for the SP-DATA slot of
    a free range [(0,10)] under a guard time of 7: the slot starts at
    [0 + 7] and has the duration [10 - 0 - 2·7]. *)
Lemma allocate_inverted_request :
  allocate_available_time (new 0 10) 7 3 = Ok [(0, 7); (3, 10)] ∧
  ¬ sorted_disjoint [(0, 7); (3, 10)] ∧
  total_free (new 0 10) < total_free [(0, 7); (3, 10)].
Proof.
  split; [reflexivity|]. split; [|simpl; lia].
  intros [Hb _]%StronglySorted_cons.
  apply Forall_cons in Hb as [[_ Hb] _]. simpl in Hb. lia.
Qed.

(** *** Requests that touch a free range *)

(** C10.  When no free range contains the request [[a,b]] but an end
    point of the request is the start or the stop of some free range, the
    allocation raises "Tried fitting overlapping timeslot", not
    "Insufficient time". *)
Theorem allocate_touching_boundary (self : AvailableTime) (a b : Z)
    (at_ : range) :
  at_ ∈ self → at_.1 ≤ at_.2 →
  a = at_.1 ∨ a = at_.2 ∨ b = at_.1 ∨ b = at_.2 →
  (∀ r, r ∈ self → ¬ contains r a b) →
  allocate_available_time self a b = Raise OverlappingAllocation ∧
  allocate_available_time self a b ≠ Raise InsufficientTime.
Proof.
  intros Hin Hat Htouch Hnone.
  assert (Hm : ¬ misses at_ a b).
  { unfold misses, within. lia. }
  destruct (allocate_available_time_allocated self a b)
    as [l1 r l2 -> Hl1 Hr|l1 r l2 -> Hl1 Hr|Hl].
  - destruct (Hnone r); [apply in_middle|done].
  - split; [done|]. intros [=].
  - rewrite Forall_forall in Hl. destruct Hm. by apply Hl.
Qed.

Lemma allocate_touching_boundary_witness :
  allocate_available_time [(5, 10)] 3 5 = Raise OverlappingAllocation ∧
  allocate_available_time [(5, 10)] 3 5 ≠ Raise InsufficientTime.
Proof.
  apply (allocate_touching_boundary [(5, 10)] 3 5 (5, 10)).
  - apply elem_of_cons. by left.
  - simpl. lia.
  - simpl. lia.
  - intros r ->%list_elem_of_singleton. unfold contains, within. simpl. lia.
Defined.

End TimeslotFacts.

(** ** Exact arithmetic satisfies the order laws *)

Module ExactFacts.
Import Exact.

Lemma fle_Qle (x y : Q) : fle x y ↔ (x <= y)%Q.
Proof. apply Qle_bool_iff. Qed.

Lemma flt_Qlt (x y : Q) : flt x y ↔ (x < y)%Q.
Proof.
  unfold flt. simpl. rewrite <- not_true_iff_false, Qle_bool_iff.
  split; [apply Qnot_le_lt|apply Qlt_not_le].
Qed.

#[export] Instance order : PyFloatOrder.
Proof.
  split.
  - intros x. apply fle_Qle, Qle_refl.
  - intros x y z. rewrite !fle_Qle. apply Qle_trans.
  - intros x y. rewrite !fle_Qle.
    destruct (Qlt_le_dec x y); [left; by apply Qlt_le_weak|by right].
  - intros a b Hab. apply fle_Qle. simpl. by rewrite <- Zle_Qle.
  - intros a Ha. apply flt_Qlt. simpl. by rewrite <- Zlt_Qlt.
  - intros x Hx%flt_Qlt. simpl in *.
    destruct (Qeq_bool x (inject_Z 0)) eqn:E; [|done].
    apply Qeq_bool_iff in E. rewrite E in Hx. by apply Qlt_irrefl in Hx.
  - intros a y Ha Hy%flt_Qlt. apply flt_Qlt. simpl in *.
    apply Qmult_lt_0_compat; [|done].
    change (inject_Z 0 < inject_Z a)%Q. by rewrite <- Zlt_Qlt.
  - intros x y c Hc%flt_Qlt Hxy%fle_Qle. apply fle_Qle. simpl in *.
    apply Qmult_le_compat_r; [done|by apply Qlt_le_weak].
  - intros x y d Hd%flt_Qlt Hxy%fle_Qle. apply fle_Qle. simpl in *.
    unfold Qdiv. apply Qmult_le_compat_r; [done|].
    by apply Qlt_le_weak, Qinv_lt_0_compat.
  - intros x y Hxy%fle_Qle. simpl. by apply Qceiling_resp_le.
Qed.


Lemma nearest_enclosed (x : Q) : Qfloor x ≤ nearest x ≤ Qfloor x + 1.
Proof.
  unfold nearest. destruct (_ ?= _)%Q; [destruct (Z.even _)|..]; lia.
Qed.

Lemma nearest_above_int (x : Q) (m : Z) :
  (inject_Z m <= x)%Q → m ≤ nearest x.
Proof.
  intros Hm%Qfloor_resp_le. rewrite Qfloor_Z in Hm.
  pose proof (nearest_enclosed x). lia.
Qed.

Lemma nearest_below_int (x : Q) (m : Z) :
  (x <= inject_Z m)%Q → nearest x ≤ m.
Proof.
  intros Hm. unfold nearest.
  destruct (Z.le_gt_cases m (Qfloor x)) as [Hle|Hgt].
  - assert (Hx : (x == inject_Z m)%Q).
    { apply Qle_antisym; [done|].
      eapply Qle_trans; [|apply Qfloor_le]. by rewrite <- Zle_Qle. }
    assert (Hfl : Qfloor x = m).
    { rewrite Hx. apply Qfloor_Z. }
    rewrite Hfl.
    assert (Hc : (x - inject_Z m ?= 1 # 2)%Q = Lt).
    { apply Qlt_alt. rewrite Hx. unfold Qminus. rewrite Qplus_opp_r. done. }
    rewrite Hc. lia.
  - destruct (_ ?= _)%Q; [destruct (Z.even _)|..]; lia.
Qed.

Lemma ten_power_pos (k : Z) : (0 < 10 ^ k)%Q.
Proof. by apply Qpower_0_lt. Qed.

#[export] Instance decimals : PyFloatDecimals.
Proof.
  split.
  - intros x k _. exists (nearest (x * 10 ^ k)). simpl.
    apply Qeq_bool_iff. unfold to_decimals, Qdiv. by rewrite Qpower_opp.
  - intros x k m _ _ Hm%fle_Qle. apply fle_Qle. simpl in *.
    unfold to_decimals. rewrite Qpower_opp in *.
    pose proof (ten_power_pos k) as Hpos.
    apply Qmult_le_compat_r; [|by apply Qlt_le_weak, Qinv_lt_0_compat].
    rewrite <- Zle_Qle. apply nearest_above_int.
    apply (Qmult_le_compat_r _ _ (10 ^ k)) in Hm; [|by apply Qlt_le_weak].
    rewrite <- Qmult_assoc, (Qmult_comm (/ _)), Qmult_inv_r, Qmult_1_r in Hm;
      [done|]. intros Hz. rewrite Hz in Hpos. by apply Qlt_irrefl in Hpos.
  - intros x k m _ _ Hm%fle_Qle. apply fle_Qle. simpl in *.
    unfold to_decimals. rewrite Qpower_opp in *.
    pose proof (ten_power_pos k) as Hpos.
    apply Qmult_le_compat_r; [|by apply Qlt_le_weak, Qinv_lt_0_compat].
    rewrite <- Zle_Qle. apply nearest_below_int.
    apply (Qmult_le_compat_r _ _ (10 ^ k)) in Hm; [|by apply Qlt_le_weak].
    rewrite <- Qmult_assoc, (Qmult_comm (/ _)), Qmult_inv_r, Qmult_1_r in Hm;
      [done|]. intros Hz. rewrite Hz in Hpos. by apply Qlt_irrefl in Hpos.
Qed.

End ExactFacts.

(** ** Frame sizes and beamforming allocations *)

Module HelpersFacts.
Import Constants Helpers.

(** C6.  [calc_a_msdu_length] returns the subframe length unchanged when
    there is at most one subframe; for [n > 1] subframes it returns
    [n·(2+L) + (n−1)·(L mod 4)] when this is at most the maximum A-MSDU
    length 7935; and it raises, with a [RuntimeError], exactly when
    [n > 1] and this value exceeds the maximum. *)
Theorem calc_a_msdu_length_spec (n L : Z) :
  let padded := n * (2 + L) + (n - 1) * (L `mod` 4) in
  (n ≤ 1 → calc_a_msdu_length n L = Ok L) ∧
  (1 < n → padded ≤ 7935 → calc_a_msdu_length n L = Ok padded) ∧
  (1 < n → 7935 < padded →
     ∃ msg, calc_a_msdu_length n L = Raise (RuntimeError msg)) ∧
  (raises (calc_a_msdu_length n L) ↔ 1 < n ∧ 7935 < padded).
Proof.
  intros padded. unfold calc_a_msdu_length, MAX_A_MSDU_LENGTH.
  fold padded.
  destruct (Z.leb_spec n 1) as [Hn|Hn].
  - split; [done|]. split; [lia|]. split; [lia|].
    split; [intros [e [=]]|lia].
  - destruct (Z.gtb_spec padded 7935) as [Hp|Hp].
    + split; [lia|]. split; [lia|]. split; [eauto|].
      split; [done|]. intros _. by eexists.
    + split; [lia|]. split; [done|]. split; [lia|].
      split; [intros [e [=]]|lia].
Qed.

(** *** The fallback of the beamforming scheduler *)

Lemma np_roll_0 a : np_roll a 0 = a.
Proof.
  unfold np_roll. destruct (length a) eqn:E; [done|].
  rewrite Nat.Div0.mod_0_l, Nat.sub_0_r, <- E.
  by rewrite drop_all, take_ge.
Qed.

Lemma int64_fits z : fits_int64 z = true → int64 z = z.
Proof.
  unfold fits_int64, int64. intros [H1 H2]%andb_prop.
  apply Z.leb_le in H1. apply Z.ltb_lt in H2.
  rewrite Z.mod_small by lia. lia.
Qed.

Lemma np_add_zeros a :
  Forall (λ x, fits_int64 x = true) a → np_add (np_zeros (length a)) a = a.
Proof.
  unfold np_add, np_zeros. induction 1 as [|x a Hx _ IH]; simpl; [done|].
  by rewrite IH, int64_fits.
Qed.

Lemma out_of_sync_single_user a :
  Forall (λ x, fits_int64 x = true) a → out_of_sync a 1 = a.
Proof.
  intros Ha. unfold out_of_sync. change (Z.to_nat 1) with 1%nat.
  cbn [seq foldl]. by rewrite np_roll_0, np_add_zeros.
Qed.

Lemma one_hot_fits n i :
  Forall (λ x, fits_int64 x = true) (<[i := 1]> (np_zeros n)).
Proof.
  apply Forall_insert; [|done]. by apply Forall_replicate.
Qed.

Lemma np_sum_zeros n : np_sum (np_zeros n) = 0.
Proof.
  induction n as [|n IH]; simpl; [done|]. unfold np_zeros in IH.
  by rewrite IH.
Qed.

Lemma np_sum_one_hot n i :
  (i < n)%nat → np_sum (<[i := 1]> (np_zeros n)) = 1.
Proof.
  revert i. induction n as [|n IH]; intros i Hi; [lia|].
  destruct i as [|i].
  - change (np_sum (1 :: np_zeros n) = 1). cbn [np_sum foldr].
    fold (np_sum (np_zeros n)). rewrite np_sum_zeros. lia.
  - change (np_sum (0 :: <[i := 1]> (np_zeros n)) = 1). cbn [np_sum foldr].
    fold (np_sum (<[i := 1]> (np_zeros n))). rewrite IH by lia. lia.
Qed.

Section Scheduler.
Context `{PyFloat}.

(** C8.  When the beamforming period exceeds the observed horizon
    [num_of_observed_bi · bi_duration], the scheduler called for one user
    prints the fallback notice and returns an array with one entry per
    observed beacon interval: 1 at the randomly drawn index, 0 elsewhere,
    so that the entries sum to exactly 1. *)
Theorem get_number_of_bft_allocations_fallback (draw : nat)
    (num_of_observed_bi bi_duration bft_period : Z) :
  Z.of_nat draw < num_of_observed_bi →
  num_of_observed_bi * bi_duration < bft_period →
  ∃ array,
    get_number_of_bft_allocations draw num_of_observed_bi bi_duration
                                  bft_period 1
    = ([fallback_notice num_of_observed_bi bi_duration bft_period], Ok array)
    ∧ length array = Z.to_nat num_of_observed_bi
    ∧ np_sum array = 1
    ∧ array !! draw = Some 1
    ∧ ∀ i, i ≠ draw → (i < length array)%nat → array !! i = Some 0.
Proof.
  intros Hdraw Hperiod.
  exists (<[draw := 1]> (np_zeros (Z.to_nat num_of_observed_bi))).
  unfold get_number_of_bft_allocations.
  destruct (Z.ltb_spec num_of_observed_bi 0); [lia|].
  destruct (Z.gtb_spec bft_period (num_of_observed_bi * bi_duration)); [|lia].
  destruct (Z.leb_spec num_of_observed_bi 0); [lia|].
  rewrite out_of_sync_single_user by apply one_hot_fits.
  assert (Hlen : length (np_zeros (Z.to_nat num_of_observed_bi))
                 = Z.to_nat num_of_observed_bi) by apply length_replicate.
  split; [done|]. split; [by rewrite length_insert|].
  split; [apply np_sum_one_hot; lia|].
  split.
  - apply list_lookup_insert_eq. lia.
  - intros i Hi Hlt. rewrite length_insert in Hlt.
    rewrite list_lookup_insert_ne by done.
    apply lookup_replicate_2. lia.
Qed.


End Scheduler.

Lemma get_number_of_bft_allocations_fallback_witness :
  ∃ array,
    get_number_of_bft_allocations (H:=Exact.arithmetic) 3 10 100000000
                                  1000000001 1
    = ([fallback_notice 10 100000000 1000000001], Ok array)
    ∧ length array = Z.to_nat 10
    ∧ np_sum array = 1
    ∧ array !! 3%nat = Some 1
    ∧ ∀ i, i ≠ 3%nat → (i < length array)%nat → array !! i = Some 0.
Proof.
  apply (get_number_of_bft_allocations_fallback (H:=Exact.arithmetic)
           3 10 100000000 1000000001); lia.
Defined.



(** *** Scheme selection and the size of a data frame *)

Lemma py_index_elem_of {A} (l : list A) (i : Z) (x : A) :
  py_index l i = Ok x → x ∈ l.
Proof.
  unfold py_index. destruct (_ && _); [|done].
  destruct (l !! _) eqn:E; [|done]. intros [= <-].
  by eapply list_elem_of_lookup_2.
Qed.

Section Ordered.
Context `{PyFloat} `{!PyFloatOrder}.








(** C7.  For a positive code rate and a modulation rate the table
    [N_CBPB] has an entry for, the size of the data-frame PPDU is defined
    for every payload size and is monotonically non-decreasing in it. *)
Theorem calc_data_frame_ppdu_size_monotone (p1 p2 : Z)
    (modulation_rate code_rate : float) :
  flt (of_int 0) code_rate →
  is_ok (py_index N_CBPB (trunc (fdiv modulation_rate (of_int 2)))) →
  p1 ≤ p2 →
  ∃ s1 s2,
    calc_data_frame_ppdu_size p1 modulation_rate code_rate = Ok s1 ∧
    calc_data_frame_ppdu_size p2 modulation_rate code_rate = Ok s2 ∧
    s1 ≤ s2.
Proof.
  intros Hrate [N_cbpb HN] Hp. unfold calc_data_frame_ppdu_size.
  assert (Hdiv : flt (of_int 0) (fmul (of_int 672) code_rate)).
  { by apply fmul_pos. }
  rewrite (flt_not_zero _ Hdiv), HN. unfold mbind, result_bind.
  assert (HNpos : 0 < N_cbpb).
  { apply py_index_elem_of in HN. unfold N_CBPB in HN.
    repeat (apply elem_of_cons in HN as [->|HN]; [lia|]).
    by apply elem_of_nil in HN. }
  eexists _, _. split; [done|]. split; [done|].
  assert (Hblks :
    ceil (fdiv (fmul (fdiv (of_int (p1 * 8)) (fmul (of_int 672) code_rate))
                     (of_int 672)) (of_int N_cbpb))
    ≤ ceil (fdiv (fmul (fdiv (of_int (p2 * 8)) (fmul (of_int 672) code_rate))
                       (of_int 672)) (of_int N_cbpb))).
  { apply ceil_mono, fdiv_mono_l; [by apply of_int_pos|].
    apply fmul_mono_l; [by apply of_int_pos|].
    apply fdiv_mono_l; [done|]. apply of_int_mono. lia. }
  lia.
Qed.

End Ordered.

Import ExactFacts.


(** C4 (counterexample).  The threshold [2e-5] is written with five
    decimals, but [int(abs(log10(2e-5)))] is 4: the code rounds the stored
    BER [4e-5] of scheme 2 to four decimals, to zero, and returns scheme 2,
    whose BER rounded to the five decimals of the threshold is [4e-5] and
    exceeds it; selection as the claim words it returns scheme 1. *)
Lemma get_optimal_mcs_rounds_to_fewer_decimals :
  let max_BER := (2 # 100000)%Q in
  let ber := [((5 # 1)%Q,
               [((1 # 1)%Q, (0 # 1)%Q); ((2 # 1)%Q, (4 # 100000)%Q);
                ((3 # 1)%Q, (1 # 1000)%Q)])] in
  Worded.decimal_precision max_BER = 5 ∧
  trunc (fabs (flog10 (PyFloat:=Exact.arithmetic) max_BER)) = 4 ∧
  Worded.select_scheme (5 # 1)%Q max_BER ber = Ok (1 # 1)%Q ∧
  get_optimal_mcs (H:=Exact.arithmetic) (5 # 1)%Q max_BER ber
  = Ok (2 # 1)%Q ∧
  get_optimal_mcs (H:=Exact.arithmetic) (5 # 1)%Q max_BER ber
  ≠ Worded.select_scheme (5 # 1)%Q max_BER ber.
Proof. repeat split; try reflexivity. discriminate. Qed.

Lemma calc_data_frame_ppdu_size_monotone_witness :
  ∃ s1 s2,
    calc_data_frame_ppdu_size (H:=Exact.arithmetic) 1000 (2 # 1)%Q (1 # 2)%Q
    = Ok s1 ∧
    calc_data_frame_ppdu_size (H:=Exact.arithmetic) 1500 (2 # 1)%Q (1 # 2)%Q
    = Ok s2 ∧
    s1 ≤ s2.
Proof.
  apply (calc_data_frame_ppdu_size_monotone (H:=Exact.arithmetic)
           1000 1500 (2 # 1)%Q (1 # 2)%Q).
  - reflexivity.
  - by eexists.
  - lia.
Defined.

End HelpersFacts.

(** ** The duration generator *)

Module DurationFacts.
Import Constants Helpers Duration_generator.

Section Getters.
Context `{PyFloat}.

Lemma getter_stored_some k self v :
  stored k self = Some v → getter k self = Ok v.
Proof.
  destruct self as [T g bti bft dp cts ack dwo].
  destruct k; cbn;
    match goal with |- _ <$> ?o = _ → _ => destruct o end;
    cbn; congruence.
Qed.

Lemma getter_stored_none k self :
  stored k self = None → raises (getter k self).
Proof.
  destruct self as [T g bti bft dp cts ack dwo].
  destruct k; cbn;
    match goal with |- _ <$> ?o = _ → _ => destruct o end;
    cbn; intros; try discriminate; by eexists.
Qed.

Lemma stored_new MCS_TABLE k : stored k (new MCS_TABLE) = None.
Proof. by destruct k. Qed.

(** A successful call stores a value of its own kind and leaves the
    attributes of the other kinds as they were. *)
Lemma perform_stores self c self' :
  perform self c = Ok self' → is_Some (stored (generates c) self').
Proof.
  destruct c; simpl; try (intros [= <-]; by eexists).
  - unfold generate_data_ppdu_duration.
    destruct (loc _ _); [|done]. simpl.
    destruct (calc_data_frame_ppdu_size _ _ _); [|done]. simpl.
    intros [= <-]. by eexists.
  - unfold generate_data_with_overhead_duration.
    destruct (get_data_ppdu_duration self); [|done]. simpl.
    destruct enable_cts; simpl;
      [destruct (get_cts_duration self); [|done]; simpl|];
      (destruct enable_ack; simpl;
       [destruct (get_ack_duration self); [|done]; simpl|]);
      intros [= <-]; by eexists.
Qed.

Lemma perform_frame self c self' k :
  perform self c = Ok self' → generates c ≠ k →
  stored k self' = stored k self.
Proof.
  destruct c; simpl; try (intros [= <-] Hk; by destruct k).
  - unfold generate_data_ppdu_duration.
    destruct (loc _ _); [|done]. simpl.
    destruct (calc_data_frame_ppdu_size _ _ _); [|done]. simpl.
    intros [= <-] Hk. by destruct k.
  - unfold generate_data_with_overhead_duration.
    destruct (get_data_ppdu_duration self); [|done]. simpl.
    destruct enable_cts; simpl;
      [destruct (get_cts_duration self); [|done]; simpl|];
      (destruct enable_ack; simpl;
       [destruct (get_ack_duration self); [|done]; simpl|]);
      intros [= <-] Hk; by destruct k.
Qed.

Lemma perform_all_frame self calls k :
  Forall (λ c, generates c ≠ k) calls →
  stored k (perform_all self calls) = stored k self.
Proof.
  unfold perform_all. intros Hcalls. revert self.
  induction Hcalls as [|c calls Hc _ IH]; intros self; simpl; [done|].
  rewrite IH. destruct (perform self c) as [self'|e] eqn:E; [|done].
  by eapply perform_frame.
Qed.

(** C9.  For every duration kind: on a generator on which no
    [generate_*] call of that kind has been made, whatever other calls have
    been, the getter raises; and once a [generate_*] call of that kind has
    returned, the getter returns the value that call stored, until the next
    call of that kind. *)
Theorem getter_before_and_after_generation
    (MCS_TABLE : list (float * (float * float))) (k : kind) :
  (∀ calls, Forall (λ c, generates c ≠ k) calls →
     raises (getter k (perform_all (new MCS_TABLE) calls))) ∧
  (∀ self c self' calls,
     generates c = k → perform self c = Ok self' →
     Forall (λ c, generates c ≠ k) calls →
     ∃ v, stored k self' = Some v ∧
          getter k (perform_all self' calls) = Ok v).
Proof.
  split.
  - intros calls Hcalls. apply getter_stored_none.
    by rewrite perform_all_frame, stored_new.
  - intros self c self' calls <- Hok Hcalls.
    destruct (perform_stores _ _ _ Hok) as [v Hv].
    exists v. split; [done|].
    apply getter_stored_some. by rewrite perform_all_frame.
Qed.

End Getters.

End DurationFacts.

(** ** The model at work *)

Module Examples.
Import Constants Helpers Duration_generator Exact.

(** Two disjoint allocations and one that covers what is left. *)
Example allocate_twice :
  (self ← Timeslot.allocate_available_time (Timeslot.new 0 100) 0 30;
   self ← Timeslot.allocate_available_time self 60 100;
   Timeslot.allocate_available_time self 30 60) = Ok [].
Proof. reflexivity. Qed.

(** The CTS and ACK frames of 20 and 14 octets in symbols. *)
Example control_frame_of_20_octets : calc_control_frame_ppdu_size 20 = 24744%Q.
Proof. reflexivity. Qed.

Example control_frame_of_14_octets : calc_control_frame_ppdu_size 14 = 23208%Q.
Proof. reflexivity. Qed.

(** A data frame of 1500 octets, QPSK at code rate 1/2. *)
Example data_frame_of_1500_octets :
  calc_data_frame_ppdu_size 1500 (2 # 1)%Q (1 # 2)%Q = Ok 18240.
Proof. reflexivity. Qed.

(** Five subframes of 1500 octets fit an A-MSDU, six do not. *)
Example a_msdu_of_five : calc_a_msdu_length 5 1500 = Ok 7510.
Proof. reflexivity. Qed.

Example a_msdu_of_six :
  calc_a_msdu_length 6 1500
  = Raise (RuntimeError "A-MSDU exceeded max size 9012 (max 7935)").
Proof. reflexivity. Qed.

(** A maximal BER of 1e-5 makes the table round to five decimals. *)
Example power_of_1e_5 : trunc (fabs (flog10 (literal 1 (-5)))) = 5.
Proof. reflexivity. Qed.

(** A beamforming period of two and a half beacon intervals, for two users
    out of phase by one interval. *)
Example two_users_out_of_sync :
  get_number_of_bft_allocations 0 10 100 250 2
  = ([], Ok [1; 0; 1; 1; 1; 1; 0; 1; 1; 1]).
Proof. reflexivity. Qed.

(** The guard time of a beacon interval of 100 ms, and the CTS duration. *)
Example guard_time_of_100_ms :
  get_guard_time_duration
    (generate_guard_time_duration (Duration_generator.new []) 100000000)
  = Ok 6000.
Proof. reflexivity. Qed.

Example cts_duration_generated :
  get_cts_duration (generate_cts_duration (Duration_generator.new []))
  = Ok 14059.
Proof. reflexivity. Qed.

End Examples.

(** ** Time slots and their children *)

Module SlotsFacts.
Import Timeslot Slots TimeslotFacts.

Lemma add_child_inv self child self' :
  add_child self child = Ok self' →
  ∃ at',
    allocate_available_time (at_ self) (timestamp child) (stop child) = Ok at'
    ∧ self' = {| slot := slot self; at_ := at';
                 children := children self ++ [set_parent child (slot self)] |}.
Proof.
  unfold add_child, stop.
  destruct (allocate_available_time _ _ _) as [at'|e]; [|done].
  intros [= <-]. by exists at'.
Qed.

(** Every free range after a call lies in a free range before it. *)
Lemma allocate_shrinks l a b l' r' :
  allocate_available_time l a b = Ok l' → r' ∈ l' →
  ∃ r, r ∈ l ∧ r.1 ≤ r'.1 ∧ r'.2 ≤ r.2.
Proof.
  intros Hok Hr'.
  destruct (allocate_ok_inv _ _ _ _ Hok) as (l1 & x & l2 & -> & _ & Hc & ->).
  apply elem_of_app in Hr' as [Hr'|Hr'].
  { exists r'. rewrite elem_of_app. split; [by left|lia]. }
  apply elem_of_app in Hr' as [Hr'|Hr'].
  - exists x. split; [apply in_middle|].
    unfold contains, within, carve in *.
    destruct (_ && _); [by apply elem_of_nil in Hr'|].
    destruct (a =? x.1).
    { apply list_elem_of_singleton in Hr' as ->. simpl. lia. }
    destruct (b =? x.2).
    { apply list_elem_of_singleton in Hr' as ->. simpl. lia. }
    apply elem_of_cons in Hr' as [->|Hr']; [simpl; lia|].
    apply list_elem_of_singleton in Hr' as ->. simpl. lia.
  - exists r'. rewrite elem_of_app, elem_of_cons. split; [auto|lia].
Qed.

(** After the allocation of [[a,b]] every free range stops by [a] or
    starts from [b] on. *)
Lemma allocate_clears l a b l' r :
  sorted_disjoint l → allocate_available_time l a b = Ok l' → r ∈ l' →
  r.2 ≤ a ∨ b ≤ r.1.
Proof.
  intros Hl Hok Hr.
  destruct (allocate_ok_inv _ _ _ _ Hok) as (l1 & x & l2 & -> & _ & Hc & ->).
  unfold sorted_disjoint in Hl.
  apply StronglySorted_app in Hl as (Hcross & _ & Hl2).
  apply StronglySorted_cons in Hl2 as [Hx _]. rewrite Forall_forall in Hx.
  unfold contains, within in Hc.
  apply elem_of_app in Hr as [Hr|Hr].
  { assert (before r x) as [_ ?]
      by (apply Hcross; [done|apply elem_of_cons; by left]).
    lia. }
  apply elem_of_app in Hr as [Hr|Hr].
  - unfold carve in Hr.
    destruct (_ && _); [by apply elem_of_nil in Hr|].
    destruct (a =? x.1).
    { apply list_elem_of_singleton in Hr as ->. simpl. lia. }
    destruct (b =? x.2).
    { apply list_elem_of_singleton in Hr as ->. simpl. lia. }
    apply elem_of_cons in Hr as [->|Hr]; [simpl; lia|].
    apply list_elem_of_singleton in Hr as ->. simpl. lia.
  - destruct (Hx r Hr) as [_ ?]. lia.
Qed.

(** X1.  Once a range [[a,b]] has been allocated on a tracker of sorted,
    non-overlapping free ranges, no later request that reaches into the
    inside of [[a,b]] is granted, whatever has been allocated in between. *)
Theorem allocated_time_is_never_granted_again
    (self self' self'' : AvailableTime) (a b c d : Z) :
  sorted_disjoint self →
  allocate_available_time self a b = Ok self' →
  later self' self'' →
  a < d → c < b →
  raises (allocate_available_time self'' c d).
Proof.
  intros Hsorted Hok Hlater Had Hcb.
  assert (Hclear : ∀ r, r ∈ self'' → r.2 ≤ a ∨ b ≤ r.1).
  { induction Hlater as [|l l' a' b' _ IH Hok'].
    - intros r. by apply (allocate_clears self a b self').
    - intros r' Hr'.
      destruct (allocate_shrinks _ _ _ _ _ Hok' Hr') as (r & Hr & ? & ?).
      destruct (IH r Hr); lia. }
  destruct (allocate_available_time self'' c d) as [l|e] eqn:E;
    [|by eexists].
  destruct (allocate_ok_inv _ _ _ _ E) as (l1 & x & l2 & -> & _ & Hc & _).
  destruct (Hclear x (in_middle _ _ _)); unfold contains, within in Hc; lia.
Qed.

Lemma allocated_time_is_never_granted_again_witness :
  raises (allocate_available_time [(0, 20); (40, 60); (80, 100)] 30 50).
Proof.
  apply (allocated_time_is_never_granted_again
           (new 0 100) [(0, 20); (40, 100)] [(0, 20); (40, 60); (80, 100)]
           20 40 30 50).
  - repeat constructor.
  - reflexivity.
  - apply (later_allocate _ [(0, 20); (40, 100)] 60 80).
    + apply later_now.
    + reflexivity.
  - lia.
  - lia.
Defined.

(** *** Children of a slot *)

Lemma stop_set_parent c p : stop (set_parent c p) = stop c.
Proof. done. Qed.

(** What the children and the free ranges of a slot keep to. *)
Record tidy (self : ResponsibleTimeslot) : Prop := {
  tidy_sorted : sorted_disjoint (at_ self);
  tidy_free_inside r :
    r ∈ at_ self →
    timestamp (slot self) ≤ r.1 ∧ r.2 ≤ stop (slot self);
  tidy_free_apart c r :
    c ∈ children self → r ∈ at_ self → stop c ≤ r.1 ∨ r.2 ≤ timestamp c;
  tidy_children_apart i j c1 c2 :
    (i < j)%nat → children self !! i = Some c1 →
    children self !! j = Some c2 → disjoint c1 c2;
  tidy_children_inside c :
    c ∈ children self →
    timestamp (slot self) ≤ timestamp c ∧ stop c ≤ stop (slot self) ∧
    parent_id c = Some (id (slot self));
}.

Lemma tidy_init i n t d : tidy (ResponsibleTimeslot_init i n t d).
Proof.
  split; simpl.
  - repeat constructor.
  - intros r ->%list_elem_of_singleton. unfold stop. simpl. lia.
  - by intros c r ?%elem_of_nil.
  - intros i' j c1 c2 _ Hi. by rewrite lookup_nil in Hi.
  - by intros c ?%elem_of_nil.
Qed.

Lemma tidy_add_child self child self' :
  tidy self → 0 ≤ duration child →
  add_child self child = Ok self' → tidy self'.
Proof.
  intros [Hsorted Hfin Hfa Hca Hcin] Hd Hadd.
  destruct (add_child_inv _ _ _ Hadd) as (at' & Hok & ->).
  assert (Hab : timestamp child ≤ stop child) by (unfold stop; lia).
  pose proof (allocate_ok_inv _ _ _ _ Hok)
    as (l1 & x & l2 & Hl & _ & Hc & _).
  assert (Hx : x ∈ at_ self) by (rewrite Hl; apply in_middle).
  unfold contains, within in Hc.
  split; simpl.
  - by eapply allocate_sorted_disjoint.
  - intros r' Hr'.
    destruct (allocate_shrinks _ _ _ _ _ Hok Hr') as (r & Hr & ? & ?).
    destruct (Hfin r Hr). lia.
  - intros c r' [Hc'|Hc']%elem_of_app Hr'.
    + destruct (allocate_shrinks _ _ _ _ _ Hok Hr') as (r & Hr & ? & ?).
      destruct (Hfa c r Hc' Hr); lia.
    + apply list_elem_of_singleton in Hc' as ->.
      rewrite stop_set_parent. simpl.
      destruct (allocate_clears _ _ _ _ r' Hsorted Hok Hr'); lia.
  - intros i j c1 c2 Hij H1 H2.
    apply lookup_snoc_Some in H2 as [[Hj H2]|[Hj <-]].
    + apply lookup_snoc_Some in H1 as [[_ H1]|[Hi _]]; [|lia].
      by apply (Hca i j).
    + apply lookup_snoc_Some in H1 as [[_ H1]|[Hi _]]; [|lia].
      apply list_elem_of_lookup_2 in H1.
      destruct (Hfa c1 x H1 Hx); unfold disjoint;
        rewrite stop_set_parent; simpl; lia.
  - intros c [Hc'|Hc']%elem_of_app; [by apply Hcin|].
    apply list_elem_of_singleton in Hc' as ->.
    rewrite stop_set_parent. simpl. destruct (Hfin x Hx).
    split; [lia|]. split; [lia|done].
Qed.

(** X2.  In a slot built by [add_child] calls for children of a duration
    that is not negative, no two children share a stretch of time, and
    every child lies in the span of the slot and names it as its parent. *)
Theorem children_never_overlap (self : ResponsibleTimeslot) :
  grown (λ child, 0 ≤ duration child) self →
  (∀ i j c1 c2, (i < j)%nat →
     get_list_of_children self !! i = Some c1 →
     get_list_of_children self !! j = Some c2 → disjoint c1 c2) ∧
  (∀ c, c ∈ get_list_of_children self →
     timestamp (slot self) ≤ timestamp c ∧ stop c ≤ stop (slot self) ∧
     parent_id c = Some (id (slot self))).
Proof.
  intros Hgrown.
  assert (Htidy : tidy self).
  { induction Hgrown as [i n t d|self child self' _ IH Hd Hadd].
    - apply tidy_init.
    - by eapply tidy_add_child. }
  destruct Htidy as [_ _ _ Hca Hcin]. by split.
Qed.

Lemma children_never_overlap_witness :
  let bti := Timeslot_init 1 "BTI" 0 10 in
  let sp := Timeslot_init 2 "SP-DATA" 16 78 in
  let bi0 := ResponsibleTimeslot_init 0 "BI" 0 100 in
  let bi1 := {| slot := slot bi0; at_ := [(10, 100)];
                children := [set_parent bti (slot bi0)] |} in
  let bi2 := {| slot := slot bi0; at_ := [(10, 16); (94, 100)];
                children := [set_parent bti (slot bi0);
                             set_parent sp (slot bi0)] |} in
  disjoint (set_parent bti (slot bi0)) (set_parent sp (slot bi0)).
Proof.
  intros bti sp bi0 bi1 bi2.
  assert (Hgrown : grown (λ child, 0 ≤ duration child) bi2).
  { apply (grown_add_child _ bi1 sp).
    - apply (grown_add_child _ bi0 bti).
      + apply grown_init.
      + simpl. lia.
      + reflexivity.
    - simpl. lia.
    - reflexivity. }
  apply (proj1 (children_never_overlap bi2 Hgrown) 0%nat 1%nat);
    [lia|reflexivity|reflexivity].
Defined.

(** *** Several children at once *)

Lemma add_children_app self fitted rest self1 :
  add_children self fitted = (self1, Ok tt) →
  add_children self (fitted ++ rest) = add_children self1 rest.
Proof.
  revert self. induction fitted as [|c fitted IH]; intros self; simpl.
  - by intros [= <-].
  - destruct (add_child self c) as [self'|e]; [apply IH|done].
Qed.

Lemma add_children_ok self fitted self1 :
  add_children self fitted = (self1, Ok tt) →
  slot self1 = slot self ∧
  children self1
  = children self ++ map (λ c, set_parent c (slot self)) fitted.
Proof.
  revert self. induction fitted as [|c fitted IH]; intros self; simpl.
  - intros [= <-]. by rewrite app_nil_r.
  - destruct (add_child self c) as [self'|e] eqn:E; [|done].
    intros [Hslot Hch]%IH.
    destruct (add_child_inv _ _ _ E) as (at' & _ & ->). simpl in *.
    by rewrite Hch, <- app_assoc.
Qed.

(** X5.  [add_children] is not all-or-nothing: when the first children
    fit and the next one does not, the call raises what the allocation of
    that child raises, the children that fitted stay in the slot, with
    their time allocated, and the children after it are not looked at. *)
Theorem add_children_keeps_the_children_that_fitted
    (self self1 : ResponsibleTimeslot) (fitted rest : list Timeslot)
    (child : Timeslot) (e : exn) :
  add_children self fitted = (self1, Ok tt) →
  add_child self1 child = Raise e →
  add_children self (fitted ++ child :: rest) = (self1, Raise e) ∧
  get_list_of_children self1
  = get_list_of_children self
    ++ map (λ c, set_parent c (slot self)) fitted ∧
  total_free (get_available_time self1)
  = total_free (get_available_time self) - total_duration fitted.
Proof.
  intros Hfit Hfail. split; [|split].
  - rewrite (add_children_app _ _ _ _ Hfit). simpl. by rewrite Hfail.
  - by apply add_children_ok.
  - clear Hfail. unfold get_available_time. revert self Hfit.
    induction fitted as [|c fitted IH]; intros self; simpl.
    + intros [= <-]. lia.
    + destruct (add_child self c) as [self'|e'] eqn:E; [|done].
      intros Hfit. rewrite (IH _ Hfit).
      destruct (add_child_inv _ _ _ E) as (at' & Hok & ->). simpl.
      rewrite (allocate_total_free _ _ _ _ Hok). unfold stop. lia.
Qed.

Lemma add_children_keeps_the_children_that_fitted_witness :
  let bi := ResponsibleTimeslot_init 0 "BI" 0 100 in
  let bti := Timeslot_init 1 "BTI" 0 10 in
  let bft := Timeslot_init 2 "SP-BFT" 5 20 in
  let sp := Timeslot_init 3 "SP-DATA" 50 10 in
  add_children bi ([bti] ++ bft :: [sp])
  = ({| slot := slot bi; at_ := [(10, 100)];
        children := [set_parent bti (slot bi)] |},
     Raise OverlappingAllocation).
Proof.
  intros bi bti bft sp.
  apply (add_children_keeps_the_children_that_fitted bi _ [bti] [sp] bft);
    reflexivity.
Defined.

(** *** Identifiers *)

Lemma get_new_ids_spec n self :
  get_new_ids n self
  = (seqZ (id_counter self) (Z.of_nat n),
     {| id_counter := id_counter self + Z.of_nat n |}).
Proof.
  revert self. induction n as [|n IH]; intros [k].
  - simpl. by rewrite Z.add_0_r.
  - cbn [get_new_ids get_new_id id_counter]. rewrite IH.
    cbn [id_counter]. rewrite Nat2Z.inj_succ, (seqZ_cons k) by lia.
    replace (Z.succ k) with (k + 1) by lia.
    replace (Z.pred (Z.succ (Z.of_nat n))) with (Z.of_nat n) by lia.
    by replace (k + Z.succ (Z.of_nat n)) with (k + 1 + Z.of_nat n) by lia.
Qed.

(** X6.  However many identifiers a [TimeslotIdGenerator] has given out,
    the identifiers it gives out next are new and pairwise different: [m]
    calls followed by [n] calls return [m + n] different identifiers. *)
Theorem identifiers_are_unique (m n : nat) (self : TimeslotIdGenerator) :
  let '(earlier, self') := get_new_ids m self in
  let '(ids, _) := get_new_ids n self' in
  NoDup (earlier ++ ids).
Proof.
  rewrite get_new_ids_spec, get_new_ids_spec. simpl.
  rewrite <- seqZ_app by lia. apply NoDup_seqZ.
Qed.

End SlotsFacts.

(** ** The order and quotient laws in exact arithmetic *)

Module ExactMoreFacts.
Import Exact ExactFacts.

Lemma nearest_bounds (x : Q) : Qfloor x ≤ nearest x ≤ Qfloor x + 1.
Proof.
  unfold nearest. destruct (_ ?= _)%Q; [destruct (Z.even _)| |]; lia.
Qed.

Lemma nearest_mono (x y : Q) : (x <= y)%Q → nearest x ≤ nearest y.
Proof.
  intros Hxy. pose proof (Qfloor_resp_le _ _ Hxy) as Hfloor.
  destruct (Z.eq_dec (Qfloor x) (Qfloor y)) as [Heq|Hne].
  - unfold nearest. rewrite <- Heq.
    assert (Hfrac : (x - inject_Z (Qfloor x) <= y - inject_Z (Qfloor x))%Q).
    { by apply Qplus_le_l. }
    destruct (x - inject_Z (Qfloor x) ?= 1 # 2)%Q eqn:Ex,
             (y - inject_Z (Qfloor x) ?= 1 # 2)%Q eqn:Ey;
      try (destruct (Z.even (Qfloor x))); try lia; exfalso;
      repeat match goal with
        | E : (_ ?= _)%Q = Eq |- _ => apply Qeq_alt in E
        | E : (_ ?= _)%Q = Lt |- _ => rewrite <- Qlt_alt in E
        | E : (_ ?= _)%Q = Gt |- _ => rewrite <- Qgt_alt in E
        end;
      assert (Hy : (y - inject_Z (Qfloor x) <= 1 # 2)%Q)
        by (first [rewrite Ey; apply Qle_refl | by apply Qlt_le_weak]);
      assert (Hx : (1 # 2 <= x - inject_Z (Qfloor x))%Q)
        by (first [rewrite Ex; apply Qle_refl | by apply Qlt_le_weak]);
      apply (Qlt_irrefl (1 # 2));
      first [ eapply Qle_lt_trans; [|exact Ey];
              eapply Qle_trans; [exact Hx|exact Hfrac]
            | eapply Qlt_le_trans; [exact Ex|];
              eapply Qle_trans; [exact Hfrac|exact Hy] ].
  - pose proof (nearest_bounds x). pose proof (nearest_bounds y). lia.
Qed.

#[export] Instance monotone : PyFloatMonotone.
Proof.
  split.
  - intros x x' y y' Hx%fle_Qle Hy%fle_Qle. apply fle_Qle. simpl.
    by apply Qplus_le_compat.
  - intros c x y Hc%flt_Qlt Hxy%fle_Qle. apply fle_Qle. simpl in *.
    rewrite (Qmult_comm c x), (Qmult_comm c y).
    apply Qmult_le_compat_r; [done|by apply Qlt_le_weak].
  - intros x y Hxy%fle_Qle. simpl. by apply nearest_mono.
Qed.

Lemma truncate_quotient (a b : Z) :
  0 < b → truncate (inject_Z a / inject_Z b) = a ÷ b.
Proof.
  intros Hb. destruct b as [|b|b]; [lia| |lia].
  unfold truncate, Qdiv, Qinv, Qmult, inject_Z. simpl.
  by rewrite Z.mul_1_r.
Qed.

#[export] Instance quotient : PyFloatQuotient.
Proof.
  split.
  - intros a b _ Hb. by apply truncate_quotient.
  - intros a b Ha Hb. simpl. rewrite truncate_quotient by done.
    assert (Hq : 0 ≤ (- a) ÷ b) by (apply Z.quot_pos; lia).
    rewrite Z.quot_opp_l in Hq by lia. lia.
Qed.

End ExactMoreFacts.

(** ** More on the helpers *)

Module HelpersMoreFacts.
Import Constants Helpers Aggregation HelpersFacts.

(** *** Several users *)

Lemma length_np_roll a i : length (np_roll a i) = length a.
Proof.
  unfold np_roll. destruct (length a) as [|n] eqn:E; [done|].
  rewrite length_app, length_drop, length_take, E.
  pose proof (Nat.mod_upper_bound i (S n)). lia.
Qed.

Lemma np_roll_lookup a shift i :
  (i < length a)%nat →
  np_roll a shift
    !! i = a !! ((i + (length a - shift `mod` length a)) `mod` length a)%nat.
Proof.
  intros Hi. unfold np_roll. destruct (length a) as [|n] eqn:E; [lia|].
  pose proof (Nat.mod_upper_bound shift (S n)) as Hk.
  set (k := (shift `mod` S n)%nat) in *.
  assert (Hdrop : length (drop (S n - k) a) = k).
  { rewrite length_drop. lia. }
  destruct (Nat.lt_ge_cases i k) as [Hlt|Hge].
  - rewrite lookup_app_l by lia. rewrite lookup_drop.
    f_equal. symmetry. rewrite Nat.mod_small by lia. lia.
  - rewrite lookup_app_r by lia. rewrite Hdrop.
    rewrite lookup_take_lt by lia. f_equal.
    replace (i + (S n - k))%nat with (i - k + 1 * S n)%nat by lia.
    rewrite Nat.Div0.mod_add. symmetry. apply Nat.mod_small. lia.
Qed.

Lemma length_np_add a b :
  length a = length b → length (np_add a b) = length a.
Proof. intros Hl. unfold np_add. rewrite length_zip_with. lia. Qed.

Lemma np_add_lookup a b i x y :
  a !! i = Some x → b !! i = Some y →
  np_add a b !! i = Some (int64 (x + y)).
Proof.
  intros Ha Hb. unfold np_add. rewrite lookup_zip_with, Ha, Hb. done.
Qed.

Lemma distribute_fits `{PyFloat} n carry bft_per_bi array :
  distribute n carry bft_per_bi = Ok array →
  Forall (λ x, fits_int64 x = true) array.
Proof.
  revert carry array. induction n as [|n IH]; intros carry array; simpl.
  - by intros [= <-].
  - destruct (fits_int64 _) eqn:E; [|done].
    destruct (distribute n _ _) as [rest|e] eqn:Er; [|done].
    cbn. intros [= <-]. constructor; [done|]. by eapply IH.
Qed.

(** The entry of [a] that [np.roll(a, u)] moves to the index [i]. *)
Definition rolled (a : list Z) (i u : nat) : Z :=
  default 0 (a !! ((i + (length a - u `mod` length a)) `mod` length a)%nat).

Lemma rolled_bound a i u B :
  0 ≤ B → Forall (λ x, Z.abs x ≤ B) a → Z.abs (rolled a i u) ≤ B.
Proof.
  intros HB Ha. unfold rolled. destruct (a !! _) as [x|] eqn:E; simpl.
  - eapply Forall_forall in Ha; [done|]. by eapply list_elem_of_lookup_2.
  - lia.
Qed.

Lemma out_of_sync_entries a B (k start : nat) acc (sums : nat → Z) c :
  0 ≤ B → Forall (λ x, Z.abs x ≤ B) a →
  (c + Z.of_nat k) * B < 2 ^ 63 → 0 ≤ c →
  length acc = length a →
  (∀ i, (i < length a)%nat →
     acc !! i = Some (sums i) ∧ Z.abs (sums i) ≤ c * B) →
  let multi_user :=
    foldl (λ multi_user i, np_add multi_user (np_roll a i)) acc
          (seq start k) in
  length multi_user = length a ∧
  ∀ i, (i < length a)%nat →
    multi_user !! i
    = Some (sums i + np_sum (map (rolled a i) (seq start k))).
Proof.
  intros HB Ha. revert start acc sums c.
  induction k as [|k IH]; intros start acc sums c Hc Hc0 Hlen Hacc; simpl.
  - split; [done|]. intros i Hi. destruct (Hacc i Hi) as [-> _].
    f_equal. unfold np_sum. simpl. lia.
  - assert (Hstep : ∀ i, (i < length a)%nat →
      np_add acc (np_roll a start) !! i = Some (sums i + rolled a i start) ∧
      Z.abs (sums i + rolled a i start) ≤ (c + 1) * B).
    { intros i Hi. destruct (Hacc i Hi) as [Hs Hb].
      pose proof (rolled_bound a i start B HB Ha) as Hr.
      assert (Hroll : np_roll a start !! i = Some (rolled a i start)).
      { rewrite np_roll_lookup by done. unfold rolled.
        destruct (a !! _) as [x|] eqn:E; [done|].
        apply lookup_ge_None in E.
        pose proof (Nat.mod_upper_bound
                      (i + (length a - start `mod` length a)) (length a)).
        lia. }
      rewrite (np_add_lookup _ _ _ _ _ Hs Hroll).
      assert (Hfit : Z.abs (sums i + rolled a i start) ≤ (c + 1) * B)
        by nia.
      split; [|done]. f_equal. apply int64_fits. unfold fits_int64.
      apply andb_true_intro. split; [apply Z.leb_le|apply Z.ltb_lt]; nia. }
    destruct (IH (S start) (np_add acc (np_roll a start))
                 (λ i, sums i + rolled a i start) (c + 1)) as [Hl Hs].
    + lia.
    + lia.
    + rewrite length_np_add; [done|]. by rewrite length_np_roll.
    + done.
    + split; [done|]. intros i Hi. rewrite (Hs i Hi). f_equal.
      unfold np_sum. simpl. lia.
Qed.

Lemma out_of_sync_lookup a users :
  0 ≤ users → Forall (λ x, Z.abs x * users < 2 ^ 63) a →
  length (out_of_sync a users) = length a ∧
  ∀ i, (i < length a)%nat →
    out_of_sync a users !! i
    = Some (np_sum (map (rolled a i) (seq 0 (Z.to_nat users)))).
Proof.
  intros Husers Ha. unfold out_of_sync.
  destruct (Z.eq_dec users 0) as [->|Hpos].
  { simpl. split; [apply length_replicate|]. intros i Hi.
    by apply lookup_replicate_2. }
  set (B := (2 ^ 63 - 1) / users).
  assert (HB : 0 ≤ B) by (apply Z.div_pos; lia).
  assert (HBu : users * B ≤ 2 ^ 63 - 1) by (apply Z.mul_div_le; lia).
  destruct (out_of_sync_entries a B (Z.to_nat users) 0
              (np_zeros (length a)) (λ _, 0) 0) as [Hl Hs].
  - done.
  - eapply Forall_impl; [exact Ha|]. simpl. intros x Hx.
    apply Z.div_le_lower_bound; lia.
  - rewrite Z2Nat.id by lia. lia.
  - done.
  - apply length_replicate.
  - intros i Hi. split; [by apply lookup_replicate_2|lia].
  - split; [done|]. intros i Hi. rewrite (Hs i Hi). f_equal.
Qed.

Section Users.
Context `{PyFloat}.

(** X7.  For [num_of_users ≥ 0] users the scheduler prints what it prints
    for one user and returns, at every beacon interval [i], the sum of the
    entries that the single-user array has at [i], [i - 1], ...,
    [i - (num_of_users - 1)], counted cyclically: the single-user array
    summed with its shifts by 1, ..., [num_of_users - 1] beacon intervals.
    The entries are [int64] numbers; the sums are the exact ones as long
    as [num_of_users] times an entry stays below 2^63. *)
Theorem users_multiply_the_allocations (draw : nat)
    (num_of_observed_bi bi_duration bft_period num_of_users : Z)
    (notices : list string) (single : list Z) :
  0 ≤ num_of_users →
  get_number_of_bft_allocations draw num_of_observed_bi bi_duration
                                bft_period 1
  = (notices, Ok single) →
  Forall (λ x, Z.abs x * num_of_users < 2 ^ 63) single →
  ∃ multi_user,
    get_number_of_bft_allocations draw num_of_observed_bi bi_duration
                                  bft_period num_of_users
    = (notices, Ok multi_user) ∧
    length multi_user = length single ∧
    ∀ i, (i < length single)%nat →
      multi_user !! i
      = Some (np_sum (map (λ u, default 0
                (single !! ((i + (length single - u `mod` length single))
                            `mod` length single)%nat))
                (seq 0 (Z.to_nat num_of_users)))).
Proof.
  intros Husers. unfold get_number_of_bft_allocations.
  destruct (num_of_observed_bi <? 0); [done|].
  destruct (bft_period >? num_of_observed_bi * bi_duration).
  - destruct (num_of_observed_bi <=? 0); [done|].
    rewrite out_of_sync_single_user by apply one_hot_fits.
    intros [= <- <-] Hfit. eexists. split; [done|].
    by apply out_of_sync_lookup.
  - destruct (bft_period =? 0); [done|].
    destruct (distribute _ _ _) as [array|e] eqn:E; [|done].
    rewrite out_of_sync_single_user by (by eapply distribute_fits).
    intros [= <- <-] Hfit. eexists. split; [done|].
    by apply out_of_sync_lookup.
Qed.

End Users.

Lemma users_multiply_the_allocations_witness :
  ∃ multi_user,
    get_number_of_bft_allocations (H:=Exact.arithmetic) 1 3 10 31 2
    = ([fallback_notice 3 10 31], Ok multi_user) ∧
    length multi_user = 3%nat ∧
    ∀ i, (i < 3)%nat →
      multi_user !! i
      = Some (np_sum (map (λ u, default 0
                ([0; 1; 0] !! ((i + (3 - u `mod` 3)) `mod` 3)%nat))
                (seq 0 2))).
Proof.
  apply (users_multiply_the_allocations (H:=Exact.arithmetic)
           1 3 10 31 2 [fallback_notice 3 10 31] [0; 1; 0]).
  - lia.
  - reflexivity.
  - repeat constructor.
Defined.

(** *** Missing table entries *)

Section Lookups.
Context `{PyFloat}.

Lemma loc_key_error {A} (table : list (float * A)) key :
  loc table key = Raise KeyError
  ↔ ∀ k row, (k, row) ∈ table → feqb k key = false.
Proof.
  induction table as [|[k row] table IH]; simpl.
  - split; [|done]. by intros _ k row ?%elem_of_nil.
  - destruct (feqb k key) eqn:E.
    + split; [done|]. intros Hall.
      rewrite (Hall k row) in E; [done|]. by left.
    + rewrite IH. split.
      * intros Hall k' row' [[= -> ->]|Hin]%elem_of_cons; [done|].
        by apply (Hall k' row').
      * intros Hall k' row' Hin. apply (Hall k' row'). by right.
Qed.

Lemma loc_rows_nil {A} (table : list (float * A)) key :
  loc_rows table key = []
  ↔ ∀ k row, (k, row) ∈ table → feqb k key = false.
Proof.
  unfold loc_rows. induction table as [|[k row] table IH]; simpl.
  - split; [|done]. by intros _ k row ?%elem_of_nil.
  - destruct (feqb k key) eqn:E.
    + split; [done|]. intros Hall.
      rewrite (Hall k row) in E; [done|]. by left.
    + rewrite IH. split.
      * intros Hall k' row' [[= -> ->]|Hin]%elem_of_cons; [done|].
        by apply (Hall k' row').
      * intros Hall k' row' Hin. apply (Hall k' row'). by right.
Qed.

Lemma loc_raises {A} (table : list (float * A)) key e :
  loc table key = Raise e → e = KeyError.
Proof.
  induction table as [|[k row] table IH]; simpl; [by intros [= <-]|].
  by destruct (feqb k key).
Qed.

(** X8.  [get_optimal_mcs] raises [KeyError], and not the [RuntimeError]
    of an unattainable BER, exactly when the error-rate table has no row
    for the signal-to-noise point, whatever the maximal BER is. *)
Theorem missing_point_raises_key_error (Eb_N0 max_BER : float)
    (ber : ber_table) :
  get_optimal_mcs Eb_N0 max_BER ber = Raise KeyError
  ↔ ∀ point row, (point, row) ∈ ber → feqb point Eb_N0 = false.
Proof.
  rewrite <- loc_rows_nil. unfold get_optimal_mcs.
  destruct (loc_rows ber Eb_N0) as [|[point row] [|r rows]] eqn:E.
  - done.
  - split; [|done]. by destruct (np_max _).
  - done.
Qed.

Lemma py_index_spec {A} (l : list A) (i : Z) :
  let n := Z.of_nat (length l) in
  (- n ≤ i < n → py_index l i = match l !! Z.to_nat (i `mod` n) with
                                 | Some x => Ok x
                                 | None => Raise IndexError
                                 end ∧ is_Some (l !! Z.to_nat (i `mod` n))) ∧
  (¬ (- n ≤ i < n) → py_index l i = Raise IndexError).
Proof.
  intros n. unfold py_index. fold n. split.
  - intros Hi.
    assert (Hmod : (if i <? 0 then i + n else i) = i `mod` n).
    { destruct (Z.ltb_spec i 0).
      - apply (Z.mod_unique_pos _ _ (-1)); lia.
      - symmetry. apply Z.mod_small. lia. }
    rewrite Hmod.
    assert (0 ≤ i `mod` n < n) as Hrange by (apply Z.mod_pos_bound; lia).
    destruct (Z.leb_spec 0 (i `mod` n)); [|lia].
    destruct (Z.ltb_spec (i `mod` n) n); [|lia]. simpl.
    split; [done|]. apply lookup_lt_is_Some. lia.
  - intros Hi. destruct (Z.ltb_spec i 0);
      [destruct (Z.leb_spec 0 (i + n)), (Z.ltb_spec (i + n) n)
      |destruct (Z.leb_spec 0 i), (Z.ltb_spec i n)]; simpl; try done; lia.
Qed.

(** X9.  [calc_data_frame_ppdu_size] raises [ZeroDivisionError] when
    [672 * code_rate] is zero; otherwise it returns a size exactly when
    [int(modulation_rate / 2)] lies between -4 and 3, and raises
    [IndexError] when it does not: a negative index down to -4 is not
    refused but reads [N_CBPB] from its end. *)
Theorem calc_data_frame_ppdu_size_failures (PSDU_length_bytes : Z)
    (modulation_rate code_rate : float) :
  let index := trunc (fdiv modulation_rate (of_int 2)) in
  let size :=
    calc_data_frame_ppdu_size PSDU_length_bytes modulation_rate code_rate in
  (feqb (fmul (of_int 672) code_rate) (of_int 0) = true →
     size = Raise ZeroDivisionError) ∧
  (feqb (fmul (of_int 672) code_rate) (of_int 0) = false →
     (- 4 ≤ index < 4 →
        ∃ N_cbpb,
          N_CBPB !! Z.to_nat (index `mod` 4) = Some N_cbpb ∧
          size = Ok (4416 + 512 *
            ceil (fdiv (fmul (fdiv (of_int (PSDU_length_bytes * 8))
                                   (fmul (of_int 672) code_rate))
                             (of_int 672)) (of_int N_cbpb)))) ∧
     (¬ (- 4 ≤ index < 4) → size = Raise IndexError)).
Proof.
  intros index size. unfold size, calc_data_frame_ppdu_size. fold index.
  split; [by intros ->|]. intros ->.
  destruct (py_index_spec N_CBPB index) as [Hin Hout].
  change (Z.of_nat (length N_CBPB)) with 4 in *. split.
  - intros Hi. destruct (Hin Hi) as [-> [N HN]]. rewrite HN.
    exists N. split; [done|]. unfold mbind, result_bind.
    unfold PPDU_PREAMBLE_LEN, PPDU_HEADER_LEN, PPDU_GI_LENGTH.
    f_equal. lia.
  - intros Hi. by rewrite (Hout Hi).
Qed.

End Lookups.

(** *** Longer payloads make longer control frames *)

Section ControlFrames.
Context `{PyFloat} `{!PyFloatOrder} `{!PyFloatMonotone}.

(** X10.  The size of a control-mode PPDU is monotonically non-decreasing
    in the payload size. *)
Theorem calc_control_frame_ppdu_size_monotone (p1 p2 : Z) :
  p1 ≤ p2 →
  fle (calc_control_frame_ppdu_size p1) (calc_control_frame_ppdu_size p2).
Proof.
  intros Hp. unfold calc_control_frame_ppdu_size, np_ceil, L_CWD.
  apply fadd_mono; [apply fle_refl|].
  apply fmul_mono_l; [by apply of_int_pos|].
  apply fadd_mono; [|apply of_int_mono; lia].
  apply fmul_mono_r; [by apply of_int_pos|].
  apply fadd_mono; [apply fle_refl|].
  apply of_int_mono, ceil_mono, fdiv_mono_l; [by apply of_int_pos|].
  apply of_int_mono. lia.
Qed.

End ControlFrames.

Import ExactFacts ExactMoreFacts.

Lemma calc_control_frame_ppdu_size_monotone_witness :
  fle (calc_control_frame_ppdu_size (H:=Exact.arithmetic) 14)
      (calc_control_frame_ppdu_size (H:=Exact.arithmetic) 32).
Proof.
  apply (calc_control_frame_ppdu_size_monotone (H:=Exact.arithmetic) 14 32).
  lia.
Defined.

(** *** The longest A-MPDU *)

Section Quotients.
Context `{PyFloat} `{!PyFloatQuotient}.

Lemma max_mpdu_octets_bound Rm Rc : max_mpdu_octets Rm Rc ≤ MAX_PSDU_LENGTH.
Proof.
  unfold max_mpdu_octets. cbv zeta.
  match goal with |- context [?x >? _] => destruct (Z.gtb_spec x MAX_PSDU_LENGTH) end;
    lia.
Qed.

(** X11.  When [calc_max_a_mpdu_subframes] returns more than one subframe
    for a subframe length that is not negative, the A-MPDU of that many
    subframes is not longer than the longest PSDU, 262143 octets. *)
Theorem longest_a_mpdu_fits_the_psdu
    (mcs_table : list (float * (float * float))) (mcs : float)
    (subframe_length num_of_subframes : Z) :
  0 ≤ subframe_length →
  calc_max_a_mpdu_subframes mcs_table mcs subframe_length
  = Ok num_of_subframes →
  1 < num_of_subframes →
  calc_a_mpdu_length num_of_subframes subframe_length ≤ 262143.
Proof.
  intros HL. unfold calc_max_a_mpdu_subframes.
  destruct (loc mcs_table mcs) as [[Rm Rc]|e]; [|done].
  unfold mbind, result_bind. cbv zeta. simpl fst. simpl snd.
  pose proof (max_mpdu_octets_bound Rm Rc) as Hmax.
  unfold MAX_PSDU_LENGTH in Hmax.
  set (octets := max_mpdu_octets Rm Rc) in *.
  assert (Hpad : 0 ≤ subframe_length `mod` 4 < 4)
    by (apply Z.mod_pos_bound; lia).
  set (padding := subframe_length `mod` 4) in *.
  destruct (Z.eqb_spec (4 + subframe_length + padding) 0); [lia|].
  intros [= <-] Hn. unfold calc_a_mpdu_length. fold padding.
  destruct (Z.leb_spec (trunc (fdiv (of_int octets)
              (of_int (4 + subframe_length + padding)))) 1); [lia|].
  destruct (Z.le_gt_cases octets 0) as [Hneg|Hpos].
  { pose proof (trunc_fdiv_nonpos octets (4 + subframe_length + padding)
                  Hneg ltac:(lia)). lia. }
  rewrite trunc_fdiv_of_int in * by lia.
  rewrite Z.quot_div_nonneg in * by lia.
  pose proof (Z.mul_div_le octets (4 + subframe_length + padding)
                ltac:(lia)).
  nia.
Qed.

End Quotients.

Lemma longest_a_mpdu_fits_the_psdu_witness :
  calc_a_mpdu_length 172 1516 ≤ 262143.
Proof.
  apply (longest_a_mpdu_fits_the_psdu (H:=Exact.arithmetic)
           [((12 # 1)%Q, ((4 # 1)%Q, (13 # 16)%Q))] (12 # 1)%Q 1516 172).
  - lia.
  - reflexivity.
  - lia.
Defined.

End HelpersMoreFacts.

(** ** More on the duration generator *)

Module DurationMoreFacts.
Import Constants Helpers HelpersMoreFacts Duration_generator DurationFacts.

Section Durations.
Context `{PyFloat}.

Lemma generate_data_with_overhead_duration_cases
    (self : DurationGenerator) (enable_cts enable_ack : bool) :
  generate_data_with_overhead_duration self enable_cts enable_ack
  = match data_ppdu_duration self,
          (if enable_cts then cts_duration self else Some 0),
          (if enable_ack then ack_duration self else Some 0) with
    | Some data_ppdu, Some cts, Some ack =>
        Ok (set_data_with_overhead_duration
              (data_ppdu + 13000
               + (if enable_cts then cts + 3000 else 0)
               + (if enable_ack then ack + 3000 else 0)) self)
    | _, _, _ => Raise (RuntimeError "Tried fetching unset duration.")
    end.
Proof.
  unfold generate_data_with_overhead_duration, get_data_ppdu_duration,
    get_cts_duration, get_ack_duration, check_existence_and_return_duration,
    DIFS_NS, SIFS_NS.
  destruct (data_ppdu_duration self) as [d|], enable_cts, enable_ack,
    (cts_duration self) as [c|], (ack_duration self) as [a|];
    unfold mbind, result_bind; try reflexivity; do 2 f_equal; lia.
Qed.

Lemma enabled_is_Some (enabled : bool) (duration : option Z) :
  (enabled = true → is_Some duration)
  ↔ is_Some (if enabled then duration else Some 0).
Proof.
  destruct enabled; split.
  - intros Hd. by apply Hd.
  - by intros Hd _.
  - intros _. by eexists.
  - by intros _ [=].
Qed.

Lemma enabled_default (enabled : bool) (duration : option Z) (v : Z) :
  (if enabled then duration else Some 0) = Some v →
  (if enabled then default 0 duration + 3000 else 0)
  = (if enabled then v + 3000 else 0).
Proof. destruct enabled; [by intros ->|done]. Qed.

(** X12.  [generate_data_with_overhead_duration] returns exactly when the
    data PPDU duration has been generated and so has the duration of every
    frame it is asked to include; otherwise it raises "Tried fetching
    unset duration." and stores nothing.  When it returns, the getter
    gives the data PPDU duration and DIFS, plus the CTS duration and SIFS
    with self-CTS, plus the ACK duration and SIFS with acknowledgements. *)
Theorem generate_data_with_overhead_duration_needs_its_parts
    (self : DurationGenerator) (enable_cts enable_ack : bool) :
  let ready :=
    is_Some (data_ppdu_duration self) ∧
    (enable_cts = true → is_Some (cts_duration self)) ∧
    (enable_ack = true → is_Some (ack_duration self)) in
  let outcome :=
    generate_data_with_overhead_duration self enable_cts enable_ack in
  (ready ↔ is_ok outcome) ∧
  (¬ ready →
     outcome = Raise (RuntimeError "Tried fetching unset duration.")) ∧
  (∀ self', outcome = Ok self' →
     get_data_with_overhead_duration self'
     = Ok (default 0 (data_ppdu_duration self) + 13000
           + (if enable_cts then default 0 (cts_duration self) + 3000 else 0)
           + (if enable_ack
              then default 0 (ack_duration self) + 3000 else 0))).
Proof.
  intros ready outcome. unfold ready, outcome.
  rewrite generate_data_with_overhead_duration_cases, !enabled_is_Some.
  destruct (data_ppdu_duration self) as [d|] eqn:Ed.
  2: { split; [split; [by intros [[? [=]] _]|by intros [? [=]]]|].
       split; [done|]. by intros self' [=]. }
  destruct (if enable_cts then cts_duration self else Some 0)
    as [c|] eqn:Ec.
  2: { split; [split; [by intros (_ & [? [=]] & _)|by intros [? [=]]]|].
       split; [done|]. by intros self' [=]. }
  destruct (if enable_ack then ack_duration self else Some 0)
    as [a|] eqn:Ea.
  2: { split; [split; [by intros (_ & _ & [? [=]])|by intros [? [=]]]|].
       split; [done|]. by intros self' [=]. }
  split; [split; [intros _; by eexists|intros _; repeat split; by eexists]|].
  split.
  - intros Hn. destruct Hn. repeat split; by eexists.
  - intros self' [= <-].
    rewrite (enabled_default _ _ _ Ec), (enabled_default _ _ _ Ea).
    reflexivity.
Qed.

Lemma getter_of_stored k self1 self2 :
  stored k self1 = stored k self2 → getter k self1 = getter k self2.
Proof.
  destruct self1 as [T1 g1 bti1 bft1 dp1 cts1 ack1 dwo1],
           self2 as [T2 g2 bti2 bft2 dp2 cts2 ack2 dwo2].
  destruct k; cbn;
    match goal with |- _ <$> ?o1 = _ <$> ?o2 → _ => destruct o1, o2 end;
    cbn; congruence.
Qed.

Lemma perform_keeps_table self c self' :
  perform self c = Ok self' → mcs_table self' = mcs_table self.
Proof.
  destruct c; simpl; try (by intros [= <-]).
  - unfold generate_data_ppdu_duration.
    destruct (loc _ _); [|done]. simpl.
    destruct (calc_data_frame_ppdu_size _ _ _); [|done]. simpl.
    by intros [= <-].
  - rewrite generate_data_with_overhead_duration_cases.
    destruct (data_ppdu_duration self); [|done].
    destruct (if enable_cts then _ else _); [|done].
    destruct (if enable_ack then _ else _); [|done].
    by intros [= <-].
Qed.

(** X13.  A [generate_*] call that returns changes the duration of its own
    kind only: the getter of every other kind returns, or raises, what it
    did before the call, and the scheme table is the same. *)
Theorem generate_leaves_the_other_durations
    (self self' : DurationGenerator) (c : call) (k : kind) :
  perform self c = Ok self' → generates c ≠ k →
  getter k self' = getter k self ∧ mcs_table self' = mcs_table self.
Proof.
  intros Hok Hk. split.
  - apply getter_of_stored. by eapply perform_frame.
  - by eapply perform_keeps_table.
Qed.

End Durations.

Lemma generate_data_with_overhead_duration_needs_its_parts_witness :
  let self :=
    set_data_ppdu_duration 10364
      (generate_cts_duration (H:=Exact.arithmetic) (new [])) in
  is_ok (generate_data_with_overhead_duration self true false).
Proof.
  intros self.
  apply (proj1 (proj1 (generate_data_with_overhead_duration_needs_its_parts
                         self true false))).
  split; [by eexists|]. split; [intros _; by eexists|done].
Defined.

Lemma generate_leaves_the_other_durations_witness :
  let self := generate_cts_duration (H:=Exact.arithmetic) (new []) in
  getter Cts (generate_ack_duration self 1) = getter Cts self ∧
  mcs_table (generate_ack_duration self 1) = mcs_table self.
Proof.
  intros self.
  apply (generate_leaves_the_other_durations (H:=Exact.arithmetic)
           self _ (GenerateAck 1) Cts); [reflexivity|discriminate].
Defined.

End DurationMoreFacts.

(** ** The set-up of a study *)

Module StudyFacts.
Import Constants Helpers Aggregation Duration_generator In_out_study.

Section Study.
Context `{PyFloat}.

(** X14.  The period between two PSDUs that [FastInOutStudy.run] computes
    is the duration [set_data_with_overhead_duration] has stored, when the
    flags set on the study are the flags that duration was generated with
    and both the CTS and the ACK duration have been generated.  The period
    reads both durations even when their flag is off: with one of them
    missing it raises "Tried fetching unset duration.", although the
    stored duration exists. *)
Theorem arrival_period_is_the_duration_with_overhead
    (self self' : InOutStudy) (cts ack : bool) :
  In_out_study.set_data_with_overhead_duration self cts ack
  = (self', Ok tt) →
  psdu_arrival_period
    (set_ack_enabled_flag (set_cts_enabled_flag self' cts) ack)
  = match cts_duration (dg self), ack_duration (dg self) with
    | Some _, Some _ => get_data_with_overhead_duration (dg self')
    | _, _ => Raise (RuntimeError "Tried fetching unset duration.")
    end.
Proof.
  unfold In_out_study.set_data_with_overhead_duration.
  destruct (generate_data_with_overhead_duration (dg self) cts ack)
    as [dg'|e] eqn:E; [|done].
  intros [= <-].
  unfold generate_data_with_overhead_duration, get_data_ppdu_duration,
    get_cts_duration, get_ack_duration, check_existence_and_return_duration
    in E.
  unfold psdu_arrival_period, set_ack_enabled_flag, set_cts_enabled_flag,
    attribute, get_data_with_overhead_duration, get_data_ppdu_duration,
    get_cts_duration, get_ack_duration, check_existence_and_return_duration.
  cbn.
  destruct (data_ppdu_duration (dg self)) as [d|] eqn:Ed; [|done].
  destruct cts, ack, (cts_duration (dg self)) as [c|] eqn:Ec,
    (ack_duration (dg self)) as [a|] eqn:Ea;
    cbn in E; try discriminate; injection E as <-; cbn;
    rewrite ?Ed, ?Ec, ?Ea; cbn; try reflexivity;
    f_equal; unfold SIFS_NS, DIFS_NS; lia.
Qed.

(** X15.  [set_mpdu_length] with maximal aggregation of MSDUs of a positive
    length [L] packs [n = 7935 // L] subframes.  It returns exactly when
    there is nothing to aggregate ([n ≤ 1], whatever the length) or the
    aggregate, with its subframe headers and padding, is within 7935
    octets; the MPDU is then 16 octets longer than the MSDU or the
    aggregate.  Otherwise the call raises after it has stored the number
    of subframes, and leaves the MPDU length as it was. *)
Theorem set_mpdu_length_maximal_aggregation `{!PyFloatQuotient}
    (self : InOutStudy) (L : Z) :
  0 < L →
  let n := MAX_A_MSDU_LENGTH ÷ L in
  let total := n * (2 + L) + (n - 1) * (L `mod` 4) in
  let fits := n ≤ 1 ∨ total ≤ MAX_A_MSDU_LENGTH in
  let after := set_mpdu_length self L true in
  (fits ↔ after.2 = Ok tt) ∧
  (fits →
     mpdu_length_bytes after.1
     = Some (16 + (if n <=? 1 then L else total))) ∧
  (¬ fits →
     raises after.2 ∧
     num_of_a_msdu_subframes after.1 = Some n ∧
     mpdu_length_bytes after.1 = mpdu_length_bytes self).
Proof.
  intros HL n total fits after. unfold after, set_mpdu_length.
  destruct (L =? 0) eqn:E0; [lia|].
  rewrite trunc_fdiv_of_int by (unfold MAX_A_MSDU_LENGTH; lia).
  fold n. unfold calc_a_msdu_length. fold total.
  unfold fits. destruct (n <=? 1) eqn:En.
  - cbn. split; [split; [done|intros _; left; lia]|].
    split; [done|]. intros Hn. destruct Hn. left. lia.
  - destruct (total >? MAX_A_MSDU_LENGTH) eqn:Et; cbn.
    + split; [split; [lia|done]|]. split; [lia|].
      intros _. split; [by eexists|done].
    + split; [split; [done|intros _; right; lia]|].
      split; [done|]. intros Hn. destruct Hn. right. lia.
Qed.

(** X16.  [set_psdu_length] returns exactly when the MPDU length has been
    set and, for maximal aggregation, the scheme has been set, is a row of
    the scheme table, and the padded subframe is not of length zero.  When
    it raises, the PSDU length is what it was before the call. *)
Theorem set_psdu_length_needs_the_mpdu_length
    (self : InOutStudy) (mpdu_max_agg : bool) :
  let after := set_psdu_length self mpdu_max_agg in
  (after.2 = Ok tt ↔
     ∃ L, mpdu_length_bytes self = Some L ∧
          (mpdu_max_agg = true →
             ∃ scheme, mcs self = Some scheme ∧
                       is_ok (loc (mcs_table (dg self)) scheme) ∧
                       4 + L + L `mod` 4 ≠ 0)) ∧
  (raises after.2 → psdu_length_bytes after.1 = psdu_length_bytes self).
Proof.
  unfold set_psdu_length, calc_max_a_mpdu_subframes, attribute.
  destruct mpdu_max_agg; cbn.
  - destruct (mcs self) as [scheme|] eqn:Em; cbn.
    2: { split; [|done]. split; [done|].
         by intros (L & _ & Hs); destruct (Hs eq_refl) as (? & [=] & _). }
    destruct (mpdu_length_bytes self) as [L|] eqn:EL; cbn.
    2: { split; [|done]. split; [done|]. by intros (L & [=] & _). }
    destruct (loc (mcs_table (dg self)) scheme) as [rates|e] eqn:Er; cbn.
    2: { split; [|done]. split; [done|].
         intros (L' & _ & Hs). destruct (Hs eq_refl) as (s & [= <-] & Hok & _).
         rewrite Er in Hok. by destruct Hok. }
    destruct (4 + L + L `mod` 4 =? 0) eqn:Ez; cbn.
    { split; [|done]. split; [done|].
      intros (L' & [= <-] & Hs). destruct (Hs eq_refl) as (_ & _ & _ & Hz).
      lia. }
    rewrite ?EL; cbn. split; [|by intros [? [=]]].
    split; [|done]. intros _. exists L. split; [done|]. intros _.
    exists scheme. split; [done|]. split; [|lia].
    rewrite Er. by eexists.
  - destruct (mpdu_length_bytes self) as [L|] eqn:EL; cbn.
    + split; [|by intros [? [=]]]. split; [|done].
      intros _. exists L. by split.
    + split; [|done]. split; [done|]. by intros (L & [=] & _).
Qed.

End Study.

Import ExactFacts ExactMoreFacts.

Lemma set_mpdu_length_maximal_aggregation_witness :
  let after :=
    set_mpdu_length (H:=Exact.arithmetic)
      (InOutStudy_init "FastInOutStudy" [] 100000000 10) 3967 true in
  raises after.2 ∧ num_of_a_msdu_subframes after.1 = Some 2 ∧
  mpdu_length_bytes after.1 = None.
Proof.
  intros after.
  apply (proj2 (proj2 (set_mpdu_length_maximal_aggregation
                         (H:=Exact.arithmetic)
                         (InOutStudy_init "FastInOutStudy" [] 100000000 10)
                         3967 ltac:(lia)))).
  vm_compute. intros [Hn|Hn]; by apply Hn.
Defined.

Lemma arrival_period_is_the_duration_with_overhead_witness :
  let self :=
    assign_dg
      (Duration_generator.set_data_ppdu_duration 10364
         (generate_ack_duration
            (generate_cts_duration (H:=Exact.arithmetic)
               (Duration_generator.new [])) 1))
      (InOutStudy_init "FastInOutStudy" [] 100000000 10) in
  let self' :=
    (In_out_study.set_data_with_overhead_duration self true true).1 in
  psdu_arrival_period
    (set_ack_enabled_flag (set_cts_enabled_flag self' true) true)
  = get_data_with_overhead_duration (dg self').
Proof.
  intros self self'.
  apply (arrival_period_is_the_duration_with_overhead
           (H:=Exact.arithmetic) self self' true true).
  reflexivity.
Defined.

End StudyFacts.

(** ** The status read back from a log *)

Module LegacyFacts.
Import Helpers HelpersMoreFacts Legacy.

Lemma prefix_append (needle rest : string) :
  String.prefix needle (needle +:+ rest) = true.
Proof.
  induction needle as [|c needle IH]; simpl; [by destruct rest|].
  by destruct (Ascii.ascii_dec c c).
Qed.

Lemma is_infix_here (needle line : string) :
  String.prefix needle line = true → is_infix needle line = true.
Proof. intros Hp. destruct line; cbn [is_infix]; by rewrite Hp. Qed.

Lemma is_infix_later (needle before line : string) :
  is_infix needle line = true → is_infix needle (before +:+ line) = true.
Proof.
  intros Hl. induction before as [|c before IH]; [done|].
  simpl. rewrite IH. apply orb_true_r.
Qed.

Lemma is_infix_between (needle before after : string) :
  is_infix needle (before +:+ needle +:+ after) = true.
Proof. apply is_infix_later, is_infix_here, prefix_append. Qed.

Lemma append_assoc (a b c : string) : (a +:+ b) +:+ c = a +:+ (b +:+ c).
Proof.
  induction a as [|x a IH]; [done|].
  change (String x ((a +:+ b) +:+ c) = String x (a +:+ (b +:+ c))).
  by rewrite IH.
Qed.

Section Status.
Context `{PyFloat}.

(** X17.  A log whose last line is the printed message of the
    [RuntimeError] of [get_optimal_mcs] is read back as status [1]: the
    message, whatever the threshold and the noise level it quotes, holds
    both words [get_status_from_stdout] looks for. *)
Theorem unattainable_ber_is_read_back_as_status_1
    (Eb_N0 max_BER : float) (ber : ber_table) (msg : string)
    (lines : list string) :
  get_optimal_mcs Eb_N0 max_BER ber = Raise (RuntimeError msg) →
  get_status_from_stdout (lines ++ [printed msg]) = Ok 1.
Proof.
  unfold get_optimal_mcs.
  destruct (loc_rows ber Eb_N0) as [|[point row] [|r rows]]; [done| |done].
  destruct (np_max _); [done|]. intros [= <-].
  unfold get_status_from_stdout, printed. rewrite last_snoc.
  assert (is_infix "BER"
            (("BER " +:+ fstr max_BER +:+ " unattainable at "
              +:+ fstr Eb_N0 +:+ " dB.")
             +:+ String (Ascii.ascii_of_nat 10) EmptyString) = true) as ->.
  { apply is_infix_here. reflexivity. }
  assert (is_infix "unattainable"
            (("BER " +:+ fstr max_BER +:+ " unattainable at "
              +:+ fstr Eb_N0 +:+ " dB.")
             +:+ String (Ascii.ascii_of_nat 10) EmptyString) = true) as ->.
  { rewrite !append_assoc.
    apply (is_infix_later _ "BER "), is_infix_later.
    apply (is_infix_between "unattainable" " "). }
  reflexivity.
Qed.

End Status.

Lemma unattainable_ber_is_read_back_as_status_1_witness :
  let ber := [((5 # 1)%Q, [((1 # 1)%Q, (1 # 100)%Q)])] in
  ∃ msg,
    get_optimal_mcs (H:=Exact.arithmetic) (5 # 1)%Q (1 # 100000)%Q ber
    = Raise (RuntimeError msg) ∧
    get_status_from_stdout ([printed "Begin: 2024-01-01T00:00:00"]
                            ++ [printed msg]) = Ok 1.
Proof.
  intros ber. eexists. split; [reflexivity|].
  apply (unattainable_ber_is_read_back_as_status_1 (H:=Exact.arithmetic)
           (5 # 1)%Q (1 # 100000)%Q ber).
  reflexivity.
Defined.

End LegacyFacts.

(** ** The order of the set-up calls *)

Module SetupFacts.
Import Constants Helpers Aggregation Duration_generator In_out_study.
Import DurationMoreFacts.

Section Setup.
Context `{PyFloat}.

Lemma set_psdu_length_stores (self self' : InOutStudy) (agg : bool) :
  set_psdu_length self agg = (self', Ok tt) →
  is_Some (num_of_a_mpdu_subframes self') ∧ dg self' = dg self.
Proof.
  unfold set_psdu_length.
  destruct (if agg then _ else _) as [n|e]; [|done]. cbn.
  destruct (attribute _ _ _) as [L|e]; [|done].
  intros [= <-]. cbn. split; [by eexists|done].
Qed.

Lemma generate_data_ppdu_duration_stores
    (self self' : DurationGenerator) (payload_length : Z) (scheme : float) :
  generate_data_ppdu_duration self payload_length scheme = Ok self' →
  is_Some (data_ppdu_duration self') ∧
  cts_duration self' = cts_duration self ∧
  ack_duration self' = ack_duration self.
Proof.
  unfold generate_data_ppdu_duration.
  destruct (loc _ _) as [rates|e]; [|done]. cbn.
  destruct (calc_data_frame_ppdu_size _ _ _) as [size|e]; [|done]. cbn.
  intros [= <-]. cbn. split; [by eexists|done].
Qed.

(** X18.  The order in which a study is set up leaves no later step
    undefined.  On a study whose CTS duration exists (the constructor
    generates it), once [set_psdu_length] and, after [set_ack_duration],
    [set_data_ppdu_duration] have returned: [set_ack_duration] has
    returned too, [set_data_with_overhead_duration] returns for every
    choice of the two flags, and the period between PSDUs that [run]
    computes from these flags is defined and is the stored duration. *)
Theorem setup_order_leaves_the_period_defined
    (self s1 s2 s3 : InOutStudy) (mpdu_max_agg : bool)
    (outcome : result unit) :
  is_Some (cts_duration (dg self)) →
  set_psdu_length self mpdu_max_agg = (s1, Ok tt) →
  In_out_study.set_ack_duration s1 = (s2, outcome) →
  In_out_study.set_data_ppdu_duration s2 = (s3, Ok tt) →
  outcome = Ok tt ∧
  ∀ cts ack : bool, ∃ (s4 : InOutStudy) (period : Z),
    In_out_study.set_data_with_overhead_duration s3 cts ack = (s4, Ok tt) ∧
    psdu_arrival_period
      (set_ack_enabled_flag (set_cts_enabled_flag s4 cts) ack)
    = Ok period ∧
    get_data_with_overhead_duration (dg s4) = Ok period.
Proof.
  intros [c Hc] [[n Hn] Hdg]%set_psdu_length_stores.
  unfold In_out_study.set_ack_duration, attribute. rewrite Hn, Hdg.
  intros [= <- <-] Hs3. split; [done|]. revert Hs3.
  unfold In_out_study.set_data_ppdu_duration.
  destruct (_ ≫= _) as [dg'|e] eqn:Eg; [|done]. intros [= <-].
  assert (∃ L scheme,
            generate_data_ppdu_duration
              (generate_ack_duration (dg self) n) L scheme = Ok dg')
    as (L & scheme & Hg).
  { revert Eg. cbn. unfold attribute.
    destruct (psdu_length_bytes s1) as [L|]; [|done].
    destruct (mcs s1) as [scheme|]; [|done]. cbn. eauto. }
  apply generate_data_ppdu_duration_stores in Hg as ([d Hd] & Hct & Hak).
  cbn in Hct, Hak. rewrite Hc in Hct.
  intros cts ack.
  unfold In_out_study.set_data_with_overhead_duration. cbn.
  rewrite generate_data_with_overhead_duration_cases, Hd, Hct, Hak.
  destruct cts, ack; eexists; eexists;
    (split; [reflexivity|]);
    unfold psdu_arrival_period, get_data_with_overhead_duration,
      get_cts_duration, get_ack_duration, get_data_ppdu_duration,
      check_existence_and_return_duration; cbn;
    rewrite Hd, Hct, Hak; cbn; split; try reflexivity;
    f_equal; unfold SIFS_NS, DIFS_NS; lia.
Qed.

End Setup.

Lemma setup_order_leaves_the_period_defined_witness :
  let table := [((12 # 1)%Q, ((4 # 1)%Q, (13 # 16)%Q))] in
  let self :=
    (set_mpdu_length (H:=Exact.arithmetic)
       (assign_mcs (H:=Exact.arithmetic) (12 # 1)%Q
          (InOutStudy_init (H:=Exact.arithmetic)
             "FastInOutStudy" table 100000000 10))
       1500 false).1 in
  let s1 := (set_psdu_length self false).1 in
  let s2 := (In_out_study.set_ack_duration s1).1 in
  let s3 := (In_out_study.set_data_ppdu_duration s2).1 in
  (In_out_study.set_ack_duration s1).2 = Ok tt ∧
  ∀ cts ack : bool, ∃ (s4 : InOutStudy) (period : Z),
    In_out_study.set_data_with_overhead_duration s3 cts ack = (s4, Ok tt) ∧
    psdu_arrival_period
      (set_ack_enabled_flag (set_cts_enabled_flag s4 cts) ack)
    = Ok period ∧
    get_data_with_overhead_duration (dg s4) = Ok period.
Proof.
  intros table self s1 s2 s3.
  apply (setup_order_leaves_the_period_defined (H:=Exact.arithmetic)
           self s1 s2 s3 false).
  - by eexists.
  - reflexivity.
  - reflexivity.
  - reflexivity.
Defined.

End SetupFacts.
